(** * Class Multi-Chat backend: membership and messaging handlers

    A shallow embedding of [main.py] and [models.py].  The four tables of
    [models.py] are lists of rows in table order; a request handler is a
    program in a small session monad that mirrors the SQLAlchemy session the
    handler receives from [get_db]: queries read the open transaction,
    [db.add] / [db.delete] / attribute writes are queued until [db.commit]
    flushes them, bulk [query.delete()] runs at once, and every statement
    and every commit is written to a trace.

    What the database enforces is modelled as far as [models.py] declares
    it and every backend checks it: primary keys and the unique
    constraints.  Text is compared byte for byte, as PostgreSQL and SQLite
    compare it.  Column widths and foreign keys are not checked: no handler
    breaks a foreign key, and widths are enforced by some backends only.
    Keys come from one sequence per table.  Request bodies are taken as
    pydantic hands them to the handler. *)

From Stdlib Require Import ZArith List String Ascii Bool Lia.
From Stdlib Require Import Permutation Sorted DecimalString.
Import ListNotations.

Open Scope string_scope.
Open Scope list_scope.
Open Scope Z_scope.

(* ------------------------------------------------------------------ *)
(** ** Text helpers: [str.strip], [str.lower], [str.upper]

    Text is modelled as [string] over one-byte characters.  Case mapping
    covers the ASCII letters and leaves every other character alone; the
    white space removed by [strip] is what Python's [str.isspace] accepts
    in that range. *)

Module Py.

Definition is_space (c : ascii) : bool :=
  let n := nat_of_ascii c in
  ((9 <=? n) && (n <=? 13) || (28 <=? n) && (n <=? 32) || (n =? 133) || (n =? 160))%nat.

Definition lower_char (c : ascii) : ascii :=
  let n := nat_of_ascii c in
  if ((65 <=? n) && (n <=? 90))%nat then ascii_of_nat (n + 32) else c.

Definition upper_char (c : ascii) : ascii :=
  let n := nat_of_ascii c in
  if ((97 <=? n) && (n <=? 122))%nat then ascii_of_nat (n - 32) else c.

Fixpoint lstrip_chars (l : list ascii) : list ascii :=
  match l with
  | [] => []
  | c :: l' => if is_space c then lstrip_chars l' else l
  end.

Definition strip_chars (l : list ascii) : list ascii :=
  rev (lstrip_chars (rev (lstrip_chars l))).

Definition strip (s : string) : string :=
  string_of_list_ascii (strip_chars (list_ascii_of_string s)).

Definition lower (s : string) : string :=
  string_of_list_ascii (map lower_char (list_ascii_of_string s)).

Definition upper (s : string) : string :=
  string_of_list_ascii (map upper_char (list_ascii_of_string s)).

(** Python truthiness of a string, and [x or None]. *)
Definition truthy (s : string) : bool :=
  match s with EmptyString => false | _ => true end.

Definition or_none (s : string) : option string :=
  if truthy s then Some s else None.

Definition or_empty (o : option string) : string :=
  match o with Some s => s | None => "" end.

End Py.

(* ------------------------------------------------------------------ *)
(** ** Rows of [models.py] *)

Module User.
Record t := mk {
  id : Z;
  full_name : string;
  email : string;
  password : string;
  role : string;                 (* admin / teacher / student *)
  student_id : option string;
  staff_id : option string;
  avatar_url : option string
}.
Definition set_avatar_url (url : string) (u : t) : t :=
  mk (id u) (full_name u) (email u) (password u) (role u)
     (student_id u) (staff_id u) (Some url).
End User.

Module Class.
Record t := mk {
  id : Z;
  name : string;
  semester : option string;
  description : option string;
  code : string;
  owner_id : Z
}.
End Class.

Module ClassMember.
Record t := mk {
  id : Z;
  class_id : Z;
  user_id : Z;
  role : string;                 (* student / teacher *)
  status : string                (* pending / active / removed *)
}.
Definition set_status (st : string) (m : t) : t :=
  mk (id m) (class_id m) (user_id m) (role m) st.
End ClassMember.

Module Message.
Record t := mk {
  id : Z;
  class_id : Z;
  channel : string;
  sender_email : string;
  sender_name : string;
  content : string;
  attachments_json : string;
  timestamp : Z
}.
End Message.

(** The database: the four tables and the next value of each table's
    key sequence. *)
Record Store := mkStore {
  users : list User.t;
  classes : list Class.t;
  class_members : list ClassMember.t;
  messages : list Message.t;
  users_seq : Z;
  classes_seq : Z;
  class_members_seq : Z;
  messages_seq : Z
}.

Definition empty_store : Store := mkStore [] [] [] [] 1 1 1 1.

Inductive Table := Users | Classes | ClassMembers | Messages.

(** What the session sends to the database, in the order it is sent. *)
Inductive Event :=
| EvInsert (tb : Table) (key : Z)
| EvUpdate (tb : Table) (key : Z)
| EvDelete (tb : Table) (keys : list Z)
| EvCommit (snapshot : Store).

(** Objects the session holds until the next flush. *)
Inductive Pending :=
| NewUser (u : User.t)
| NewClass (c : Class.t)
| NewMember (m : ClassMember.t)
| NewMessage (m : Message.t)
| DirtyMemberStatus (key : Z) (st : string)
| DirtyUserAvatar (key : Z) (url : string)
| GoneUser (key : Z)
| GoneClass (key : Z)
| GoneMessage (key : Z).

Inductive Exn :=
| HTTPException (status_code : Z) (detail : string)
| IntegrityError
| InvalidRequestError
| TypeError
| ValidationError.

Inductive Outcome (A : Type) :=
| Ok (a : A)
| Raise (e : Exn).
Arguments Ok {A} a.
Arguments Raise {A} e.

Record Session := mkSession {
  txn : Store;                   (* the open transaction's view *)
  pending : list Pending;        (* db.add / db.delete / dirty attributes *)
  committed : Store;             (* what the last COMMIT made durable *)
  trace : list Event
}.

Definition M (A : Type) : Type := Session -> Outcome A * Session.

Definition ret {A} (a : A) : M A := fun ss => (Ok a, ss).

Definition bind {A B} (m : M A) (k : A -> M B) : M B :=
  fun ss => match m ss with
            | (Ok a, ss') => k a ss'
            | (Raise e, ss') => (Raise e, ss')
            end.

Definition raise {A} (e : Exn) : M A := fun ss => (Raise e, ss).

Declare Scope session_scope.
Delimit Scope session_scope with session.
Notation "x <- m ;; k" := (bind m (fun x => k))
  (at level 61, m at next level, right associativity) : session_scope.
Notation "m ;; k" := (bind m (fun _ => k))
  (at level 61, right associativity) : session_scope.
Open Scope session_scope.

(** [get_db]: open a session on the store, run the handler, close the
    session.  Closing drops whatever was not committed. *)
Definition open_session (s : Store) : Session := mkSession s [] s [].

Definition run {A} (m : M A) (s : Store) : Outcome A * Store * list Event :=
  let '(r, ss) := m (open_session s) in (r, committed ss, trace ss).

Definition result {A} (x : Outcome A * Store * list Event) : Outcome A := fst (fst x).
Definition final {A} (x : Outcome A * Store * list Event) : Store := snd (fst x).
Definition events {A} (x : Outcome A * Store * list Event) : list Event := snd x.

(** The snapshots made durable by the commits of a trace, oldest first. *)
Fixpoint commits (tr : list Event) : list Store :=
  match tr with
  | [] => []
  | EvCommit s :: tr' => s :: commits tr'
  | _ :: tr' => commits tr'
  end.

(* ------------------------------------------------------------------ *)
(** ** Session primitives *)

Definition get_txn : M Store := fun ss => (Ok (txn ss), ss).

Definition enqueue (p : Pending) : M unit :=
  fun ss => (Ok tt, mkSession (txn ss) (pending ss ++ [p]) (committed ss) (trace ss)).

(** [db.query(T).filter(p).first()] and [.all()].  Without [order_by] the
    rows come in table order. *)
Definition query_first {R} (table : Store -> list R) (p : R -> bool) : M (option R) :=
  fun ss => (Ok (find p (table (txn ss))), ss).

Definition query_all {R} (table : Store -> list R) (p : R -> bool) : M (list R) :=
  fun ss => (Ok (filter p (table (txn ss))), ss).

(** Table updates on a store. *)
Definition with_users (f : list User.t -> list User.t) (s : Store) : Store :=
  mkStore (f (users s)) (classes s) (class_members s) (messages s)
          (users_seq s) (classes_seq s) (class_members_seq s) (messages_seq s).
Definition with_classes (f : list Class.t -> list Class.t) (s : Store) : Store :=
  mkStore (users s) (f (classes s)) (class_members s) (messages s)
          (users_seq s) (classes_seq s) (class_members_seq s) (messages_seq s).
Definition with_class_members (f : list ClassMember.t -> list ClassMember.t) (s : Store) : Store :=
  mkStore (users s) (classes s) (f (class_members s)) (messages s)
          (users_seq s) (classes_seq s) (class_members_seq s) (messages_seq s).
Definition with_messages (f : list Message.t -> list Message.t) (s : Store) : Store :=
  mkStore (users s) (classes s) (class_members s) (f (messages s))
          (users_seq s) (classes_seq s) (class_members_seq s) (messages_seq s).

Definition bump (tb : Table) (s : Store) : Store :=
  match tb with
  | Users => mkStore (users s) (classes s) (class_members s) (messages s)
                     (users_seq s + 1) (classes_seq s) (class_members_seq s) (messages_seq s)
  | Classes => mkStore (users s) (classes s) (class_members s) (messages s)
                     (users_seq s) (classes_seq s + 1) (class_members_seq s) (messages_seq s)
  | ClassMembers => mkStore (users s) (classes s) (class_members s) (messages s)
                     (users_seq s) (classes_seq s) (class_members_seq s + 1) (messages_seq s)
  | Messages => mkStore (users s) (classes s) (class_members s) (messages s)
                     (users_seq s) (classes_seq s) (class_members_seq s) (messages_seq s + 1)
  end.

(** [db.query(T).filter(p).delete()]: one DELETE statement, sent at once. *)
Definition bulk_delete_members (p : ClassMember.t -> bool) : M unit :=
  fun ss =>
    let gone := map ClassMember.id (filter p (class_members (txn ss))) in
    (Ok tt, mkSession (with_class_members (filter (fun m => negb (p m))) (txn ss))
                      (pending ss) (committed ss)
                      (trace ss ++ [EvDelete ClassMembers gone])).

Definition bulk_delete_messages (p : Message.t -> bool) : M unit :=
  fun ss =>
    let gone := map Message.id (filter p (messages (txn ss))) in
    (Ok tt, mkSession (with_messages (filter (fun m => negb (p m))) (txn ss))
                      (pending ss) (committed ss)
                      (trace ss ++ [EvDelete Messages gone])).

(** Uniqueness declared in [models.py]. *)
Definition opt_clash (a b : option string) : bool :=
  match a, b with
  | Some x, Some y => (x =? y)%string
  | _, _ => false                (* NULLs never clash *)
  end.

Definition user_clash (u v : User.t) : bool :=
  (User.id u =? User.id v)
  || (User.email u =? User.email v)%string
  || opt_clash (User.student_id u) (User.student_id v)
  || opt_clash (User.staff_id u) (User.staff_id v).

Definition class_clash (c d : Class.t) : bool :=
  (Class.id c =? Class.id d) || (Class.code c =? Class.code d)%string.

Definition member_clash (m n : ClassMember.t) : bool :=
  (ClassMember.id m =? ClassMember.id n)
  || ((ClassMember.class_id m =? ClassMember.class_id n)
      && (ClassMember.user_id m =? ClassMember.user_id n)).   (* uq_class_user *)

Definition message_clash (m n : Message.t) : bool :=
  Message.id m =? Message.id n.

(** UPDATE ... WHERE id = k. *)
Definition update_row {R} (key : R -> Z) (k : Z) (f : R -> R) (r : R) : R :=
  if key r =? k then f r else r.

(** Flushing one queued object: the statement it becomes, or the
    constraint it breaks. *)
Definition flush_one (p : Pending) (s : Store) : option (Store * Event) :=
  match p with
  | NewUser u =>
      if existsb (user_clash u) (users s) then None
      else Some (with_users (fun l => l ++ [u]) s, EvInsert Users (User.id u))
  | NewClass c =>
      if existsb (class_clash c) (classes s) then None
      else Some (with_classes (fun l => l ++ [c]) s, EvInsert Classes (Class.id c))
  | NewMember m =>
      if existsb (member_clash m) (class_members s) then None
      else Some (with_class_members (fun l => l ++ [m]) s,
                 EvInsert ClassMembers (ClassMember.id m))
  | NewMessage m =>
      if existsb (message_clash m) (messages s) then None
      else Some (with_messages (fun l => l ++ [m]) s, EvInsert Messages (Message.id m))
  | DirtyMemberStatus k st =>
      Some (with_class_members
              (map (update_row ClassMember.id k (ClassMember.set_status st))) s,
            EvUpdate ClassMembers k)
  | DirtyUserAvatar k url =>
      Some (with_users (map (update_row User.id k (User.set_avatar_url url))) s,
            EvUpdate Users k)
  | GoneUser k =>
      Some (with_users (filter (fun u => negb (User.id u =? k))) s, EvDelete Users [k])
  | GoneClass k =>
      Some (with_classes (filter (fun c => negb (Class.id c =? k))) s, EvDelete Classes [k])
  | GoneMessage k =>
      Some (with_messages (filter (fun m => negb (Message.id m =? k))) s,
            EvDelete Messages [k])
  end.

Fixpoint flush (ps : list Pending) (s : Store) (tr : list Event)
  : option (Store * list Event) :=
  match ps with
  | [] => Some (s, tr)
  | p :: ps' =>
      match flush_one p s with
      | Some (s', e) => flush ps' s' (tr ++ [e])
      | None => None
      end
  end.

(** [db.commit()]: flush, then COMMIT.  A broken constraint raises
    [IntegrityError] and the transaction is rolled back. *)
Definition db_commit : M unit :=
  fun ss =>
    match flush (pending ss) (txn ss) (trace ss) with
    | Some (s', tr) => (Ok tt, mkSession s' [] s' (tr ++ [EvCommit s']))
    | None => (Raise IntegrityError, mkSession (committed ss) [] (committed ss) (trace ss))
    end.

(** [db.add(obj)]: the object is queued for insertion.  Its key comes from
    the table's sequence; the model draws it when the object is queued, so
    that the handler can name the row after the commit. *)
Definition db_add_user (mk : Z -> User.t) : M User.t :=
  fun ss =>
    let u := mk (users_seq (txn ss)) in
    (Ok u, mkSession (bump Users (txn ss)) (pending ss ++ [NewUser u])
                     (committed ss) (trace ss)).

Definition db_add_class (mk : Z -> Class.t) : M Class.t :=
  fun ss =>
    let c := mk (classes_seq (txn ss)) in
    (Ok c, mkSession (bump Classes (txn ss)) (pending ss ++ [NewClass c])
                     (committed ss) (trace ss)).

Definition db_add_member (mk : Z -> ClassMember.t) : M ClassMember.t :=
  fun ss =>
    let m := mk (class_members_seq (txn ss)) in
    (Ok m, mkSession (bump ClassMembers (txn ss)) (pending ss ++ [NewMember m])
                     (committed ss) (trace ss)).

Definition db_add_message (mk : Z -> Message.t) : M Message.t :=
  fun ss =>
    let m := mk (messages_seq (txn ss)) in
    (Ok m, mkSession (bump Messages (txn ss)) (pending ss ++ [NewMessage m])
                     (committed ss) (trace ss)).

(** [db.refresh(obj)]: reload the row by primary key. *)
Definition db_refresh {R} (table : Store -> list R) (key : R -> Z) (obj : R) : M R :=
  fun ss =>
    match find (fun r => key r =? key obj) (table (txn ss)) with
    | Some r => (Ok r, ss)
    | None => (Raise InvalidRequestError, ss)
    end.

(* ------------------------------------------------------------------ *)
(** ** Request bodies *)

Record CreateClassRequest := mkCreateClassRequest {
  cc_name : string;
  cc_semester : option string;
  cc_description : option string;
  cc_code : string;
  cc_owner_email : string
}.

Record JoinClassRequest := mkJoinClassRequest {
  jc_student_email : string;
  jc_code : string
}.

Record ApproveRequest := mkApproveRequest {
  ap_class_id : Z;
  ap_student_email : string
}.

Record RemoveClassRequest := mkRemoveClassRequest {
  rc_class_id : Z;
  rc_owner_email : string
}.

(** The filter [User.email == e, User.role == r] used by every handler. *)
Definition user_is (e r : string) (u : User.t) : bool :=
  (User.email u =? e)%string && (User.role u =? r)%string.

(* ------------------------------------------------------------------ *)
(** ** Classes and membership *)

Definition create_class (data : CreateClassRequest) : M Class.t :=
  let owner_email := Py.lower (Py.strip (cc_owner_email data)) in
  owner <- query_first users (user_is owner_email "teacher") ;;
  match owner with
  | None => raise (HTTPException 400 "Teacher not found")
  | Some owner =>
      exists_code <- query_first classes
                       (fun c => (Class.code c =? cc_code data)%string) ;;
      match exists_code with
      | Some _ => raise (HTTPException 400 "Join code already used")
      | None =>
          cls <- db_add_class (fun k =>
                   Class.mk k
                     (Py.strip (cc_name data))
                     (Py.or_none (Py.strip (Py.or_empty (cc_semester data))))
                     (Py.or_none (Py.strip (Py.or_empty (cc_description data))))
                     (Py.upper (Py.strip (cc_code data)))
                     (User.id owner)) ;;
          db_commit ;;
          cls <- db_refresh classes Class.id cls ;;
          db_add_member (fun k =>
            ClassMember.mk k (Class.id cls) (User.id owner) "teacher" "active") ;;
          db_commit ;;
          ret cls
      end
  end.

Definition remove_class (data : RemoveClassRequest) : M string :=
  let owner_email := Py.lower (Py.strip (rc_owner_email data)) in
  teacher <- query_first users (user_is owner_email "teacher") ;;
  match teacher with
  | None => raise (HTTPException 400 "Teacher not found")
  | Some teacher =>
      cls <- query_first classes
               (fun c => (Class.id c =? rc_class_id data)
                         && (Class.owner_id c =? User.id teacher)) ;;
      match cls with
      | None => raise (HTTPException 404 "Class not found")
      | Some cls =>
          bulk_delete_messages (fun m => Message.class_id m =? Class.id cls) ;;
          bulk_delete_members (fun m => ClassMember.class_id m =? Class.id cls) ;;
          enqueue (GoneClass (Class.id cls)) ;;
          db_commit ;;
          ret "Class deleted"
      end
  end.

Definition student_join_class (data : JoinClassRequest) : M string :=
  let email := Py.lower (Py.strip (jc_student_email data)) in
  student <- query_first users (user_is email "student") ;;
  match student with
  | None => raise (HTTPException 400 "Student not found")
  | Some student =>
      cls <- query_first classes
               (fun c => (Class.code c =? Py.upper (Py.strip (jc_code data)))%string) ;;
      match cls with
      | None => raise (HTTPException 404 "Join code not found")
      | Some cls =>
          existing <- query_first class_members
                        (fun m => (ClassMember.class_id m =? Class.id cls)
                                  && (ClassMember.user_id m =? User.id student)) ;;
          match existing with
          | Some existing =>
              if (ClassMember.status existing =? "active")%string then
                ret "Already a member"
              else if (ClassMember.status existing =? "pending")%string then
                ret "Request already pending"
              else
                enqueue (DirtyMemberStatus (ClassMember.id existing) "pending") ;;
                db_commit ;;
                ret "Request re-sent"
          | None =>
              db_add_member (fun k =>
                ClassMember.mk k (Class.id cls) (User.id student) "student" "pending") ;;
              db_commit ;;
              ret "Join request sent"
          end
      end
  end.

Definition teacher_approve (data : ApproveRequest) : M string :=
  let email := Py.lower (Py.strip (ap_student_email data)) in
  student <- query_first users (user_is email "student") ;;
  match student with
  | None => raise (HTTPException 400 "Student not found")
  | Some student =>
      m <- query_first class_members
             (fun m => (ClassMember.class_id m =? ap_class_id data)
                       && (ClassMember.user_id m =? User.id student)) ;;
      match m with
      | None => raise (HTTPException 404 "Membership not found")
      | Some m =>
          enqueue (DirtyMemberStatus (ClassMember.id m) "active") ;;
          db_commit ;;
          ret "Student approved"
      end
  end.

(* ------------------------------------------------------------------ *)
(** ** [json.dumps] and [json.loads]

    The text format the handlers use for the [attachments_json] column:
    [json.dumps] with its defaults ([ensure_ascii], a comma and a space
    between items, a colon and a space after a key) and the strict decoder
    of [json.loads].  Numbers are integers;
    a fraction or an exponent, and a [\u] escape above one byte, make
    [loads] fail. *)

Module Json.

Set Warnings "-register-all".

Inductive value :=
| Null
| Bool (b : bool)
| Num (n : Z)
| Str (s : string)
| Arr (items : list value)
| Obj (pairs : list (string * value)).     (* a dict, in insertion order *)

Definition dquote : ascii := ascii_of_nat 34.
Definition backslash : ascii := ascii_of_nat 92.

Definition chars (s : string) : list ascii := list_ascii_of_string s.

(** *** Python dicts as insertion-ordered association lists *)

Fixpoint dict_set (k : string) (v : value) (d : list (string * value))
  : list (string * value) :=
  match d with
  | [] => [(k, v)]
  | (k', v') :: d' =>
      if (k' =? k)%string then (k, v) :: d' else (k', v') :: dict_set k v d'
  end.

Definition dict_of_pairs (ps : list (string * value)) : list (string * value) :=
  fold_left (fun d kv => dict_set (fst kv) (snd kv) d) ps [].

Fixpoint dict_get (k : string) (d : list (string * value)) : option value :=
  match d with
  | [] => None
  | (k', v) :: d' => if (k' =? k)%string then Some v else dict_get k d'
  end.

(** *** Encoder *)

Definition hex_digit (n : nat) : ascii :=
  if (n <? 10)%nat then ascii_of_nat (48 + n) else ascii_of_nat (87 + n).

Definition escape_char (c : ascii) : list ascii :=
  let n := nat_of_ascii c in
  if (n =? 34)%nat then [backslash; dquote]
  else if (n =? 92)%nat then [backslash; backslash]
  else if (n =? 10)%nat then [backslash; "n"%char]
  else if (n =? 13)%nat then [backslash; "r"%char]
  else if (n =? 9)%nat then [backslash; "t"%char]
  else if (n =? 8)%nat then [backslash; "b"%char]
  else if (n =? 12)%nat then [backslash; "f"%char]
  else if ((32 <=? n) && (n <=? 126))%nat then [c]
  else [backslash; "u"%char; "0"%char; "0"%char;
        hex_digit (n / 16); hex_digit (n mod 16)].

Definition encode_string (s : string) : list ascii :=
  dquote :: flat_map escape_char (chars s) ++ [dquote].

Fixpoint join (sep : list ascii) (parts : list (list ascii)) : list ascii :=
  match parts with
  | [] => []
  | [p] => p
  | p :: ps => p ++ sep ++ join sep ps
  end.

Definition encode_int (n : Z) : list ascii :=
  chars (DecimalString.NilZero.string_of_int (Z.to_int n)).

Fixpoint dumps_chars (v : value) : list ascii :=
  match v with
  | Null => chars "null"
  | Bool true => chars "true"
  | Bool false => chars "false"
  | Num n => encode_int n
  | Str s => encode_string s
  | Arr items => "["%char :: join (chars ", ") (map dumps_chars items) ++ ["]"%char]
  | Obj pairs =>
      "{"%char
        :: join (chars ", ")
                (map (fun kv => encode_string (fst kv) ++ chars ": " ++ dumps_chars (snd kv))
                     pairs)
        ++ ["}"%char]
  end.

Definition dumps (v : value) : string := string_of_list_ascii (dumps_chars v).

(** *** Decoder *)

Definition is_ws (c : ascii) : bool :=
  let n := nat_of_ascii c in
  ((n =? 32) || (n =? 9) || (n =? 10) || (n =? 13))%nat.

Fixpoint skip_ws (s : list ascii) : list ascii :=
  match s with
  | [] => []
  | c :: s' => if is_ws c then skip_ws s' else s
  end.

Definition hex_val (c : ascii) : option nat :=
  let n := nat_of_ascii c in
  if ((48 <=? n) && (n <=? 57))%nat then Some (n - 48)%nat
  else if ((97 <=? n) && (n <=? 102))%nat then Some (n - 87)%nat
  else if ((65 <=? n) && (n <=? 70))%nat then Some (n - 55)%nat
  else None.

Definition hex4 (a b c d : ascii) : option nat :=
  match hex_val a, hex_val b, hex_val c, hex_val d with
  | Some x, Some y, Some z, Some w => Some (((x * 16 + y) * 16 + z) * 16 + w)%nat
  | _, _, _, _ => None
  end.

(** The one-letter escapes of the decoder's BACKSLASH table. *)
Definition unescape (e : ascii) : option ascii :=
  let n := nat_of_ascii e in
  if (n =? 34)%nat then Some dquote
  else if (n =? 92)%nat then Some backslash
  else if (n =? 47)%nat then Some "/"%char
  else if (n =? 98)%nat then Some (ascii_of_nat 8)
  else if (n =? 102)%nat then Some (ascii_of_nat 12)
  else if (n =? 110)%nat then Some (ascii_of_nat 10)
  else if (n =? 114)%nat then Some (ascii_of_nat 13)
  else if (n =? 116)%nat then Some (ascii_of_nat 9)
  else None.

Definition push {A} (c : A) (r : option (list A * list ascii))
  : option (list A * list ascii) :=
  match r with
  | Some (l, rest) => Some (c :: l, rest)
  | None => None
  end.

(** [scanstring]: the text after an opening quote, up to the closing one. *)
Fixpoint scanstring (s : list ascii) : option (list ascii * list ascii) :=
  match s with
  | [] => None
  | c :: s' =>
      if (nat_of_ascii c =? 34)%nat then Some ([], s')
      else if (nat_of_ascii c =? 92)%nat then
        match s' with
        | [] => None
        | e :: s'' =>
            if (nat_of_ascii e =? 117)%nat then
              match s'' with
              | h1 :: h2 :: h3 :: h4 :: s5 =>
                  match hex4 h1 h2 h3 h4 with
                  | Some n =>
                      if (n <? 256)%nat then push (ascii_of_nat n) (scanstring s5)
                      else None
                  | None => None
                  end
              | _ => None
              end
            else
              match unescape e with
              | Some ch => push ch (scanstring s'')
              | None => None
              end
        end
      else if (nat_of_ascii c <? 32)%nat then None
      else push c (scanstring s')
  end.

Definition is_digit (c : ascii) : bool :=
  let n := nat_of_ascii c in ((48 <=? n) && (n <=? 57))%nat.

Fixpoint span_digits (s : list ascii) : list ascii * list ascii :=
  match s with
  | [] => ([], [])
  | c :: s' =>
      if is_digit c then let (ds, r) := span_digits s' in (c :: ds, r)
      else ([], s)
  end.

Definition digits_value (ds : list ascii) : Z :=
  fold_left (fun acc c => acc * 10 + Z.of_nat (nat_of_ascii c - 48)) ds 0.

Definition float_ahead (s : list ascii) : bool :=
  match s with
  | c :: _ => let n := nat_of_ascii c in ((n =? 46) || (n =? 101) || (n =? 69))%nat
  | [] => false
  end.

(** The integer part of the decoder's number pattern: an optional minus
    sign, then a single zero or a digit string without a leading zero. *)
Definition scan_number (s : list ascii) : option (Z * list ascii) :=
  let '(neg, s1) :=
    match s with
    | c :: r => if (nat_of_ascii c =? 45)%nat then (true, r) else (false, s)
    | [] => (false, s)
    end in
  let '(ds, rest) := span_digits s1 in
  match ds with
  | [] => None
  | d :: ds' =>
      let '(n, rest') :=
        if (nat_of_ascii d =? 48)%nat then (0, ds' ++ rest)
        else (digits_value ds, rest) in
      if float_ahead rest' then None
      else Some (if neg then - n else n, rest')
  end.

Fixpoint strip_prefix (p s : list ascii) : option (list ascii) :=
  match p, s with
  | [], _ => Some s
  | a :: p', b :: s' => if Ascii.eqb a b then strip_prefix p' s' else None
  | _ :: _, [] => None
  end.

Fixpoint parse_value (fuel : nat) (s : list ascii) {struct fuel}
  : option (value * list ascii) :=
  match fuel with
  | O => None
  | S fuel' =>
      match s with
      | [] => None
      | c :: s' =>
          let n := nat_of_ascii c in
          if (n =? 34)%nat then
            match scanstring s' with
            | Some (l, r) => Some (Str (string_of_list_ascii l), r)
            | None => None
            end
          else if (n =? 91)%nat then                       (* [ *)
            match skip_ws s' with
            | d :: r =>
                if (nat_of_ascii d =? 93)%nat then Some (Arr [], r)
                else match parse_items fuel' (d :: r) with
                     | Some (vs, r') => Some (Arr vs, r')
                     | None => None
                     end
            | [] => None
            end
          else if (n =? 123)%nat then                      (* { *)
            match skip_ws s' with
            | d :: r =>
                if (nat_of_ascii d =? 125)%nat then Some (Obj [], r)
                else if (nat_of_ascii d =? 34)%nat then
                  match parse_pairs fuel' r with
                  | Some (ps, r') => Some (Obj (dict_of_pairs ps), r')
                  | None => None
                  end
                else None
            | [] => None
            end
          else if (n =? 110)%nat then
            match strip_prefix (chars "null") s with
            | Some r => Some (Null, r) | None => None end
          else if (n =? 116)%nat then
            match strip_prefix (chars "true") s with
            | Some r => Some (Bool true, r) | None => None end
          else if (n =? 102)%nat then
            match strip_prefix (chars "false") s with
            | Some r => Some (Bool false, r) | None => None end
          else
            match scan_number s with
            | Some (z, r) => Some (Num z, r)
            | None => None
            end
      end
  end

(** The elements of an array, after the opening bracket and white space. *)
with parse_items (fuel : nat) (s : list ascii) {struct fuel}
  : option (list value * list ascii) :=
  match fuel with
  | O => None
  | S fuel' =>
      match parse_value fuel' s with
      | Some (v, r) =>
          match skip_ws r with
          | d :: r' =>
              if (nat_of_ascii d =? 93)%nat then Some ([v], r')
              else if (nat_of_ascii d =? 44)%nat then
                push v (parse_items fuel' (skip_ws r'))
              else None
          | [] => None
          end
      | None => None
      end
  end

(** The pairs of an object, after the opening quote of a key. *)
with parse_pairs (fuel : nat) (s : list ascii) {struct fuel}
  : option (list (string * value) * list ascii) :=
  match fuel with
  | O => None
  | S fuel' =>
      match scanstring s with
      | Some (k, r) =>
          match skip_ws r with
          | c :: r1 =>
              if (nat_of_ascii c =? 58)%nat then
                match parse_value fuel' (skip_ws r1) with
                | Some (v, r2) =>
                    match skip_ws r2 with
                    | d :: r3 =>
                        if (nat_of_ascii d =? 125)%nat then
                          Some ([(string_of_list_ascii k, v)], r3)
                        else if (nat_of_ascii d =? 44)%nat then
                          match skip_ws r3 with
                          | q :: r4 =>
                              if (nat_of_ascii q =? 34)%nat then
                                push (string_of_list_ascii k, v) (parse_pairs fuel' r4)
                              else None
                          | [] => None
                          end
                        else None
                    | [] => None
                    end
                | None => None
                end
              else None
          | [] => None
          end
      | None => None
      end
  end.

(** [json.loads]: one value, white space around it, nothing else. *)
Definition loads (text : string) : option value :=
  let s := chars text in
  match parse_value (2 * List.length s + 2)%nat (skip_ws s) with
  | Some (v, r) => match skip_ws r with [] => Some v | _ :: _ => None end
  | None => None
  end.

End Json.

(* ------------------------------------------------------------------ *)
(** ** Registration and administration *)

Record StudentRegister := mkStudentRegister {
  sr_full_name : string;
  sr_student_id : string;
  sr_email : string;
  sr_password : string
}.

Record AdminRegister := mkAdminRegister {
  ar_full_name : string;
  ar_email : string;
  ar_password : string
}.

Record TeacherCreate := mkTeacherCreate {
  tc_full_name : string;
  tc_email : string;
  tc_staff_id : string;
  tc_temp_password : string
}.

Definition opt_is (o : option string) (x : string) : bool :=
  match o with Some y => (y =? x)%string | None => false end.

Definition register_student (data : StudentRegister) : M User.t :=
  let sid := Py.lower (Py.strip (sr_student_id data)) in
  let email := Py.lower (Py.strip (sr_email data)) in
  existing_by_sid <- query_first users (fun u => opt_is (User.student_id u) sid) ;;
  match existing_by_sid with
  | Some _ => raise (HTTPException 400 "Student ID already registered")
  | None =>
      existing_by_email <- query_first users (fun u => (User.email u =? email)%string) ;;
      match existing_by_email with
      | Some _ => raise (HTTPException 400 "Email already registered")
      | None =>
          user <- db_add_user (fun k =>
                    User.mk k (Py.strip (sr_full_name data)) email (sr_password data)
                            "student" (Some sid) None None) ;;
          db_commit ;;
          db_refresh users User.id user
      end
  end.

Definition register_admin (data : AdminRegister) : M User.t :=
  existing_admin <- query_first users (fun u => (User.role u =? "admin")%string) ;;
  match existing_admin with
  | Some _ => raise (HTTPException 400 "Admin already exists")
  | None =>
      let email := Py.lower (Py.strip (ar_email data)) in
      existing_by_email <- query_first users (fun u => (User.email u =? email)%string) ;;
      match existing_by_email with
      | Some _ => raise (HTTPException 400 "Email already registered")
      | None =>
          user <- db_add_user (fun k =>
                    User.mk k (Py.strip (ar_full_name data)) email (ar_password data)
                            "admin" None None None) ;;
          db_commit ;;
          db_refresh users User.id user
      end
  end.

Definition create_teacher (data : TeacherCreate) : M User.t :=
  let email := Py.lower (Py.strip (tc_email data)) in
  let staff_id := Py.strip (tc_staff_id data) in
  by_email <- query_first users (fun u => (User.email u =? email)%string) ;;
  match by_email with
  | Some _ => raise (HTTPException 400 "Email already registered")
  | None =>
      by_staff <- query_first users (fun u => opt_is (User.staff_id u) staff_id) ;;
      match by_staff with
      | Some _ => raise (HTTPException 400 "Staff ID already registered")
      | None =>
          user <- db_add_user (fun k =>
                    User.mk k (Py.strip (tc_full_name data)) email (tc_temp_password data)
                            "teacher" None (Some staff_id) None) ;;
          db_commit ;;
          db_refresh users User.id user
      end
  end.

(** The loop [for cls in classes: ...] of [delete_teacher]. *)
Fixpoint drop_classes (cs : list Class.t) : M unit :=
  match cs with
  | [] => ret tt
  | cls :: cs' =>
      bulk_delete_members (fun m => ClassMember.class_id m =? Class.id cls) ;;
      bulk_delete_messages (fun m => Message.class_id m =? Class.id cls) ;;
      enqueue (GoneClass (Class.id cls)) ;;
      drop_classes cs'
  end.

Definition delete_teacher (teacher_id : Z) : M string :=
  teacher <- query_first users
               (fun u => (User.id u =? teacher_id) && (User.role u =? "teacher")%string) ;;
  match teacher with
  | None => raise (HTTPException 404 "Teacher not found")
  | Some teacher =>
      owned <- query_all classes (fun c => Class.owner_id c =? User.id teacher) ;;
      drop_classes owned ;;
      bulk_delete_members (fun m => ClassMember.user_id m =? User.id teacher) ;;
      enqueue (GoneUser (User.id teacher)) ;;
      db_commit ;;
      ret "Teacher deleted"
  end.

Definition delete_student (student_id : Z) : M string :=
  stu <- query_first users
           (fun u => (User.id u =? student_id) && (User.role u =? "student")%string) ;;
  match stu with
  | None => raise (HTTPException 404 "Student not found")
  | Some stu =>
      bulk_delete_members (fun m => ClassMember.user_id m =? User.id stu) ;;
      enqueue (GoneUser (User.id stu)) ;;
      db_commit ;;
      ret "Student deleted"
  end.

(** [upload_avatar].  The file itself goes to disk; [new_name] is the name
    the handler made for it from [uuid4] and the upload's extension. *)
Definition upload_avatar (email : string) (content_type : option string)
           (new_name : string) : M User.t :=
  let e := Py.lower (Py.strip email) in
  user <- query_first users (fun u => (User.email u =? e)%string) ;;
  match user with
  | None => raise (HTTPException 404 "User not found")
  | Some user =>
      if negb (String.prefix "image/" (Py.or_empty content_type)) then
        raise (HTTPException 400 "File must be an image")
      else
        enqueue (DirtyUserAvatar (User.id user) ("/uploads/avatars/" ++ new_name)%string) ;;
        db_commit ;;
        db_refresh users User.id user
  end.

Record MemberOut := mkMemberOut {
  mo_email : string;
  mo_role : string;
  mo_status : string
}.

Definition get_class_members (class_id : Z) : M (list MemberOut) :=
  rows <- query_all class_members (fun m => ClassMember.class_id m =? class_id) ;;
  s <- get_txn ;;
  ret (map (fun m =>
              let u := find (fun u => User.id u =? ClassMember.user_id m) (users s) in
              mkMemberOut (match u with Some u => User.email u | None => "" end)
                          (ClassMember.role m) (ClassMember.status m))
           rows).

(* ------------------------------------------------------------------ *)
(** ** Messages *)

Record AttachmentMeta := mkAttachmentMeta {
  filename : string;
  url : string;
  content_type : string
}.

Record MessageCreate := mkMessageCreate {
  mc_channel : string;
  mc_sender_email : string;
  mc_sender_name : string;
  mc_content : string;
  mc_attachments : list AttachmentMeta
}.

Record MessageOut := mkMessageOut {
  out_id : Z;
  out_class_id : Z;
  out_channel : string;
  out_sender_email : string;
  out_sender_name : string;
  out_content : string;
  out_timestamp : Z;
  out_attachments : list AttachmentMeta
}.

(** [a.dict()] of an [AttachmentMeta]. *)
Definition dict_ (a : AttachmentMeta) : Json.value :=
  Json.Obj [("filename", Json.Str (filename a));
            ("url", Json.Str (url a));
            ("content_type", Json.Str (content_type a))].

(** What [for a in attachments_data] walks over. *)
Definition iterate (v : Json.value) : Outcome (list Json.value) :=
  match v with
  | Json.Arr items => Ok items
  | Json.Obj pairs => Ok (map (fun kv => Json.Str (fst kv)) pairs)
  | Json.Str s => Ok (map (fun c => Json.Str (String c EmptyString)) (Json.chars s))
  | _ => Raise TypeError
  end.

(** [a.get(key, "")] handed to a [str] field of [AttachmentMeta]; a value
    that is not text is left to the field's validator, which refuses it. *)
Definition str_field (d : list (string * Json.value)) (key : string) : Outcome string :=
  match Json.dict_get key d with
  | None => Ok ""
  | Some (Json.Str s) => Ok s
  | Some _ => Raise ValidationError
  end.

Fixpoint collect_attachments (items : list Json.value) : Outcome (list AttachmentMeta) :=
  match items with
  | [] => Ok []
  | Json.Obj d :: rest =>
      match str_field d "filename", str_field d "url", str_field d "content_type" with
      | Ok f, Ok u, Ok c =>
          match collect_attachments rest with
          | Ok more => Ok (mkAttachmentMeta f u c :: more)
          | Raise e => Raise e
          end
      | _, _, _ => Raise ValidationError
      end
  | _ :: rest => collect_attachments rest        (* not a dict: continue *)
  end.

Definition message_to_out (msg : Message.t) : Outcome MessageOut :=
  let text := if Py.truthy (Message.attachments_json msg)
              then Message.attachments_json msg else "[]" in
  let attachments_data :=
    match Json.loads text with
    | Some v => v
    | None => Json.Arr []                         (* except Exception *)
    end in
  match iterate attachments_data with
  | Raise e => Raise e
  | Ok items =>
      match collect_attachments items with
      | Raise e => Raise e
      | Ok attachments =>
          Ok (mkMessageOut (Message.id msg) (Message.class_id msg) (Message.channel msg)
                           (Message.sender_email msg) (Message.sender_name msg)
                           (Message.content msg) (Message.timestamp msg) attachments)
      end
  end.

Definition lift {A} (o : Outcome A) : M A := fun ss => (o, ss).

(** [order_by(Message.timestamp.asc(), Message.id.asc())]. *)
Definition message_le (a b : Message.t) : bool :=
  (Message.timestamp a <? Message.timestamp b)
  || ((Message.timestamp a =? Message.timestamp b) && (Message.id a <=? Message.id b)).

Fixpoint insert_by {R} (le : R -> R -> bool) (x : R) (l : list R) : list R :=
  match l with
  | [] => [x]
  | y :: l' => if le x y then x :: l else y :: insert_by le x l'
  end.

Definition order_by {R} (le : R -> R -> bool) (l : list R) : list R :=
  fold_right (insert_by le) [] l.

Fixpoint all_out (msgs : list Message.t) : Outcome (list MessageOut) :=
  match msgs with
  | [] => Ok []
  | m :: rest =>
      match message_to_out m with
      | Raise e => Raise e
      | Ok o => match all_out rest with
                | Ok os => Ok (o :: os)
                | Raise e => Raise e
                end
      end
  end.

Definition get_class_messages (class_id : Z) (channel : string) : M (list MessageOut) :=
  cls <- query_first classes (fun c => Class.id c =? class_id) ;;
  match cls with
  | None => raise (HTTPException 404 "Class not found")
  | Some _ =>
      msgs <- query_all messages
                (fun m => (Message.class_id m =? class_id)
                          && (Message.channel m =? channel)%string) ;;
      lift (all_out (order_by message_le msgs))
  end.

(** [post_class_message]; [now] is the reading of [datetime.utcnow] that
    the column default puts into [timestamp]. *)
Definition post_class_message (class_id : Z) (data : MessageCreate) (now : Z)
  : M MessageOut :=
  cls <- query_first classes (fun c => Class.id c =? class_id) ;;
  match cls with
  | None => raise (HTTPException 404 "Class not found")
  | Some _ =>
      let attachments_json := Json.dumps (Json.Arr (map dict_ (mc_attachments data))) in
      msg <- db_add_message (fun k =>
               Message.mk k class_id (mc_channel data) (mc_sender_email data)
                          (mc_sender_name data) (mc_content data) attachments_json now) ;;
      db_commit ;;
      msg <- db_refresh messages Message.id msg ;;
      lift (message_to_out msg)
  end.

Definition delete_message (class_id message_id : Z) (teacher_email : option string)
  : M string :=
  match teacher_email with
  | None => raise (HTTPException 400 "teacher_email is required")
  | Some teacher_email =>
      if negb (Py.truthy teacher_email) then
        raise (HTTPException 400 "teacher_email is required")
      else
        let email := Py.lower (Py.strip teacher_email) in
        (* 1) Find teacher *)
        teacher <- query_first users (user_is email "teacher") ;;
        match teacher with
        | None => raise (HTTPException 403 "Teacher not found")
        | Some teacher =>
            (* 2) Ensure class belongs to this teacher *)
            cls <- query_first classes
                     (fun c => (Class.id c =? class_id)
                               && (Class.owner_id c =? User.id teacher)) ;;
            match cls with
            | None => raise (HTTPException 403 "You are not the owner of this class")
            | Some _ =>
                (* 3) Find message *)
                msg <- query_first messages
                         (fun m => (Message.id m =? message_id)
                                   && (Message.class_id m =? class_id)) ;;
                match msg with
                | None => raise (HTTPException 404 "Message not found")
                | Some msg =>
                    (* 4) Delete *)
                    enqueue (GoneMessage (Message.id msg)) ;;
                    db_commit ;;
                    ret "Message deleted"
                end
            end
        end
  end.

(* ------------------------------------------------------------------ *)
(** ** The request layer as a transition system *)

Inductive Request :=
| RegisterStudent (data : StudentRegister)
| RegisterAdmin (data : AdminRegister)
| CreateTeacher (data : TeacherCreate)
| DeleteTeacher (teacher_id : Z)
| DeleteStudent (student_id : Z)
| UploadAvatar (email : string) (content_type : option string) (new_name : string)
| CreateClass (data : CreateClassRequest)
| RemoveClass (data : RemoveClassRequest)
| StudentJoin (data : JoinClassRequest)
| TeacherApprove (data : ApproveRequest)
| PostMessage (class_id : Z) (data : MessageCreate) (now : Z)
| DeleteMessage (class_id message_id : Z) (teacher_email : option string).

Definition forget {A} (x : Outcome A * Store * list Event) : Store * list Event :=
  (final x, events x).

(** The store a request leaves behind, and what it sent on the way. *)
Definition dispatch (r : Request) (s : Store) : Store * list Event :=
  match r with
  | RegisterStudent d => forget (run (register_student d) s)
  | RegisterAdmin d => forget (run (register_admin d) s)
  | CreateTeacher d => forget (run (create_teacher d) s)
  | DeleteTeacher k => forget (run (delete_teacher k) s)
  | DeleteStudent k => forget (run (delete_student k) s)
  | UploadAvatar e ct nm => forget (run (upload_avatar e ct nm) s)
  | CreateClass d => forget (run (create_class d) s)
  | RemoveClass d => forget (run (remove_class d) s)
  | StudentJoin d => forget (run (student_join_class d) s)
  | TeacherApprove d => forget (run (teacher_approve d) s)
  | PostMessage c d now => forget (run (post_class_message c d now) s)
  | DeleteMessage c m e => forget (run (delete_message c m e) s)
  end.

(** Stores that requests can produce from the empty database; every
    snapshot a request commits on its way is one of them. *)
Inductive reachable : Store -> Prop :=
| reach_empty : reachable empty_store
| reach_commit : forall s r s',
    reachable s -> In s' (commits (snd (dispatch r s))) -> reachable s'.

(* ------------------------------------------------------------------ *)
(** ** Lookups used to state the properties *)

Definition find_user (s : Store) (email role : string) : option User.t :=
  find (user_is (Py.lower (Py.strip email)) role) (users s).

Definition find_class_by_code (s : Store) (code : string) : option Class.t :=
  find (fun c => (Class.code c =? Py.upper (Py.strip code))%string) (classes s).

Definition is_membership (class_id user_id : Z) (m : ClassMember.t) : bool :=
  (ClassMember.class_id m =? class_id) && (ClassMember.user_id m =? user_id).

Definition find_membership (s : Store) (class_id user_id : Z) : option ClassMember.t :=
  find (is_membership class_id user_id) (class_members s).

(** Every key in a table is below the table's sequence. *)
Definition sequences_ahead (s : Store) : bool :=
  forallb (fun u => User.id u <? users_seq s) (users s)
  && forallb (fun c => Class.id c <? classes_seq s) (classes s)
  && forallb (fun m => ClassMember.id m <? class_members_seq s) (class_members s)
  && forallb (fun m => Message.id m <? messages_seq s) (messages s).

(** A fixed scenario: teacher Ann owns class 1 with join code ABC1,
    student Bob is registered. *)
Definition ann : User.t :=
  User.mk 1 "Ann Lee" "ann@x.com" "pw" "teacher" None (Some "T1") None.
Definition bob : User.t :=
  User.mk 2 "Bob" "a@x.com" "pw" "student" (Some "s1") None None.
Definition algebra : Class.t := Class.mk 1 "Algebra" None None "ABC1" 1.
Definition ann_in_algebra : ClassMember.t := ClassMember.mk 1 1 1 "teacher" "active".

Definition school : Store :=
  mkStore [ann; bob] [algebra] [ann_in_algebra] [] 3 2 2 1.

(* ------------------------------------------------------------------ *)
(** ** Further notions and scenario stores *)

(** The row JoinClass inserts for a first request. *)
Definition pending_row (s : Store) (cls : Class.t) (student : User.t) : ClassMember.t :=
  ClassMember.mk (class_members_seq s) (Class.id cls) (User.id student)
                 "student" "pending".

Definition join_request : JoinClassRequest := mkJoinClassRequest "A@x.com" " abc1 ".




Definition find_owned_class (s : Store) (class_id owner : Z) : option Class.t :=
  find (fun c => (Class.id c =? class_id) && (Class.owner_id c =? owner)) (classes s).

(** Teacher Cy owns nothing in [school]. *)
Definition cy : User.t :=
  User.mk 3 "Cy Ng" "cy@x.com" "pw" "teacher" None (Some "T2") None.

(** The scenario after Bob joined and two messages were posted. *)
Definition bob_in_algebra : ClassMember.t := ClassMember.mk 2 1 2 "student" "pending".
Definition notes : AttachmentMeta :=
  mkAttachmentMeta "notes.pdf" "/uploads/abc123.pdf" "application/pdf".
Definition hello : Message.t :=
  Message.mk 1 1 "general" "a@x.com" "Bob" "hello"
             (Json.dumps (Json.Arr (map dict_ [notes]))) 100.
Definition welcome : Message.t :=
  Message.mk 2 1 "general" "ann@x.com" "Ann Lee" "welcome" "[]" 100.

Definition classroom : Store :=
  mkStore [ann; bob; cy] [algebra] [ann_in_algebra; bob_in_algebra] [hello; welcome]
          4 2 3 3.

(** Order of statements in a trace. *)
Definition deletes_from (tb : Table) (e : Event) : bool :=
  match e, tb with
  | EvDelete Users _, Users
  | EvDelete Classes _, Classes
  | EvDelete ClassMembers _, ClassMembers
  | EvDelete Messages _, Messages => true
  | _, _ => false
  end.

(** Some event satisfying [p] is followed, later on, by one satisfying [q]. *)
Fixpoint precedes (p q : Event -> bool) (tr : list Event) : bool :=
  match tr with
  | [] => false
  | e :: tr' => (p e && existsb q tr') || precedes p q tr'
  end.

Definition of_class (cid : Z) (m : Message.t) : bool := Message.class_id m =? cid.
Definition in_class (cid : Z) (m : ClassMember.t) : bool := ClassMember.class_id m =? cid.

(** The store after the cascade for class [cid]. *)
Definition without_class (cid : Z) (s : Store) : Store :=
  with_classes (filter (fun c => negb (Class.id c =? cid)))
    (with_class_members (filter (fun m => negb (in_class cid m)))
       (with_messages (filter (fun m => negb (of_class cid m))) s)).

(** The row [create_class] builds from the request. *)
Definition class_of_request (data : CreateClassRequest) (key owner : Z) : Class.t :=
  Class.mk key
           (Py.strip (cc_name data))
           (Py.or_none (Py.strip (Py.or_empty (cc_semester data))))
           (Py.or_none (Py.strip (Py.or_empty (cc_description data))))
           (Py.upper (Py.strip (cc_code data)))
           owner.

(** The two commits of a successful CreateClass. *)
Definition with_new_class (c : Class.t) (s : Store) : Store :=
  bump Classes (with_classes (fun l => l ++ [c]) s).

Definition with_owner_row (c : Class.t) (s : Store) : Store :=
  bump ClassMembers
       (with_class_members
          (fun l => l ++ [ClassMember.mk (class_members_seq s) (Class.id c)
                                         (Class.owner_id c) "teacher" "active"]) s).

Definition algebra_request : CreateClassRequest :=
  mkCreateClassRequest " Algebra " None (Some " ") "abc1" "Ann@X.com".

(** Ann is registered and no class exists yet. *)
Definition staff_room : Store := mkStore [ann] [] [] [] 2 1 1 1.

(** Every class has its owner listed as an active teacher member. *)
Definition owner_listed (s : Store) : bool :=
  forallb (fun c =>
             existsb (fun m => (ClassMember.class_id m =? Class.id c)
                               && (ClassMember.user_id m =? Class.owner_id c)
                               && (ClassMember.role m =? "teacher")%string
                               && (ClassMember.status m =? "active")%string)
                     (class_members s))
          (classes s).

Definition find_message (s : Store) (message_id class_id : Z) : option Message.t :=
  find (fun m => (Message.id m =? message_id) && (Message.class_id m =? class_id))
       (messages s).

Definition without_message (key : Z) (s : Store) : Store :=
  with_messages (filter (fun m => negb (Message.id m =? key))) s.

(** [grows key same fits l n l' n']: table [l] with sequence [n] became
    [l'] with [n'] through deletes, updates in place and inserts keyed by
    the sequence.  [same] is what an UPDATE keeps of a row, [fits] what
    holds of an inserted row. *)
Inductive grows {R : Type} (key : R -> Z) (same : R -> R -> Prop)
          (fits : list R -> R -> Prop) : list R -> Z -> list R -> Z -> Prop :=
| g_refl : forall l n, grows key same fits l n l n
| g_drop : forall p l n, grows key same fits l n (filter p l) n
| g_add : forall l n x,
    key x = n -> fits l x -> grows key same fits l n (l ++ [x]) (n + 1)
| g_edit : forall f l n,
    (forall x, same x (f x)) -> grows key same fits l n (map f l) n
| g_trans : forall l1 n1 l2 n2 l3 n3,
    grows key same fits l1 n1 l2 n2 -> grows key same fits l2 n2 l3 n3 ->
    grows key same fits l1 n1 l3 n3.

Definition is_admin (u : User.t) : bool := (User.role u =? "admin")%string.

(** The users with role admin. *)
Definition admins (s : Store) : list User.t := filter is_admin (users s).

Definition user_same (u v : User.t) : Prop :=
  User.id v = User.id u /\ User.role v = User.role u.

(** An inserted user is no admin, unless admins may be added and there is
    none so far. *)
Definition user_fits (admin_allowed : bool) (l : list User.t) (u : User.t) : Prop :=
  if admin_allowed then User.role u = "admin" -> filter is_admin l = []
  else User.role u <> "admin".

(** The text [post_class_message] stores for some list of attachments. *)
Definition posted (m : Message.t) : Prop :=
  exists atts, Message.attachments_json m = Json.dumps (Json.Arr (map dict_ atts)).

Definition users_grow (admin_allowed : bool) :=
  grows User.id user_same (user_fits admin_allowed).
Definition classes_grow := grows Class.id (@eq Class.t) (fun _ _ => True).
Definition members_grow :=
  grows ClassMember.id (fun m n => ClassMember.id n = ClassMember.id m) (fun _ _ => True).
Definition messages_grow :=
  grows Message.id (@eq Message.t) (fun _ m => posted m).

(** One or more commits lead from [s] to [s']. *)
Definition evolves_by (admin_allowed : bool) (s s' : Store) : Prop :=
  users_grow admin_allowed (users s) (users_seq s) (users s') (users_seq s')
  /\ classes_grow (classes s) (classes_seq s) (classes s') (classes_seq s')
  /\ members_grow (class_members s) (class_members_seq s)
                  (class_members s') (class_members_seq s')
  /\ messages_grow (messages s) (messages_seq s) (messages s') (messages_seq s').

Definition evolves : Store -> Store -> Prop := evolves_by true.

(** What every reachable store satisfies. *)
Definition store_invariant (s : Store) : Prop :=
  sequences_ahead s = true
  /\ (List.length (admins s) <= 1)%nat
  /\ Forall posted (messages s)
  /\ NoDup (map Message.id (messages s)).

(** Only admin registration may add an admin. *)
Definition may_add_admin (r : Request) : bool :=
  match r with RegisterAdmin _ => true | _ => false end.

(** A store in which Dee is the admin. *)
Definition dee : User.t := User.mk 1 "Dee" "dee@x.com" "pw" "admin" None None None.
Definition office : Store := mkStore [dee] [] [] [] 2 1 1 1.

(** The text of a string without its opening quote. *)
Definition quoted_tail (x : string) : list ascii :=
  flat_map Json.escape_char (Json.chars x) ++ [Json.dquote].

Arguments quoted_tail : simpl never.

Definition comma : list ascii := Json.chars ", ".
Definition colon : list ascii := Json.chars ": ".

(** The text of [dict_ a], spelled out. *)
Definition dict_chars (a : AttachmentMeta) (tail : list ascii) : list ascii :=
  "{"%char :: Json.dquote :: quoted_tail "filename" ++ colon
    ++ Json.dquote :: quoted_tail (filename a) ++ comma
    ++ Json.dquote :: quoted_tail "url" ++ colon
    ++ Json.dquote :: quoted_tail (url a) ++ comma
    ++ Json.dquote :: quoted_tail "content_type" ++ colon
    ++ Json.dquote :: quoted_tail (content_type a) ++ "}"%char :: tail.

(** The elements of a non-empty list of attachments, up to the closing
    bracket. *)
Definition items_chars (atts : list AttachmentMeta) : list ascii :=
  Json.join comma (map Json.dumps_chars (map dict_ atts)).

(** [a] may stand before [b] in a list ordered by [le]. *)
Definition sorted_by {R} (le : R -> R -> bool) (a b : R) : Prop := le a b = true.

Definition selected (cid : Z) (ch : string) (m : Message.t) : bool :=
  (Message.class_id m =? cid) && (Message.channel m =? ch)%string.

(** (timestamp, id) ascending on the response items. *)
Definition out_before (a b : MessageOut) : Prop :=
  out_timestamp a < out_timestamp b
  \/ (out_timestamp a = out_timestamp b /\ out_id a <= out_id b).

(** Response item [o] is row [m]. *)
Definition shows (m : Message.t) (o : MessageOut) : Prop :=
  out_id o = Message.id m
  /\ out_class_id o = Message.class_id m
  /\ out_channel o = Message.channel m
  /\ out_sender_email o = Message.sender_email m
  /\ out_sender_name o = Message.sender_name m
  /\ out_content o = Message.content m
  /\ out_timestamp o = Message.timestamp m
  /\ Message.attachments_json m = Json.dumps (Json.Arr (map dict_ (out_attachments o))).

Definition message_of_request (key cid : Z) (data : MessageCreate) (now : Z) : Message.t :=
  Message.mk key cid (mc_channel data) (mc_sender_email data) (mc_sender_name data)
             (mc_content data)
             (Json.dumps (Json.Arr (map dict_ (mc_attachments data)))) now.


Definition with_new_message (m : Message.t) (s : Store) : Store :=
  bump Messages (with_messages (fun l => l ++ [m]) s).



(* ------------------------------------------------------------------ *)
(** ** Login, profile and class lists *)












Definition list_student_classes (student_email : string) : M (list Class.t) :=
  let email := Py.lower (Py.strip student_email) in
  student <- query_first users (user_is email "student") ;;
  match student with
  | None => raise (HTTPException 400 "Student not found")
  | Some student =>
      memberships <- query_all class_members
                       (fun m => (ClassMember.user_id m =? User.id student)
                                 && (ClassMember.status m =? "active")%string) ;;
      let class_ids := map ClassMember.class_id memberships in
      match class_ids with
      | [] => ret []
      | _ :: _ =>
          query_all classes (fun c => existsb (Z.eqb (Class.id c)) class_ids)
      end
  end.

(** The rows the three registrations build. *)
Definition student_of_request (d : StudentRegister) (key : Z) : User.t :=
  User.mk key (Py.strip (sr_full_name d)) (Py.lower (Py.strip (sr_email d)))
          (sr_password d) "student"
          (Some (Py.lower (Py.strip (sr_student_id d)))) None None.

Definition admin_of_request (d : AdminRegister) (key : Z) : User.t :=
  User.mk key (Py.strip (ar_full_name d)) (Py.lower (Py.strip (ar_email d)))
          (ar_password d) "admin" None None None.

Definition teacher_of_request (d : TeacherCreate) (key : Z) : User.t :=
  User.mk key (Py.strip (tc_full_name d)) (Py.lower (Py.strip (tc_email d)))
          (tc_temp_password d) "teacher" None (Some (Py.strip (tc_staff_id d))) None.

Definition with_new_user (u : User.t) (s : Store) : Store :=
  bump Users (with_users (fun l => l ++ [u]) s).





(** The store after the membership rows keyed [key] were set to [st]. *)
Definition with_status (key : Z) (st : string) (s : Store) : Store :=
  with_class_members (map (update_row ClassMember.id key (ClassMember.set_status st))) s.

(** The student has an active membership in the class. *)
Definition active_in (s : Store) (user_id class_id : Z) : Prop :=
  exists m, In m (class_members s)
            /\ ClassMember.user_id m = user_id
            /\ ClassMember.class_id m = class_id
            /\ ClassMember.status m = "active".

(** The store after user [key] and the memberships of that user went. *)
Definition without_user (key : Z) (s : Store) : Store :=
  with_users (filter (fun u => negb (User.id u =? key)))
    (with_class_members (filter (fun m => negb (ClassMember.user_id m =? key))) s).

(** [k] is the key of one of the classes [cs]. *)
Definition among (cs : list Class.t) (k : Z) : bool :=
  existsb (fun c => Class.id c =? k) cs.

(** The store after the classes [cs] went, each with its memberships and
    messages. *)
Definition without_classes (cs : list Class.t) (s : Store) : Store :=
  with_classes (filter (fun c => negb (among cs (Class.id c))))
    (with_class_members (filter (fun m => negb (among cs (ClassMember.class_id m))))
       (with_messages (filter (fun m => negb (among cs (Message.class_id m)))) s)).

Definition owned_by (s : Store) (owner : Z) : list Class.t :=
  filter (fun c => Class.owner_id c =? owner) (classes s).



Definition with_avatar (key : Z) (url : string) (s : Store) : Store :=
  with_users (map (update_row User.id key (User.set_avatar_url url))) s.

(* ------------------------------------------------------------------ *)
(** ** What a commit can be, and what every store keeps *)

Definition with_new_member (m : ClassMember.t) (s : Store) : Store :=
  bump ClassMembers (with_class_members (fun l => l ++ [m]) s).

Definition email_normal (u : User.t) : Prop :=
  Py.lower (Py.strip (User.email u)) = User.email u.

Definition role_known (u : User.t) : Prop :=
  User.role u = "student" \/ User.role u = "teacher" \/ User.role u = "admin".

Definition code_normal (c : Class.t) : Prop :=
  Py.upper (Py.strip (Class.code c)) = Class.code c.

(** The statuses and roles the handlers write. *)
Definition member_valid (m : ClassMember.t) : Prop :=
  (ClassMember.status m = "pending" \/ ClassMember.status m = "active")
  /\ (ClassMember.role m = "student" \/ ClassMember.role m = "teacher").

Definition pair_of (m : ClassMember.t) : Z * Z :=
  (ClassMember.class_id m, ClassMember.user_id m).

(** The ten changes a commit of a handler makes to the store. *)
Inductive commit_step (s : Store) : Store -> Prop :=
| step_user : forall u,
    User.id u = users_seq s ->
    existsb (user_clash u) (users s) = false ->
    email_normal u -> role_known u ->
    commit_step s (with_new_user u s)
| step_avatar : forall key url,
    commit_step s (with_avatar key url s)
| step_class : forall c owner,
    Class.id c = classes_seq s ->
    existsb (class_clash c) (classes s) = false ->
    In owner (users s) -> User.role owner = "teacher" ->
    Class.owner_id c = User.id owner ->
    code_normal c ->
    commit_step s (with_new_class c s)
| step_member : forall m c u,
    ClassMember.id m = class_members_seq s ->
    existsb (member_clash m) (class_members s) = false ->
    In c (classes s) -> Class.id c = ClassMember.class_id m ->
    In u (users s) -> User.id u = ClassMember.user_id m ->
    member_valid m ->
    commit_step s (with_new_member m s)
| step_status : forall key st,
    st = "pending" \/ st = "active" ->
    commit_step s (with_status key st s)
| step_message : forall m c,
    Message.id m = messages_seq s ->
    existsb (message_clash m) (messages s) = false ->
    In c (classes s) -> Class.id c = Message.class_id m ->
    posted m ->
    commit_step s (with_new_message m s)
| step_message_gone : forall key,
    commit_step s (without_message key s)
| step_class_gone : forall key,
    commit_step s (without_class key s)
| step_student_gone : forall stu,
    In stu (users s) -> User.role stu = "student" ->
    commit_step s (without_user (User.id stu) s)
| step_teacher_gone : forall key,
    commit_step s (without_user key (without_classes (owned_by s key) s)).

(** Zero or more commits in a row. *)
Inductive commit_steps : Store -> Store -> Prop :=
| steps_none : forall s, commit_steps s s
| steps_more : forall s1 s2 s3,
    commit_steps s1 s2 -> commit_step s2 s3 -> commit_steps s1 s3.

Definition users_ok (l : list User.t) (n : Z) : Prop :=
  Forall (fun u => User.id u < n) l
  /\ NoDup (map User.id l)
  /\ NoDup (map User.email l)
  /\ Forall email_normal l
  /\ Forall role_known l.

Definition classes_ok (l : list Class.t) (n : Z) : Prop :=
  Forall (fun c => Class.id c < n) l
  /\ NoDup (map Class.id l)
  /\ NoDup (map Class.code l)
  /\ Forall code_normal l.

Definition members_ok (l : list ClassMember.t) (n : Z) : Prop :=
  Forall (fun m => ClassMember.id m < n) l
  /\ NoDup (map ClassMember.id l)
  /\ NoDup (map pair_of l)
  /\ Forall member_valid l.

Definition messages_ok (l : list Message.t) (n : Z) : Prop :=
  Forall (fun m => Message.id m < n) l
  /\ NoDup (map Message.id l)
  /\ Forall posted l.

(** No dangling reference: owners are teachers that exist, memberships
    and messages belong to classes and users that exist. *)
Definition references_ok (s : Store) : Prop :=
  (forall c, In c (classes s) ->
             exists u, In u (users s) /\ User.id u = Class.owner_id c
                       /\ User.role u = "teacher")
  /\ (forall m, In m (class_members s) ->
                (exists c, In c (classes s) /\ Class.id c = ClassMember.class_id m)
                /\ (exists u, In u (users s) /\ User.id u = ClassMember.user_id m))
  /\ (forall m, In m (messages s) ->
                exists c, In c (classes s) /\ Class.id c = Message.class_id m).

Definition sound (s : Store) : Prop :=
  users_ok (users s) (users_seq s)
  /\ classes_ok (classes s) (classes_seq s)
  /\ members_ok (class_members s) (class_members_seq s)
  /\ messages_ok (messages s) (messages_seq s)
  /\ references_ok s.

(** The requests that lead from the empty database to [school]. *)
Definition ann_hired : TeacherCreate := mkTeacherCreate "Ann Lee" "Ann@X.com" "T1" "pw".
Definition bob_registers : StudentRegister := mkStudentRegister "Bob" "S1" "a@x.com" "pw".
Definition before_algebra : Store := mkStore [ann; bob] [] [] [] 3 1 1 1.

(** The owner's row of class [c]. *)
Definition owner_row_of (c : Class.t) (m : ClassMember.t) : Prop :=
  ClassMember.class_id m = Class.id c
  /\ ClassMember.user_id m = Class.owner_id c
  /\ ClassMember.role m = "teacher"
  /\ ClassMember.status m = "active".

(** Stores between requests: each request ran to its end. *)
Inductive settled : Store -> Prop :=
| settled_empty : settled empty_store
| settled_request : forall s r, settled s -> settled (fst (dispatch r s)).

(* ------------------------------------------------------------------ *)
(** ** Facts about lists and lookups *)

Lemma find_none_existsb {A} (p : A -> bool) (l : list A) :
  find p l = None -> existsb p l = false.
Proof.
  induction l as [|x l IH]; simpl; [reflexivity|].
  destruct (p x); [discriminate|]. exact IH.
Qed.

Lemma find_app_miss {A} (p : A -> bool) (l : list A) (x : A) :
  find p l = None -> p x = true -> find p (l ++ [x]) = Some x.
Proof.
  induction l as [|y l IH]; simpl; intros Hn Hx.
  - now rewrite Hx.
  - destruct (p y); [discriminate|]. now apply IH.
Qed.

Lemma existsb_false_or {A} (p q : A -> bool) (l : list A) :
  existsb p l = false -> existsb q l = false ->
  existsb (fun x => p x || q x) l = false.
Proof.
  induction l as [|x l IH]; simpl; [reflexivity|].
  intros Hp Hq.
  apply orb_false_iff in Hp as [Hp1 Hp2].
  apply orb_false_iff in Hq as [Hq1 Hq2].
  rewrite Hp1, Hq1. simpl. now apply IH.
Qed.

Lemma existsb_same {A} (p q : A -> bool) (l : list A) :
  (forall x, p x = q x) -> existsb p l = existsb q l.
Proof.
  intros E. induction l as [|x l IH]; simpl; [reflexivity|].
  now rewrite E, IH.
Qed.

Lemma below_no_key {A} (key : A -> Z) (n : Z) (l : list A) :
  forallb (fun x => key x <? n) l = true ->
  existsb (fun x => n =? key x) l = false.
Proof.
  induction l as [|x l IH]; simpl; [reflexivity|].
  intros H. apply andb_true_iff in H as [H1 H2].
  apply Z.ltb_lt in H1.
  replace (n =? key x) with false by (symmetry; apply Z.eqb_neq; lia).
  simpl. now apply IH.
Qed.

Lemma sequences_ahead_parts (s : Store) :
  sequences_ahead s = true ->
  forallb (fun u => User.id u <? users_seq s) (users s) = true
  /\ forallb (fun c => Class.id c <? classes_seq s) (classes s) = true
  /\ forallb (fun m => ClassMember.id m <? class_members_seq s) (class_members s) = true
  /\ forallb (fun m => Message.id m <? messages_seq s) (messages s) = true.
Proof.
  unfold sequences_ahead. intros H.
  repeat (apply andb_true_iff in H as [H ?]). auto.
Qed.

(** A member row keyed by the sequence, for a pair that has no row yet,
    breaks no constraint. *)
Lemma new_member_fits (s : Store) (cid uid : Z) (r st : string) :
  sequences_ahead s = true ->
  find_membership s cid uid = None ->
  existsb (member_clash (ClassMember.mk (class_members_seq s) cid uid r st))
          (class_members s) = false.
Proof.
  intros Hs Hm.
  apply sequences_ahead_parts in Hs as (_ & _ & Hk & _).
  unfold member_clash. simpl.
  apply existsb_false_or.
  - now apply (below_no_key ClassMember.id).
  - apply find_none_existsb in Hm.
    rewrite <- Hm. apply existsb_same.
    intros m. unfold is_membership.
    now rewrite (Z.eqb_sym cid), (Z.eqb_sym uid).
Qed.



(* ------------------------------------------------------------------ *)
(** ** JoinClass *)

Ltac run_handler :=
  unfold run, result, final, events, bind, raise, ret, lift, query_first, query_all,
         enqueue, db_add_user, db_add_class, db_add_member, db_add_message,
         db_commit, db_refresh, bulk_delete_members, bulk_delete_messages,
         get_txn, open_session;
  simpl.

Section JoinClass.

Variable s : Store.
Variable data : JoinClassRequest.
Variable student : User.t.
Variable cls : Class.t.

Hypothesis student_found : find_user s (jc_student_email data) "student" = Some student.
Hypothesis class_found : find_class_by_code s (jc_code data) = Some cls.

Lemma join_first_time :
  sequences_ahead s = true ->
  find_membership s (Class.id cls) (User.id student) = None ->
  run (student_join_class data) s
  = (Ok "Join request sent",
     bump ClassMembers
          (with_class_members (fun l => l ++ [pending_row s cls student]) s),
     [EvInsert ClassMembers (class_members_seq s);
      EvCommit (bump ClassMembers
                     (with_class_members (fun l => l ++ [pending_row s cls student]) s))]).
Proof.
  intros Hs Hm.
  pose proof (new_member_fits s _ _ "student" "pending" Hs Hm) as Hfit.
  unfold find_user, find_class_by_code, find_membership, is_membership in *.
  unfold student_join_class. run_handler.
  rewrite student_found. simpl. rewrite class_found. simpl. rewrite Hm. simpl.
  rewrite Hfit. reflexivity.
Qed.



End JoinClass.



(** *** Requests that do not resolve *)

Lemma upper_char_idempotent (c : ascii) :
  Py.upper_char (Py.upper_char c) = Py.upper_char c.
Proof.
  destruct c as [[] [] [] [] [] [] [] []]; reflexivity.
Qed.

Lemma upper_idempotent (x : string) : Py.upper (Py.upper x) = Py.upper x.
Proof.
  unfold Py.upper. rewrite list_ascii_of_string_of_list_ascii, map_map.
  f_equal. apply map_ext. intros c. apply upper_char_idempotent.
Qed.






(* ------------------------------------------------------------------ *)
(** ** RemoveClass *)


Lemma owned_class_found (s : Store) (cid owner : Z) (c : Class.t) :
  In c (classes s) -> Class.id c = cid -> Class.owner_id c = owner ->
  exists c', find_owned_class s cid owner = Some c' /\ Class.id c' = cid.
Proof.
  intros Hin Hi Ho. unfold find_owned_class.
  destruct (find _ (classes s)) as [c'|] eqn:E.
  - exists c'. split; [reflexivity|].
    apply find_some in E as [_ E]. apply andb_true_iff in E as [E _].
    now apply Z.eqb_eq.
  - exfalso. apply (find_none _ _ E) in Hin.
    rewrite Hi, Ho, !Z.eqb_refl in Hin. discriminate.
Qed.



Lemma filter_negb_none {A} (p : A -> bool) (l : list A) (x : A) :
  In x (filter (fun y => negb (p y)) l) -> p x = false.
Proof.
  intros H. apply filter_In in H as [_ H]. now apply negb_true_iff.
Qed.

Lemma find_negb_filter {A} (p : A -> bool) (l : list A) :
  find p (filter (fun y => negb (p y)) l) = None.
Proof.
  induction l as [|x l IH]; simpl; [reflexivity|].
  destruct (p x) eqn:E; simpl; [exact IH|]. now rewrite E.
Qed.

Lemma filter_negb_filter {A} (p : A -> bool) (l : list A) :
  filter p (filter (fun y => negb (p y)) l) = [].
Proof.
  induction l as [|x l IH]; simpl; [reflexivity|].
  destruct (p x) eqn:E; simpl; [exact IH|]. now rewrite E.
Qed.

Lemma remove_class_run (s : Store) (data : RemoveClassRequest)
      (teacher : User.t) (c : Class.t) :
  find_user s (rc_owner_email data) "teacher" = Some teacher ->
  find_owned_class s (rc_class_id data) (User.id teacher) = Some c ->
  run (remove_class data) s
  = (Ok "Class deleted", without_class (Class.id c) s,
     [EvDelete Messages (map Message.id (filter (of_class (Class.id c)) (messages s)));
      EvDelete ClassMembers
               (map ClassMember.id (filter (in_class (Class.id c)) (class_members s)));
      EvDelete Classes [Class.id c];
      EvCommit (without_class (Class.id c) s)]).
Proof.
  intros Ht Hc. unfold find_user, find_owned_class in *.
  unfold remove_class. run_handler. rewrite Ht. simpl. rewrite Hc. reflexivity.
Qed.

(** C4, as the code has it.  For a class owned by the teacher the e-mail
    names, RemoveClass deletes the class's messages first, then its
    memberships, then the class row, and commits once; afterwards no
    message, membership or class row with that class id is left, the
    member list of that id is empty and its message list is not found. *)
Theorem remove_class_cascade (s : Store) (data : RemoveClassRequest)
        (teacher : User.t) (cls : Class.t) (channel : string) :
  find_user s (rc_owner_email data) "teacher" = Some teacher ->
  In cls (classes s) ->
  Class.id cls = rc_class_id data ->
  Class.owner_id cls = User.id teacher ->
  let cid := rc_class_id data in
  let r := run (remove_class data) s in
  result r = Ok "Class deleted"
  /\ final r = without_class cid s
  /\ events r
     = [EvDelete Messages (map Message.id (filter (of_class cid) (messages s)));
        EvDelete ClassMembers (map ClassMember.id (filter (in_class cid) (class_members s)));
        EvDelete Classes [cid];
        EvCommit (without_class cid s)]
  /\ precedes (deletes_from Messages) (deletes_from ClassMembers) (events r) = true
  /\ precedes (deletes_from ClassMembers) (deletes_from Classes) (events r) = true
  /\ commits (events r) = [final r]
  /\ (forall m, In m (messages (final r)) -> Message.class_id m <> cid)
  /\ (forall m, In m (class_members (final r)) -> ClassMember.class_id m <> cid)
  /\ (forall c, In c (classes (final r)) -> Class.id c <> cid)
  /\ run (get_class_members cid) (final r) = (Ok [], final r, [])
  /\ run (get_class_messages cid channel) (final r)
     = (Raise (HTTPException 404 "Class not found"), final r, []).
Proof.
  intros Ht Hin Hid Hown cid r.
  destruct (owned_class_found s cid (User.id teacher) cls Hin Hid Hown) as (c & Hc & Hcid).
  assert (Hr : r = (Ok "Class deleted", without_class cid s,
                    [EvDelete Messages (map Message.id (filter (of_class cid) (messages s)));
                     EvDelete ClassMembers
                       (map ClassMember.id (filter (in_class cid) (class_members s)));
                     EvDelete Classes [cid];
                     EvCommit (without_class cid s)])).
  { subst r. rewrite (remove_class_run s data teacher c Ht Hc). now rewrite Hcid. }
  rewrite Hr. unfold result, final, events. simpl.
  repeat split.
  - intros m Hm. apply filter_negb_none in Hm. now apply Z.eqb_neq.
  - intros m Hm. apply filter_negb_none in Hm. now apply Z.eqb_neq.
  - intros c' Hc'. apply (filter_negb_none (fun c => Class.id c =? cid)) in Hc'.
    now apply Z.eqb_neq.
  - unfold get_class_members. run_handler.
    now rewrite (filter_negb_filter (in_class cid)).
  - unfold get_class_messages. run_handler.
    now rewrite (find_negb_filter (fun c => Class.id c =? cid)).
Qed.

Lemma remove_class_cascade_witness :
  events (run (remove_class (mkRemoveClassRequest 1 "Ann@x.com")) classroom)
  = [EvDelete Messages [1; 2]; EvDelete ClassMembers [1; 2]; EvDelete Classes [1];
     EvCommit (without_class 1 classroom)].
Proof.
  exact (proj1 (proj2 (proj2
    (remove_class_cascade classroom (mkRemoveClassRequest 1 "Ann@x.com") ann algebra
                          "general" eq_refl (or_introl eq_refl) eq_refl eq_refl)))).
Defined.

(** C4 at [classroom].  The order the specification states, memberships
    before messages, is not the order of the trace: the DELETE on messages
    comes first. *)
Lemma remove_class_order_counterexample :
  events (run (remove_class (mkRemoveClassRequest 1 "ann@x.com")) classroom)
  = [EvDelete Messages [1; 2]; EvDelete ClassMembers [1; 2]; EvDelete Classes [1];
     EvCommit (without_class 1 classroom)]
  /\ precedes (deletes_from ClassMembers) (deletes_from Messages)
        (events (run (remove_class (mkRemoveClassRequest 1 "ann@x.com")) classroom))
     <> true.
Proof.
  split; [reflexivity | discriminate].
Qed.

(* ------------------------------------------------------------------ *)
(** ** CreateClass *)

Lemma find_last_by_key {A} (key : A -> Z) (clash : A -> A -> bool) (l : list A) (x : A) :
  (forall y, key x = key y -> clash x y = true) ->
  existsb (clash x) l = false ->
  find (fun r => key r =? key x) (l ++ [x]) = Some x.
Proof.
  intros Hk Hc. apply find_app_miss; [|apply Z.eqb_refl].
  induction l as [|y l IH]; simpl in *; [reflexivity|].
  apply orb_false_iff in Hc as [Hy Hl].
  destruct (key y =? key x) eqn:E.
  - apply Z.eqb_eq in E. symmetry in E. apply Hk in E. congruence.
  - now apply IH.
Qed.

Lemma class_clash_on_key (c d : Class.t) : Class.id c = Class.id d -> class_clash c d = true.
Proof.
  intros E. unfold class_clash. rewrite E, Z.eqb_refl. reflexivity.
Qed.

(** C2, as the code has it.  A CreateClass call that succeeds has found the
    owner as a teacher and commits twice: the first commit stores the new
    Class row and leaves the membership table as it was, the second adds
    the owner's active teacher row for that class.  The store after the
    call holds both rows; the snapshot between the commits holds the class
    row alone. *)
Theorem create_class_two_commits (s : Store) (data : CreateClassRequest) (cls : Class.t) :
  result (run (create_class data) s) = Ok cls ->
  exists owner,
    find_user s (cc_owner_email data) "teacher" = Some owner
    /\ cls = class_of_request data (classes_seq s) (User.id owner)
    /\ final (run (create_class data) s) = with_owner_row cls (with_new_class cls s)
    /\ commits (events (run (create_class data) s))
       = [with_new_class cls s; with_owner_row cls (with_new_class cls s)]
    /\ events (run (create_class data) s)
       = [EvInsert Classes (Class.id cls);
          EvCommit (with_new_class cls s);
          EvInsert ClassMembers (class_members_seq s);
          EvCommit (with_owner_row cls (with_new_class cls s))]
    /\ class_members (with_new_class cls s) = class_members s
    /\ In cls (classes (with_new_class cls s))
    /\ In cls (classes (final (run (create_class data) s)))
    /\ In (ClassMember.mk (class_members_seq s) (Class.id cls) (User.id owner)
                          "teacher" "active")
          (class_members (final (run (create_class data) s))).
Proof.
  unfold find_user. unfold create_class. run_handler.
  destruct (find (user_is _ "teacher") (users s)) as [owner|] eqn:Ho; simpl;
    [|discriminate].
  destruct (find _ (classes s)) as [c0|] eqn:Hraw; simpl; [discriminate|].
  fold (class_of_request data (classes_seq s) (User.id owner)).
  set (c := class_of_request data (classes_seq s) (User.id owner)).
  destruct (existsb (class_clash c) (classes s)) eqn:Hclash; simpl; [discriminate|].
  pose proof (find_last_by_key Class.id class_clash (classes s) c
                (class_clash_on_key c) Hclash) as Hfresh.
  simpl in Hfresh. rewrite Hfresh. simpl.
  destruct (existsb _ (class_members s)) eqn:Hm; simpl; [discriminate|].
  intros [= <-]. exists owner.
  repeat split.
  - apply in_or_app. right. now left.
  - apply in_or_app. right. now left.
  - apply in_or_app. right. now left.
Qed.

Lemma create_class_two_commits_witness :
  exists owner,
    find_user staff_room "Ann@X.com" "teacher" = Some owner
    /\ algebra = class_of_request algebra_request 1 (User.id owner)
    /\ final (run (create_class algebra_request) staff_room)
       = with_owner_row algebra (with_new_class algebra staff_room)
    /\ commits (events (run (create_class algebra_request) staff_room))
       = [with_new_class algebra staff_room;
          with_owner_row algebra (with_new_class algebra staff_room)]
    /\ events (run (create_class algebra_request) staff_room)
       = [EvInsert Classes 1;
          EvCommit (with_new_class algebra staff_room);
          EvInsert ClassMembers 1;
          EvCommit (with_owner_row algebra (with_new_class algebra staff_room))]
    /\ class_members (with_new_class algebra staff_room) = []
    /\ In algebra (classes (with_new_class algebra staff_room))
    /\ In algebra (classes (final (run (create_class algebra_request) staff_room)))
    /\ In (ClassMember.mk 1 1 (User.id owner) "teacher" "active")
          (class_members (final (run (create_class algebra_request) staff_room))).
Proof.
  exact (create_class_two_commits staff_room algebra_request algebra eq_refl).
Defined.

(** C2 at [staff_room].  The snapshot after the first commit of CreateClass
    is a reachable store in which a class is persisted without its owner's
    row. *)
Lemma create_class_not_atomic_counterexample :
  ~ (forall s, reachable s -> owner_listed s = true).
Proof.
  intros H.
  assert (R1 : reachable staff_room).
  { apply reach_commit
      with (s := empty_store)
           (r := CreateTeacher (mkTeacherCreate "Ann Lee" "Ann@x.com" "T1" "pw"));
      [apply reach_empty | left; reflexivity]. }
  assert (R2 : reachable (with_new_class algebra staff_room)).
  { apply reach_commit with (s := staff_room) (r := CreateClass algebra_request);
      [exact R1 | left; reflexivity]. }
  apply H in R2. discriminate R2.
Qed.

(** What CreateClass does check: the owner, and the code exactly as sent. *)
Lemma create_class_refusals (s : Store) (data : CreateClassRequest) :
  (find_user s (cc_owner_email data) "teacher" = None ->
   run (create_class data) s = (Raise (HTTPException 400 "Teacher not found"), s, []))
  /\ (forall owner c,
         find_user s (cc_owner_email data) "teacher" = Some owner ->
         In c (classes s) -> Class.code c = cc_code data ->
         run (create_class data) s
         = (Raise (HTTPException 400 "Join code already used"), s, [])).
Proof.
  unfold find_user. split.
  - intros Ho. unfold create_class. run_handler. now rewrite Ho.
  - intros owner c Ho Hin Hcode. unfold create_class. run_handler.
    rewrite Ho. simpl.
    destruct (find _ (classes s)) as [c0|] eqn:Hraw; simpl; [reflexivity|].
    apply (find_none _ _ Hraw) in Hin. rewrite Hcode, String.eqb_refl in Hin.
    discriminate.
Qed.

(** A code that is taken once normalised, though not as sent, gets past the
    check and fails at the commit. *)
Lemma create_class_normalised_clash (s : Store) (data : CreateClassRequest)
      (owner : User.t) (c : Class.t) :
  find_user s (cc_owner_email data) "teacher" = Some owner ->
  (forall d, In d (classes s) -> Class.code d <> cc_code data) ->
  In c (classes s) -> Class.code c = Py.upper (Py.strip (cc_code data)) ->
  run (create_class data) s = (Raise IntegrityError, s, []).
Proof.
  unfold find_user. intros Ho Hraw Hin Hcode.
  unfold create_class. run_handler. rewrite Ho. simpl.
  destruct (find _ (classes s)) as [d|] eqn:Hd; simpl.
  - apply find_some in Hd as [Hd1 Hd2]. apply String.eqb_eq in Hd2.
    now apply Hraw in Hd1.
  - match goal with
    | |- context [existsb ?p (classes s)] =>
        assert (Hclash : existsb p (classes s) = true)
    end.
    { apply existsb_exists. exists c. split; [assumption|].
      unfold class_clash. simpl. rewrite Hcode, String.eqb_refl.
      apply orb_true_r. }
    rewrite Hclash. reflexivity.
Qed.

(** C3 at a code that differs from a stored one in letter case only.
    Class 1 of [school] has code ABC1.  Asking for ABC1 again is refused
    with "Join code already used".  Asking for abc1 passes the handler's
    check, which compares the code as sent; the row is built with the
    upper-cased code and the commit fails on the unique index of
    [classes.code] with an IntegrityError the handler does not catch. *)
Theorem create_class_case_variant :
  run (create_class (mkCreateClassRequest "Algebra II" None None "ABC1" "ann@x.com")) school
  = (Raise (HTTPException 400 "Join code already used"), school, [])
  /\ run (create_class (mkCreateClassRequest "Algebra II" None None "abc1" "ann@x.com")) school
     = (Raise IntegrityError, school, []).
Proof.
  split; reflexivity.
Qed.

(* ------------------------------------------------------------------ *)
(** ** DeleteMessage *)


Lemma named_is_truthy (e : string) : e <> "" -> Py.truthy e = true.
Proof.
  destruct e; [congruence | reflexivity].
Qed.

Lemma delete_message_no_teacher (s : Store) (cid mid : Z) (e : string) :
  e <> "" ->
  find_user s e "teacher" = None ->
  run (delete_message cid mid (Some e)) s
  = (Raise (HTTPException 403 "Teacher not found"), s, []).
Proof.
  intros He Ht. unfold find_user in Ht.
  unfold delete_message. simpl. rewrite (named_is_truthy e He). simpl.
  run_handler. now rewrite Ht.
Qed.

Lemma delete_message_not_owner (s : Store) (cid mid : Z) (e : string) (t : User.t) :
  e <> "" ->
  find_user s e "teacher" = Some t ->
  find_owned_class s cid (User.id t) = None ->
  run (delete_message cid mid (Some e)) s
  = (Raise (HTTPException 403 "You are not the owner of this class"), s, []).
Proof.
  intros He Ht Hc. unfold find_user, find_owned_class in *.
  unfold delete_message. simpl. rewrite (named_is_truthy e He). simpl.
  run_handler. rewrite Ht. simpl. now rewrite Hc.
Qed.

Lemma delete_message_by_owner (s : Store) (cid mid : Z) (e : string)
      (t : User.t) (c : Class.t) :
  e <> "" ->
  find_user s e "teacher" = Some t ->
  find_owned_class s cid (User.id t) = Some c ->
  run (delete_message cid mid (Some e)) s
  = match find_message s mid cid with
    | None => (Raise (HTTPException 404 "Message not found"), s, [])
    | Some m => (Ok "Message deleted", without_message (Message.id m) s,
                 [EvDelete Messages [Message.id m];
                  EvCommit (without_message (Message.id m) s)])
    end.
Proof.
  intros He Ht Hc. unfold find_user, find_owned_class, find_message in *.
  unfold delete_message. simpl. rewrite (named_is_truthy e He). simpl.
  run_handler. rewrite Ht. simpl. rewrite Hc. simpl.
  destruct (find _ (messages s)); reflexivity.
Qed.




(* ------------------------------------------------------------------ *)
(** ** How a commit may change a table *)

Section Tables.

Context {R : Type}.
Variable key : R -> Z.
Variable same : R -> R -> Prop.
Variable fits : list R -> R -> Prop.

Hypothesis same_key : forall x y, same x y -> key y = key x.

Lemma grows_keys_below (l l' : list R) (n n' : Z) :
  grows key same fits l n l' n' ->
  forallb (fun x => key x <? n) l = true ->
  forallb (fun x => key x <? n') l' = true.
Proof.
  induction 1 as [l n | p l n | l n x Hk _ | f l n Hf | l1 n1 l2 n2 l3 n3 _ IH1 _ IH2];
    intros Hb; auto.
  - rewrite forallb_forall in *. intros x Hx.
    apply filter_In in Hx as [Hx _]. auto.
  - rewrite forallb_app. simpl. apply andb_true_iff. split.
    + rewrite forallb_forall in *. intros y Hy. apply Hb in Hy.
      apply Z.ltb_lt in Hy. apply Z.ltb_lt. lia.
    + rewrite Hk, andb_true_r. apply Z.ltb_lt. lia.
  - rewrite forallb_forall in *. intros y Hy.
    apply in_map_iff in Hy as (x & <- & Hx).
    rewrite (same_key x (f x) (Hf x)). auto.
Qed.

Lemma keys_of_filter_unique (p : R -> bool) (l : list R) :
  NoDup (map key l) -> NoDup (map key (filter p l)).
Proof.
  induction l as [|x l IH]; simpl; intros Hn; [constructor|].
  inversion Hn as [|? ? Hx Hl]; subst.
  destruct (p x); simpl; auto.
  constructor; auto.
  intros Hin. apply Hx. apply in_map_iff in Hin as (y & Hy & Hin).
  apply filter_In in Hin as [Hin _]. rewrite <- Hy. now apply in_map.
Qed.

Lemma grows_keys_unique (l l' : list R) (n n' : Z) :
  grows key same fits l n l' n' ->
  forallb (fun x => key x <? n) l = true ->
  NoDup (map key l) -> NoDup (map key l').
Proof.
  induction 1 as [l n | p l n | l n x Hk _ | f l n Hf | l1 n1 l2 n2 l3 n3 H1 IH1 _ IH2];
    intros Hb Hn; auto.
  - now apply keys_of_filter_unique.
  - rewrite map_app. simpl.
    apply (Permutation_NoDup (Permutation_cons_append (map key l) (key x))).
    constructor; [|exact Hn].
    intros Hin. apply in_map_iff in Hin as (y & Hy & Hin).
    rewrite forallb_forall in Hb. apply Hb in Hin. apply Z.ltb_lt in Hin. lia.
  - rewrite map_map.
    replace (map (fun x => key (f x)) l) with (map key l); [exact Hn|].
    apply map_ext. intros x. symmetry. now apply same_key.
  - apply IH2; [|now apply IH1].
    now apply grows_keys_below with l1 n1.
Qed.

End Tables.

Lemma grows_weaken {R} (key : R -> Z) (same : R -> R -> Prop)
      (fits fits' : list R -> R -> Prop) (l l' : list R) (n n' : Z) :
  (forall l x, fits l x -> fits' l x) ->
  grows key same fits l n l' n' -> grows key same fits' l n l' n'.
Proof.
  intros W. induction 1; try (now constructor).
  - apply g_add; auto.
  - eapply g_trans; eassumption.
Qed.

Lemma evolves_by_any (b : bool) (s s' : Store) : evolves_by b s s' -> evolves s s'.
Proof.
  destruct b; [trivial|].
  intros (Hu & H). split; [|exact H].
  revert Hu. apply grows_weaken.
  intros l x Hx Hadm. simpl in Hx. contradiction.
Qed.

Lemma filter_filter_le {A} (p q : A -> bool) (l : list A) :
  (List.length (filter p (filter q l)) <= List.length (filter p l))%nat.
Proof.
  induction l as [|x l IH]; simpl; [lia|].
  destruct (q x); simpl; destruct (p x); simpl; lia.
Qed.

Lemma filter_map_same {A} (p : A -> bool) (f : A -> A) (l : list A) :
  (forall x, p (f x) = p x) ->
  List.length (filter p (map f l)) = List.length (filter p l).
Proof.
  intros H. induction l as [|x l IH]; simpl; [reflexivity|].
  rewrite H. destruct (p x); simpl; lia.
Qed.

Lemma users_grow_one_admin (l l' : list User.t) (n n' : Z) :
  users_grow true l n l' n' ->
  (List.length (filter is_admin l) <= 1)%nat ->
  (List.length (filter is_admin l') <= 1)%nat.
Proof.
  induction 1 as [l n | p l n | l n x _ Hfit | f l n Hf | l1 n1 l2 n2 l3 n3 _ IH1 _ IH2];
    intros Hb; auto.
  - pose proof (filter_filter_le is_admin p l). lia.
  - rewrite filter_app, List.length_app. simpl.
    destruct (is_admin x) eqn:Hx; simpl; [|lia].
    unfold is_admin in Hx. apply String.eqb_eq in Hx.
    rewrite (Hfit Hx). simpl. lia.
  - rewrite filter_map_same; [exact Hb|].
    intros x. unfold is_admin. destruct (Hf x) as [_ ->]. reflexivity.
Qed.

Lemma messages_grow_posted (l l' : list Message.t) (n n' : Z) :
  messages_grow l n l' n' -> Forall posted l -> Forall posted l'.
Proof.
  induction 1 as [l n | p l n | l n x _ Hfit | f l n Hf | l1 n1 l2 n2 l3 n3 _ IH1 _ IH2];
    intros Hb; auto.
  - rewrite Forall_forall in *. intros x Hx. apply filter_In in Hx as [Hx _]. auto.
  - apply Forall_app. split; [assumption | now constructor].
  - rewrite Forall_forall in *. intros y Hy.
    apply in_map_iff in Hy as (x & <- & Hx). rewrite <- (Hf x). auto.
Qed.

Lemma evolves_invariant (s s' : Store) :
  evolves s s' -> store_invariant s -> store_invariant s'.
Proof.
  unfold evolves.
  intros (Hu & Hc & Hm & Hg) (Hseq & Hadm & Hpost & Hkeys).
  apply sequences_ahead_parts in Hseq as (Su & Sc & Sm & Sg).
  split; [|split; [|split]].
  - unfold sequences_ahead.
    rewrite (grows_keys_below User.id user_same (user_fits true)
               (fun x y H => proj1 H) _ _ _ _ Hu Su).
    rewrite (grows_keys_below Class.id eq _ (fun x y H => f_equal Class.id (eq_sym H))
               _ _ _ _ Hc Sc).
    rewrite (grows_keys_below ClassMember.id _ _ (fun x y H => H) _ _ _ _ Hm Sm).
    rewrite (grows_keys_below Message.id eq _ (fun x y H => f_equal Message.id (eq_sym H))
               _ _ _ _ Hg Sg).
    reflexivity.
  - unfold admins. now apply users_grow_one_admin with (users s) (users_seq s) (users_seq s').
  - now apply messages_grow_posted with (messages s) (messages_seq s) (messages_seq s').
  - apply (grows_keys_unique Message.id eq _
             (fun x y H => f_equal Message.id (eq_sym H)) _ _ _ _ Hg Sg Hkeys).
Qed.

(* ------------------------------------------------------------------ *)
(** ** Every commit of every handler evolves the store *)

Ltac split_case H :=
  match type of H with
  | context [match ?x with _ => _ end] =>
      lazymatch x with
      | context [match _ with _ => _ end] => fail
      | _ => destruct x eqn:?; simpl in H
      end
  end.

Ltac split_cases H := repeat split_case H.

Lemma find_none_filter {A} (p : A -> bool) (l : list A) :
  find p l = None -> filter p l = [].
Proof.
  induction l as [|x l IH]; simpl; [reflexivity|].
  destruct (p x); [discriminate | exact IH].
Qed.

Ltac side_condition :=
  first [ exact I
        | reflexivity
        | intros H; discriminate H
        | simpl; intros H; discriminate H
        | simpl; intros _; apply find_none_filter; assumption
        | intros x; unfold update_row; split; destruct (_ =? _); reflexivity
        | intros x; unfold update_row; destruct (_ =? _); reflexivity
        | eexists; reflexivity ].

Ltac grow_table :=
  first [ apply g_refl
        | apply g_drop
        | apply g_add; [reflexivity | side_condition]
        | apply g_edit; side_condition ].

Ltac settle H :=
  repeat match type of H with
         | _ \/ _ => destruct H as [<- | H]
         | False => contradiction
         end;
  unfold evolves_by, users_grow, classes_grow, members_grow, messages_grow; simpl;
  repeat split; grow_table.

Lemma register_admin_evolves (d : AdminRegister) (s s' : Store) :
  In s' (commits (events (run (register_admin d) s))) -> evolves s s'.
Proof.
  unfold evolves, register_admin. run_handler. intros H.
  split_cases H; settle H.
Qed.

Lemma register_student_evolves (d : StudentRegister) (s s' : Store) :
  In s' (commits (events (run (register_student d) s))) -> evolves_by false s s'.
Proof.
  unfold register_student. run_handler. intros H.
  split_cases H; settle H.
Qed.

Lemma create_teacher_evolves (d : TeacherCreate) (s s' : Store) :
  In s' (commits (events (run (create_teacher d) s))) -> evolves_by false s s'.
Proof.
  unfold create_teacher. run_handler. intros H.
  split_cases H; settle H.
Qed.

Lemma delete_student_evolves (k : Z) (s s' : Store) :
  In s' (commits (events (run (delete_student k) s))) -> evolves_by false s s'.
Proof.
  unfold delete_student. run_handler. intros H.
  split_cases H; settle H.
Qed.

Lemma upload_avatar_evolves (e : string) (ct : option string) (nm : string)
      (s s' : Store) :
  In s' (commits (events (run (upload_avatar e ct nm) s))) -> evolves_by false s s'.
Proof.
  unfold upload_avatar. run_handler. intros H.
  split_cases H; settle H.
Qed.

Lemma remove_class_evolves (d : RemoveClassRequest) (s s' : Store) :
  In s' (commits (events (run (remove_class d) s))) -> evolves_by false s s'.
Proof.
  unfold remove_class. run_handler. intros H.
  split_cases H; settle H.
Qed.

Lemma student_join_class_evolves (d : JoinClassRequest) (s s' : Store) :
  In s' (commits (events (run (student_join_class d) s))) -> evolves_by false s s'.
Proof.
  unfold student_join_class. run_handler. intros H.
  split_cases H; settle H.
Qed.

Lemma teacher_approve_evolves (d : ApproveRequest) (s s' : Store) :
  In s' (commits (events (run (teacher_approve d) s))) -> evolves_by false s s'.
Proof.
  unfold teacher_approve. run_handler. intros H.
  split_cases H; settle H.
Qed.

Lemma delete_message_evolves (c m : Z) (e : option string) (s s' : Store) :
  In s' (commits (events (run (delete_message c m e) s))) -> evolves_by false s s'.
Proof.
  unfold delete_message. run_handler. intros H.
  split_cases H; settle H.
Qed.

Lemma post_class_message_evolves (c : Z) (d : MessageCreate) (now : Z) (s s' : Store) :
  In s' (commits (events (run (post_class_message c d now) s))) -> evolves_by false s s'.
Proof.
  unfold post_class_message. run_handler. intros H.
  split_cases H; settle H.
Qed.

Lemma create_class_evolves (d : CreateClassRequest) (s s' : Store) :
  In s' (commits (events (run (create_class d) s))) -> evolves_by false s s'.
Proof.
  unfold create_class. run_handler. intros H.
  split_cases H; settle H.
Qed.

Lemma commits_app (a b : list Event) : commits (a ++ b) = commits a ++ commits b.
Proof.
  induction a as [|e a IH]; simpl; [reflexivity|].
  destruct e; simpl; now rewrite IH.
Qed.

(** The loop of [delete_teacher] only deletes members and messages and
    queues class deletions; it commits nothing. *)
Lemma drop_classes_effect (cs : list Class.t) (ss : Session) :
  exists ss',
    drop_classes cs ss = (Ok tt, ss')
    /\ users (txn ss') = users (txn ss)
    /\ users_seq (txn ss') = users_seq (txn ss)
    /\ classes (txn ss') = classes (txn ss)
    /\ classes_seq (txn ss') = classes_seq (txn ss)
    /\ members_grow (class_members (txn ss)) (class_members_seq (txn ss))
                    (class_members (txn ss')) (class_members_seq (txn ss'))
    /\ messages_grow (messages (txn ss)) (messages_seq (txn ss))
                     (messages (txn ss')) (messages_seq (txn ss'))
    /\ commits (trace ss') = commits (trace ss)
    /\ pending ss' = pending ss ++ map (fun c => GoneClass (Class.id c)) cs.
Proof.
  revert ss. induction cs as [|c cs IH]; intros ss.
  - exists ss. simpl. unfold ret. rewrite app_nil_r.
    repeat split; apply g_refl.
  - simpl. unfold bind at 1 2 3. unfold bulk_delete_members, bulk_delete_messages, enqueue.
    simpl.
    match goal with |- context [drop_classes cs ?x] => destruct (IH x) as (ss' & E & H) end.
    exists ss'. split; [exact E|].
    simpl in H. destruct H as (H1 & H2 & H3 & H4 & H5 & H6 & H7 & H8).
    repeat split; try assumption.
    + eapply g_trans; [apply g_drop | exact H5].
    + eapply g_trans; [apply g_drop | exact H6].
    + rewrite H7. rewrite !commits_app. simpl. now rewrite !app_nil_r.
    + rewrite H8. rewrite <- app_assoc. reflexivity.
Qed.

Lemma flush_gone_classes (cs : list Class.t) (rest : list Pending)
      (s : Store) (tr : list Event) :
  exists s1 tr1,
    flush (map (fun c => GoneClass (Class.id c)) cs ++ rest) s tr = flush rest s1 tr1
    /\ users s1 = users s /\ users_seq s1 = users_seq s
    /\ classes_grow (classes s) (classes_seq s) (classes s1) (classes_seq s1)
    /\ class_members s1 = class_members s
    /\ class_members_seq s1 = class_members_seq s
    /\ messages s1 = messages s /\ messages_seq s1 = messages_seq s
    /\ commits tr1 = commits tr.
Proof.
  revert s tr. induction cs as [|c cs IH]; intros s tr.
  - exists s, tr. simpl. repeat split. apply g_refl.
  - simpl.
    match goal with |- context [flush _ ?x ?y = _] => destruct (IH x y) as (s1 & tr1 & E & H) end.
    exists s1, tr1. split; [exact E|].
    simpl in H. destruct H as (H1 & H2 & H3 & H4 & H5 & H6 & H7 & H8).
    repeat split; try assumption.
    + eapply g_trans; [apply g_drop | exact H3].
    + rewrite H8, commits_app. simpl. now rewrite app_nil_r.
Qed.

Lemma delete_teacher_evolves (k : Z) (s s' : Store) :
  In s' (commits (events (run (delete_teacher k) s))) -> evolves_by false s s'.
Proof.
  unfold delete_teacher, run, events.
  unfold bind at 1. unfold query_first at 1. simpl.
  destruct (find _ (users s)) as [t|]; [|simpl; contradiction].
  unfold bind at 1. unfold query_all at 1. simpl.
  unfold bind at 1.
  match goal with
  | |- context [drop_classes ?cs ?x] =>
      destruct (drop_classes_effect cs x) as (ss1 & E & U1 & U2 & C1 & C2 & M & G & T & P)
  end.
  rewrite E. simpl in U1, U2, C1, C2, M, G, T, P.
  unfold bind, bulk_delete_members, enqueue, db_commit, ret. simpl.
  rewrite P.
  match goal with
  | |- context [flush (map ?f ?cs ++ ?rest) ?x ?y] =>
      destruct (flush_gone_classes cs rest x y)
        as (s1 & tr1 & F & V1 & V2 & D & W1 & W2 & X1 & X2 & Y)
  end.
  rewrite F. simpl in V1, V2, D, W1, W2, X1, X2, Y |- *.
  rewrite !commits_app. simpl. rewrite commits_app in Y. simpl in Y.
  rewrite app_nil_r in Y. rewrite Y, T. simpl.
  intros [<- | []].
  unfold evolves_by, users_grow, classes_grow. simpl.
  rewrite V1, V2, U1, U2, W1, W2, X1, X2.
  rewrite C1, C2 in D.
  repeat split.
  - apply g_drop.
  - exact D.
  - eapply g_trans; [exact M | apply g_drop].
  - exact G.
Qed.

(** Every snapshot a request commits evolves from the store it ran on. *)
Lemma dispatch_evolves_by (r : Request) (s s' : Store) :
  In s' (commits (snd (dispatch r s))) -> evolves_by (may_add_admin r) s s'.
Proof.
  destruct r as [d | d | d | k | k | e ct nm | d | d | d | d | c d now | c m e];
    simpl; intros H.
  - now apply register_student_evolves with d.
  - now apply register_admin_evolves with d.
  - now apply create_teacher_evolves with d.
  - now apply delete_teacher_evolves with k.
  - now apply delete_student_evolves with k.
  - now apply upload_avatar_evolves with e ct nm.
  - now apply create_class_evolves with d.
  - now apply remove_class_evolves with d.
  - now apply student_join_class_evolves with d.
  - now apply teacher_approve_evolves with d.
  - now apply post_class_message_evolves with c d now.
  - now apply delete_message_evolves with c m e.
Qed.

Lemma dispatch_evolves (r : Request) (s s' : Store) :
  In s' (commits (snd (dispatch r s))) -> evolves s s'.
Proof.
  intros H. apply evolves_by_any with (may_add_admin r).
  now apply dispatch_evolves_by.
Qed.

Lemma users_grow_no_new_admin (l l' : list User.t) (n n' : Z) :
  users_grow false l n l' n' ->
  (List.length (filter is_admin l') <= List.length (filter is_admin l))%nat.
Proof.
  induction 1 as [l n | p l n | l n x _ Hfit | f l n Hf | l1 n1 l2 n2 l3 n3 _ IH1 _ IH2].
  - lia.
  - apply filter_filter_le.
  - rewrite filter_app, List.length_app. simpl in *.
    destruct (is_admin x) eqn:Hx; simpl; [|lia].
    unfold is_admin in Hx. apply String.eqb_eq in Hx. contradiction.
  - rewrite filter_map_same; [lia|].
    intros x. unfold is_admin. destruct (Hf x) as [_ ->]. reflexivity.
  - lia.
Qed.

Lemma empty_store_invariant : store_invariant empty_store.
Proof.
  repeat split; simpl; auto. constructor.
Qed.

Lemma reachable_invariant (s : Store) : reachable s -> store_invariant s.
Proof.
  induction 1 as [|s r s' _ IH Hin].
  - apply empty_store_invariant.
  - apply evolves_invariant with s; [|exact IH].
    now apply dispatch_evolves with r.
Qed.

(* ------------------------------------------------------------------ *)
(** ** Admin registration *)

Lemma register_admin_taken (s : Store) (data : AdminRegister) :
  admins s <> [] ->
  run (register_admin data) s
  = (Raise (HTTPException 400 "Admin already exists"), s, []).
Proof.
  intros H. unfold register_admin. run_handler.
  destruct (find _ (users s)) eqn:E; [reflexivity|].
  exfalso. apply H. unfold admins. now apply find_none_filter.
Qed.

(** C10.  While some user has role admin, admin registration is refused
    with status 400 "Admin already exists" whatever e-mail is asked for,
    and the store stays as it was.  No request other than admin
    registration commits a store with more admins than it started from.
    Every reachable store has at most one user with role admin. *)
Theorem at_most_one_admin :
  (forall s data,
      admins s <> [] ->
      run (register_admin data) s
      = (Raise (HTTPException 400 "Admin already exists"), s, []))
  /\ (forall r s s',
         may_add_admin r = false ->
         In s' (commits (snd (dispatch r s))) ->
         (List.length (admins s') <= List.length (admins s))%nat)
  /\ (forall s, reachable s -> (List.length (admins s) <= 1)%nat).
Proof.
  split; [exact register_admin_taken|]. split.
  - intros r s s' Hr Hin. apply dispatch_evolves_by in Hin.
    rewrite Hr in Hin. destruct Hin as (Hu & _).
    unfold admins. now apply users_grow_no_new_admin with (users_seq s) (users_seq s').
  - intros s Hs. now apply reachable_invariant.
Qed.

Lemma at_most_one_admin_witness :
  run (register_admin (mkAdminRegister "Eve" "eve@x.com" "pw")) office
  = (Raise (HTTPException 400 "Admin already exists"), office, []).
Proof.
  apply (proj1 at_most_one_admin office (mkAdminRegister "Eve" "eve@x.com" "pw")).
  discriminate.
Defined.

(* ------------------------------------------------------------------ *)
(** ** Decoding what the encoder wrote *)

Lemma scanstring_escape (c : ascii) (tail : list ascii) :
  Json.scanstring (Json.escape_char c ++ tail) = Json.push c (Json.scanstring tail).
Proof.
  destruct c as [[] [] [] [] [] [] [] []]; reflexivity.
Qed.

Lemma scanstring_encoded (l tail : list ascii) :
  Json.scanstring (flat_map Json.escape_char l ++ Json.dquote :: tail) = Some (l, tail).
Proof.
  induction l as [|c l IH]; simpl.
  - reflexivity.
  - rewrite <- app_assoc, scanstring_escape, IH. reflexivity.
Qed.

Lemma encode_string_head (x : string) :
  Json.encode_string x = Json.dquote :: quoted_tail x.
Proof. reflexivity. Qed.

Lemma scanstring_quoted (x : string) (tail : list ascii) :
  Json.scanstring (quoted_tail x ++ tail) = Some (Json.chars x, tail).
Proof.
  unfold quoted_tail. rewrite <- app_assoc. apply scanstring_encoded.
Qed.

Lemma parse_value_string (fuel : nat) (x : string) (tail : list ascii) :
  Json.parse_value (S fuel) (Json.dquote :: quoted_tail x ++ tail)
  = Some (Json.Str x, tail).
Proof.
  simpl. rewrite scanstring_quoted.
  unfold Json.chars. now rewrite string_of_list_ascii_of_string.
Qed.

Lemma string_of_chars (x : string) : string_of_list_ascii (Json.chars x) = x.
Proof.
  unfold Json.chars. apply string_of_list_ascii_of_string.
Qed.

(** A pair that is followed by another one. *)
Lemma parse_pairs_more (fuel : nat) (k v : string) (s : list ascii) :
  Json.parse_pairs (S (S fuel))
    (quoted_tail k ++ colon ++ Json.dquote :: quoted_tail v
                   ++ comma ++ Json.dquote :: s)
  = Json.push (k, Json.Str v) (Json.parse_pairs (S fuel) s).
Proof.
  simpl. rewrite scanstring_quoted. simpl. rewrite scanstring_quoted. simpl.
  now rewrite !string_of_chars.
Qed.

(** The last pair of an object. *)
Lemma parse_pairs_last (fuel : nat) (k v : string) (tail : list ascii) :
  Json.parse_pairs (S (S fuel))
    (quoted_tail k ++ colon ++ Json.dquote :: quoted_tail v ++ "}"%char :: tail)
  = Some ([(k, Json.Str v)], tail).
Proof.
  simpl. rewrite scanstring_quoted. simpl. rewrite scanstring_quoted. simpl.
  now rewrite !string_of_chars.
Qed.

Lemma dumps_dict (a : AttachmentMeta) (tail : list ascii) :
  Json.dumps_chars (dict_ a) ++ tail = dict_chars a tail.
Proof.
  unfold dict_chars, dict_, colon, comma. cbn [Json.dumps_chars map Json.join fst snd].
  rewrite !encode_string_head.
  repeat (rewrite <- ?app_assoc, <- ?app_comm_cons). reflexivity.
Qed.

Lemma parse_value_object (fuel : nat) (s : list ascii) :
  Json.parse_value (S fuel) ("{"%char :: Json.dquote :: s)
  = match Json.parse_pairs fuel s with
    | Some (ps, r) => Some (Json.Obj (Json.dict_of_pairs ps), r)
    | None => None
    end.
Proof. reflexivity. Qed.

Lemma parse_dict (fuel : nat) (a : AttachmentMeta) (tail : list ascii) :
  Json.parse_value (5 + fuel) (dict_chars a tail) = Some (dict_ a, tail).
Proof.
  unfold dict_chars.
  change (5 + fuel)%nat with (S (S (S (S (S fuel))))).
  rewrite parse_value_object, !parse_pairs_more, parse_pairs_last.
  reflexivity.
Qed.

Lemma items_chars_cons (a b : AttachmentMeta) (atts : list AttachmentMeta)
      (tail : list ascii) :
  items_chars (a :: b :: atts) ++ tail
  = dict_chars a (comma ++ items_chars (b :: atts) ++ tail).
Proof.
  unfold items_chars. cbn [map Json.join].
  rewrite <- !app_assoc. apply dumps_dict.
Qed.

Lemma items_chars_one (a : AttachmentMeta) (tail : list ascii) :
  items_chars [a] ++ tail = dict_chars a tail.
Proof.
  unfold items_chars. cbn [map Json.join]. apply dumps_dict.
Qed.

Lemma items_chars_head (a : AttachmentMeta) (atts : list AttachmentMeta)
      (tail : list ascii) :
  exists rest, items_chars (a :: atts) ++ tail = "{"%char :: rest.
Proof.
  destruct atts as [|b atts].
  - rewrite items_chars_one. eexists. reflexivity.
  - rewrite items_chars_cons. eexists. reflexivity.
Qed.

Lemma parse_items_step (fuel : nat) (s : list ascii) :
  Json.parse_items (S fuel) s
  = match Json.parse_value fuel s with
    | Some (v, r) =>
        match Json.skip_ws r with
        | d :: r' =>
            if (nat_of_ascii d =? 93)%nat then Some ([v], r')
            else if (nat_of_ascii d =? 44)%nat then
                   Json.push v (Json.parse_items fuel (Json.skip_ws r'))
                 else None
        | [] => None
        end
    | None => None
    end.
Proof. reflexivity. Qed.

Lemma parse_items_dicts (atts : list AttachmentMeta) :
  forall (a : AttachmentMeta) (fuel : nat) (tail : list ascii),
    Json.parse_items (6 + List.length atts + fuel)
                     (items_chars (a :: atts) ++ "]"%char :: tail)
    = Some (map dict_ (a :: atts), tail).
Proof.
  induction atts as [|b atts IH]; intros a fuel tail.
  - rewrite items_chars_one.
    change (6 + List.length (@nil AttachmentMeta) + fuel)%nat with (S (5 + fuel)).
    rewrite parse_items_step, parse_dict. reflexivity.
  - rewrite items_chars_cons.
    change (6 + List.length (b :: atts) + fuel)%nat
      with (S (5 + (S (List.length atts + fuel)))).
    rewrite parse_items_step, parse_dict.
    destruct (items_chars_head b atts ("]"%char :: tail)) as (rest & Hrest).
    assert (Hskip : Json.skip_ws (items_chars (b :: atts) ++ "]"%char :: tail)
                    = items_chars (b :: atts) ++ "]"%char :: tail)
      by (rewrite Hrest; reflexivity).
    cbn [comma Json.chars list_ascii_of_string app Json.skip_ws].
    change (Json.is_ws ","%char) with false.
    change (Json.is_ws " "%char) with true.
    cbv iota.
    change (nat_of_ascii ","%char =? 93)%nat with false.
    change (nat_of_ascii ","%char =? 44)%nat with true.
    cbv iota.
    cbn [Json.skip_ws].
    change (Json.is_ws " "%char) with true.
    cbv iota.
    rewrite Hskip.
    change (5 + S (List.length atts + fuel))%nat with (6 + List.length atts + fuel)%nat.
    rewrite IH. reflexivity.
Qed.

Lemma dict_chars_length (a : AttachmentMeta) (tail : list ascii) :
  (List.length tail < List.length (dict_chars a tail))%nat.
Proof.
  unfold dict_chars.
  repeat (cbn [List.length]; rewrite ?List.length_app). lia.
Qed.

Lemma items_chars_length (atts : list AttachmentMeta) :
  (List.length atts <= List.length (items_chars atts))%nat.
Proof.
  induction atts as [|a atts IH]; [simpl; lia|].
  destruct atts as [|b atts].
  - pose proof (items_chars_one a []) as H. rewrite app_nil_r in H. rewrite H.
    pose proof (dict_chars_length a []). simpl in *. lia.
  - pose proof (items_chars_cons a b atts []) as H. rewrite !app_nil_r in H.
    rewrite H.
    pose proof (dict_chars_length a (comma ++ items_chars (b :: atts))) as L.
    rewrite List.length_app in L. simpl List.length in *. lia.
Qed.

Lemma parse_value_array (fuel : nat) (s : list ascii) :
  Json.parse_value (S fuel) ("["%char :: s)
  = match Json.skip_ws s with
    | d :: r =>
        if (nat_of_ascii d =? 93)%nat then Some (Json.Arr [], r)
        else match Json.parse_items fuel (d :: r) with
             | Some (vs, r') => Some (Json.Arr vs, r')
             | None => None
             end
    | [] => None
    end.
Proof. reflexivity. Qed.

(** [json.loads] gives back the list of dicts [json.dumps] was given. *)
Lemma loads_dumps_attachments (atts : list AttachmentMeta) :
  Json.loads (Json.dumps (Json.Arr (map dict_ atts)))
  = Some (Json.Arr (map dict_ atts)).
Proof.
  unfold Json.loads, Json.dumps, Json.chars.
  rewrite list_ascii_of_string_of_list_ascii.
  cbn [Json.dumps_chars].
  fold comma. fold (items_chars atts).
  destruct atts as [|a atts].
  - reflexivity.
  - pose proof (items_chars_length (a :: atts)) as Hlen.
    destruct (items_chars_head a atts ["]"%char]) as (rest & Hrest).
    set (text := items_chars (a :: atts) ++ ["]"%char]) in *.
    assert (Hfuel : exists k, (2 * List.length ("["%char :: text) + 2
                               = S (6 + List.length atts + k))%nat).
    { exists (2 * List.length ("["%char :: text) + 2 - (7 + List.length atts))%nat.
      subst text. simpl List.length. rewrite List.length_app. simpl List.length in *.
      lia. }
    destruct Hfuel as (k & ->).
    cbn [Json.skip_ws]. change (Json.is_ws "["%char) with false. cbv iota.
    rewrite parse_value_array, Hrest.
    cbn [Json.skip_ws]. change (Json.is_ws "{"%char) with false. cbv iota.
    change (nat_of_ascii "{"%char =? 93)%nat with false. cbv iota.
    rewrite <- Hrest. subst text.
    rewrite parse_items_dicts. reflexivity.
Qed.

(** Reading the attachments back out of the decoded list. *)
Lemma collect_attachments_dicts (atts : list AttachmentMeta) :
  collect_attachments (map dict_ atts) = Ok atts.
Proof.
  induction atts as [|[f u c] atts IH]; [reflexivity|].
  cbn [map dict_ collect_attachments]. rewrite IH. reflexivity.
Qed.

Lemma dumps_truthy (v : list Json.value) : Py.truthy (Json.dumps (Json.Arr v)) = true.
Proof. reflexivity. Qed.

(** [message_to_out] on a row whose text column was written by
    [post_class_message]. *)
Lemma message_to_out_posted (k cid : Z) (ch se sn co : string)
      (atts : list AttachmentMeta) (ts : Z) :
  message_to_out
    (Message.mk k cid ch se sn co (Json.dumps (Json.Arr (map dict_ atts))) ts)
  = Ok (mkMessageOut k cid ch se sn co ts atts).
Proof.
  unfold message_to_out. cbn [Message.attachments_json].
  rewrite dumps_truthy, loads_dumps_attachments.
  cbn [iterate]. rewrite collect_attachments_dicts. reflexivity.
Qed.

(* ------------------------------------------------------------------ *)
(** ** ORDER BY *)

Section OrderBy.

Context {R : Type}.
Variable le : R -> R -> bool.
Hypothesis le_total : forall a b, le a b = false -> le b a = true.
Hypothesis le_trans : forall a b c, le a b = true -> le b c = true -> le a c = true.

Lemma insert_by_perm (x : R) (l : list R) : Permutation (insert_by le x l) (x :: l).
Proof.
  induction l as [|y l IH]; simpl; [reflexivity|].
  destruct (le x y); [reflexivity|].
  rewrite IH. apply perm_swap.
Qed.

Lemma order_by_perm (l : list R) : Permutation (order_by le l) l.
Proof.
  induction l as [|x l IH]; simpl; [reflexivity|].
  rewrite insert_by_perm. now constructor.
Qed.

Lemma insert_by_sorted (x : R) (l : list R) :
  StronglySorted (sorted_by le) l -> StronglySorted (sorted_by le) (insert_by le x l).
Proof.
  induction 1 as [|y l Hs IH Hy]; simpl.
  - constructor; constructor.
  - destruct (le x y) eqn:E.
    + constructor; [now constructor|].
      constructor; [exact E|].
      rewrite Forall_forall in *. intros z Hz. apply le_trans with y; auto.
      apply Hy, Hz.
    + constructor; [exact IH|].
      apply (Permutation_Forall (Permutation_sym (insert_by_perm x l))).
      constructor; [now apply le_total | exact Hy].
Qed.

Lemma order_by_sorted (l : list R) : StronglySorted (sorted_by le) (order_by le l).
Proof.
  induction l as [|x l IH]; simpl; [constructor|].
  now apply insert_by_sorted.
Qed.

(** Two sorted arrangements of the same rows are the same list, when rows
    that tie both ways are equal. *)
Lemma sorted_arrangement_unique (l1 : list R) :
  forall l2,
    StronglySorted (sorted_by le) l1 -> StronglySorted (sorted_by le) l2 ->
    Permutation l1 l2 ->
    (forall a b, In a l1 -> In b l1 -> (sorted_by le) a b -> (sorted_by le) b a -> a = b) ->
    l1 = l2.
Proof.
  induction l1 as [|a l1 IH]; intros l2 S1 S2 P Anti.
  - apply Permutation_nil in P. now subst.
  - destruct l2 as [|b l2].
    + symmetry in P. apply Permutation_nil in P. discriminate.
    + apply StronglySorted_inv in S1 as [S1 F1].
      apply StronglySorted_inv in S2 as [S2 F2].
      assert (Hab : a = b).
      { assert (Ha : In a (b :: l2)) by (apply (Permutation_in _ P); now left).
        assert (Hb : In b (a :: l1))
          by (apply (Permutation_in _ (Permutation_sym P)); now left).
        destruct Ha as [Ha | Ha]; [now symmetry|].
        destruct Hb as [Hb | Hb]; [assumption|].
        rewrite Forall_forall in F1, F2.
        apply Anti; [now left | now right | now apply F1 | now apply F2]. }
      subst b. f_equal.
      apply IH; auto.
      * now apply Permutation_cons_inv with a.
      * intros x y Hx Hy. apply Anti; now right.
Qed.

End OrderBy.

Lemma message_le_total (a b : Message.t) : message_le a b = false -> message_le b a = true.
Proof.
  unfold message_le. intros H.
  apply orb_false_iff in H as [H1 H2]. apply Z.ltb_ge in H1.
  apply orb_true_iff.
  destruct (Z.eq_dec (Message.timestamp a) (Message.timestamp b)) as [E|E].
  - right. rewrite E in *. rewrite Z.eqb_refl in *. simpl in *.
    apply Z.leb_gt in H2. apply Z.leb_le. lia.
  - left. apply Z.ltb_lt. lia.
Qed.

Lemma message_le_spec (a b : Message.t) :
  message_le a b = true <->
  Message.timestamp a < Message.timestamp b
  \/ (Message.timestamp a = Message.timestamp b /\ Message.id a <= Message.id b).
Proof.
  unfold message_le.
  rewrite orb_true_iff, andb_true_iff, Z.ltb_lt, Z.eqb_eq, Z.leb_le. reflexivity.
Qed.

Lemma message_le_trans (a b c : Message.t) :
  message_le a b = true -> message_le b c = true -> message_le a c = true.
Proof.
  rewrite !message_le_spec. lia.
Qed.

Lemma permutation_filter {A} (p : A -> bool) (l l' : list A) :
  Permutation l l' -> Permutation (filter p l) (filter p l').
Proof.
  induction 1 as [| x l l' _ IH | x y l | l l' l'' _ IH1 _ IH2]; simpl.
  - reflexivity.
  - destruct (p x); [now constructor | assumption].
  - destruct (p x), (p y); try reflexivity. apply perm_swap.
  - now transitivity (filter p l').
Qed.

Lemma same_key_same_row {A} (key : A -> Z) (l : list A) (a b : A) :
  NoDup (map key l) -> In a l -> In b l -> key a = key b -> a = b.
Proof.
  induction l as [|x l IH]; simpl; [contradiction|].
  intros Hn Ha Hb E. inversion Hn as [|? ? Hx Hn']; subst.
  destruct Ha as [-> | Ha], Hb as [-> | Hb]; auto.
  - exfalso. apply Hx. rewrite E. now apply in_map.
  - exfalso. apply Hx. rewrite <- E. now apply in_map.
Qed.

(* ------------------------------------------------------------------ *)
(** ** ListMessages *)

Lemma posted_shows (m : Message.t) :
  posted m -> exists o, message_to_out m = Ok o /\ shows m o.
Proof.
  destruct m as [k cid ch se sn co js ts]. intros (atts & Hj). simpl in Hj. subst js.
  exists (mkMessageOut k cid ch se sn co ts atts).
  split; [apply message_to_out_posted|]. repeat split.
Qed.

Lemma all_out_posted (msgs : list Message.t) :
  Forall posted msgs -> exists outs, all_out msgs = Ok outs /\ Forall2 shows msgs outs.
Proof.
  induction 1 as [|m msgs Hm _ (outs & Ho & Hs)].
  - exists []. split; [reflexivity | constructor].
  - destruct (posted_shows m Hm) as (o & Hmo & Hso).
    exists (o :: outs). simpl. rewrite Hmo, Ho. split; [reflexivity|].
    now constructor.
Qed.

Lemma shows_before (m m' : Message.t) (o o' : MessageOut) :
  shows m o -> shows m' o' -> message_le m m' = true -> out_before o o'.
Proof.
  intros (Hi & _ & _ & _ & _ & _ & Ht & _) (Hi' & _ & _ & _ & _ & _ & Ht' & _) H.
  apply message_le_spec in H. unfold out_before. rewrite Hi, Hi', Ht, Ht'. exact H.
Qed.

Lemma shows_all_before (m : Message.t) (o : MessageOut)
      (msgs : list Message.t) (outs : list MessageOut) :
  shows m o -> Forall2 shows msgs outs ->
  Forall (fun m' => message_le m m' = true) msgs -> Forall (out_before o) outs.
Proof.
  intros Hmo. induction 1 as [|m' o' msgs outs Hs _ IH]; intros Hf; constructor.
  - inversion Hf; subst. now apply shows_before with m m'.
  - inversion Hf; subst. now apply IH.
Qed.

Lemma shows_sorted (msgs : list Message.t) (outs : list MessageOut) :
  Forall2 shows msgs outs ->
  StronglySorted (fun a b => message_le a b = true) msgs ->
  StronglySorted out_before outs.
Proof.
  induction 1 as [|m o msgs outs Hs Hrest IH]; intros Hsorted; constructor.
  - apply IH. now apply StronglySorted_inv in Hsorted.
  - apply StronglySorted_inv in Hsorted as [_ Hf].
    now apply shows_all_before with m msgs.
Qed.

Lemma get_class_messages_run (s : Store) (cid : Z) (ch : string) (c : Class.t) :
  find (fun c => Class.id c =? cid) (classes s) = Some c ->
  run (get_class_messages cid ch) s
  = (all_out (order_by message_le (filter (selected cid ch) (messages s))), s, []).
Proof.
  intros Hc. unfold get_class_messages. run_handler. rewrite Hc. reflexivity.
Qed.

Lemma class_by_id_found (s : Store) (cid : Z) :
  (exists c, In c (classes s) /\ Class.id c = cid) ->
  exists c, find (fun c => Class.id c =? cid) (classes s) = Some c.
Proof.
  intros (c & Hin & Hid).
  destruct (find (fun c => Class.id c =? cid) (classes s)) as [c'|] eqn:E.
  - now exists c'.
  - apply (find_none _ _ E) in Hin. rewrite Hid, Z.eqb_refl in Hin. discriminate.
Qed.

(** The sorted selection does not depend on the order of the table. *)
Lemma selection_order_free (l l2 : list Message.t) (cid : Z) (ch : string) :
  Permutation l2 l -> NoDup (map Message.id l) ->
  order_by message_le (filter (selected cid ch) l2)
  = order_by message_le (filter (selected cid ch) l).
Proof.
  intros P Hn.
  apply (sorted_arrangement_unique message_le).
  - apply order_by_sorted; [apply message_le_total | apply message_le_trans].
  - apply order_by_sorted; [apply message_le_total | apply message_le_trans].
  - rewrite !order_by_perm. now apply permutation_filter.
  - intros a b Ha Hb Hab Hba.
    assert (In a l /\ In b l) as [Ha' Hb'].
    { split.
      - apply (Permutation_in _ P).
        apply (Permutation_in _ (order_by_perm message_le _)) in Ha.
        now apply filter_In in Ha as [Ha _].
      - apply (Permutation_in _ P).
        apply (Permutation_in _ (order_by_perm message_le _)) in Hb.
        now apply filter_In in Hb as [Hb _]. }
    apply (same_key_same_row Message.id l); auto.
    apply message_le_spec in Hab, Hba. lia.
Qed.

(** ListMessages for a class id some class has. *)
Lemma list_messages_known (s : Store) (cid : Z) (ch : string) :
  Forall posted (messages s) ->
  (exists c, In c (classes s) /\ Class.id c = cid) ->
  exists msgs outs,
    run (get_class_messages cid ch) s = (Ok outs, s, [])
    /\ Permutation msgs (filter (selected cid ch) (messages s))
    /\ Forall2 shows msgs outs
    /\ StronglySorted out_before outs
    /\ (forall s2,
           classes s2 = classes s ->
           Permutation (messages s2) (messages s) ->
           NoDup (map Message.id (messages s)) ->
           result (run (get_class_messages cid ch) s2) = Ok outs).
Proof.
  intros Hposted Hc. destruct (class_by_id_found s cid Hc) as (c & Hfind).
  set (msgs := order_by message_le (filter (selected cid ch) (messages s))).
  assert (Hperm : Permutation msgs (filter (selected cid ch) (messages s)))
    by apply order_by_perm.
  assert (Hp : Forall posted msgs).
  { apply (Permutation_Forall (Permutation_sym Hperm)).
    rewrite Forall_forall in *. intros m Hm. apply filter_In in Hm as [Hm _]. auto. }
  destruct (all_out_posted msgs Hp) as (outs & Hout & Hshows).
  exists msgs, outs.
  split; [rewrite (get_class_messages_run s cid ch c Hfind); fold msgs; now rewrite Hout|].
  split; [exact Hperm|]. split; [exact Hshows|]. split.
  - apply shows_sorted with msgs; [exact Hshows|].
    apply order_by_sorted; [apply message_le_total | apply message_le_trans].
  - intros s2 Hcls Hp2 Hn.
    assert (Hfind2 : find (fun c => Class.id c =? cid) (classes s2) = Some c)
      by now rewrite Hcls.
    rewrite (get_class_messages_run s2 cid ch c Hfind2).
    rewrite (selection_order_free (messages s) (messages s2) cid ch Hp2 Hn).
    fold msgs. unfold result. simpl. exact Hout.
Qed.

(** C6.  For a class id no class has, ListMessages fails with 404 "Class
    not found".  For a known class id it returns the messages of that class
    and channel, each once, in (timestamp, id) ascending order, ties on the
    timestamp broken by the id; the answer is the same for any other order
    of the same rows in the table. *)
Theorem list_messages_ordered (s : Store) (cid : Z) (ch : string) :
  Forall posted (messages s) ->
  ((forall c, In c (classes s) -> Class.id c <> cid) ->
   run (get_class_messages cid ch) s
   = (Raise (HTTPException 404 "Class not found"), s, []))
  /\ ((exists c, In c (classes s) /\ Class.id c = cid) ->
      exists msgs outs,
        run (get_class_messages cid ch) s = (Ok outs, s, [])
        /\ Permutation msgs (filter (selected cid ch) (messages s))
        /\ Forall2 shows msgs outs
        /\ StronglySorted out_before outs
        /\ (forall s2,
               classes s2 = classes s ->
               Permutation (messages s2) (messages s) ->
               NoDup (map Message.id (messages s)) ->
               result (run (get_class_messages cid ch) s2) = Ok outs)).
Proof.
  intros Hposted. split.
  - intros Hno. unfold get_class_messages. run_handler.
    destruct (find _ (classes s)) as [c|] eqn:E; [|reflexivity].
    apply find_some in E as [Hin Hid]. apply Z.eqb_eq in Hid.
    now apply Hno in Hin.
  - now apply list_messages_known.
Qed.

Lemma list_messages_ordered_witness :
  exists msgs outs,
    run (get_class_messages 1 "general") classroom = (Ok outs, classroom, [])
    /\ Permutation msgs (filter (selected 1 "general") (messages classroom))
    /\ Forall2 shows msgs outs
    /\ StronglySorted out_before outs
    /\ (forall s2,
           classes s2 = classes classroom ->
           Permutation (messages s2) (messages classroom) ->
           NoDup (map Message.id (messages classroom)) ->
           result (run (get_class_messages 1 "general") s2) = Ok outs).
Proof.
  apply (proj2 (list_messages_ordered classroom 1 "general"
                  (Forall_cons hello (ex_intro _ [notes] eq_refl)
                     (Forall_cons welcome (ex_intro _ [] eq_refl) (Forall_nil _))))).
  exists algebra. split; [left|]; reflexivity.
Defined.

(* ------------------------------------------------------------------ *)
(** ** PostMessage, then ListMessages *)









(* ------------------------------------------------------------------ *)
(** ** Registration and login *)






Lemma find_none_absent {A} (p : A -> bool) (l : list A) :
  (forall x, In x l -> p x = false) -> find p l = None.
Proof.
  intros H. destruct (find p l) as [x|] eqn:E; [|reflexivity].
  apply find_some in E as [Hin Hp]. rewrite (H x Hin) in Hp. discriminate.
Qed.

Lemma find_some_present {A} (p : A -> bool) (l : list A) (x : A) :
  In x l -> p x = true -> exists y, find p l = Some y.
Proof.
  intros Hin Hp. destruct (find p l) as [y|] eqn:E; [now exists y|].
  apply (find_none _ _ E) in Hin. congruence.
Qed.














(* ------------------------------------------------------------------ *)
(** ** Approval and the student's class list *)

Lemma teacher_approve_run (s : Store) (d : ApproveRequest)
      (student : User.t) (m : ClassMember.t) :
  find_user s (ap_student_email d) "student" = Some student ->
  find_membership s (ap_class_id d) (User.id student) = Some m ->
  run (teacher_approve d) s
  = (Ok "Student approved", with_status (ClassMember.id m) "active" s,
     [EvUpdate ClassMembers (ClassMember.id m);
      EvCommit (with_status (ClassMember.id m) "active" s)]).
Proof.
  unfold find_user, find_membership, is_membership. intros Hu Hm.
  unfold teacher_approve. run_handler. rewrite Hu. simpl. rewrite Hm. reflexivity.
Qed.




Lemma list_student_classes_run (s : Store) (email : string) (student : User.t) :
  find_user s email "student" = Some student ->
  exists cs,
    run (list_student_classes email) s = (Ok cs, s, [])
    /\ (forall c, In c cs <-> In c (classes s) /\ active_in s (User.id student) (Class.id c)).
Proof.
  unfold find_user. intros Hu.
  unfold list_student_classes. run_handler. rewrite Hu. simpl.
  set (p := fun m => (ClassMember.user_id m =? User.id student)
                     && (ClassMember.status m =? "active")%string).
  assert (Hact : forall cid, In cid (map ClassMember.class_id (filter p (class_members s)))
                             <-> active_in s (User.id student) cid).
  { intros cid. rewrite in_map_iff. split.
    - intros (m & Hc & Hm). apply filter_In in Hm as [Hin Hp].
      unfold p in Hp. apply andb_true_iff in Hp as [H1 H2].
      apply Z.eqb_eq in H1. apply String.eqb_eq in H2. now exists m.
    - intros (m & Hin & H1 & H2 & H3). exists m. split; [assumption|].
      apply filter_In. split; [assumption|]. unfold p.
      now rewrite H1, H3, Z.eqb_refl, String.eqb_refl. }
  destruct (map ClassMember.class_id (filter p (class_members s))) as [|k ks] eqn:E.
  - exists []. split; [reflexivity|]. intros c. split; [contradiction|].
    intros [_ H]. now apply Hact in H.
  - eexists. split; [reflexivity|]. intros c. rewrite filter_In. split.
    + intros [Hin Hex]. split; [assumption|]. apply Hact.
      apply existsb_exists in Hex as (k' & Hk' & Heq). apply Z.eqb_eq in Heq.
      now rewrite Heq.
    + intros [Hin Ha]. split; [assumption|]. apply Hact in Ha.
      apply existsb_exists. exists (Class.id c). split; [assumption | apply Z.eqb_refl].
Qed.



(** X8.  A student without a membership row who joins with a code that
    resolves is not given the class in the student's class list while the
    request is pending; once the membership is approved for that class id
    and e-mail, the list holds the class. *)
Theorem join_approve_then_listed (s : Store) (data : JoinClassRequest)
        (student : User.t) (cls : Class.t) :
  find_user s (jc_student_email data) "student" = Some student ->
  find_class_by_code s (jc_code data) = Some cls ->
  find_membership s (Class.id cls) (User.id student) = None ->
  sequences_ahead s = true ->
  let s1 := final (run (student_join_class data) s) in
  let approval := mkApproveRequest (Class.id cls) (jc_student_email data) in
  let s2 := final (run (teacher_approve approval) s1) in
  (exists cs1,
      run (list_student_classes (jc_student_email data)) s1 = (Ok cs1, s1, [])
      /\ ~ In cls cs1)
  /\ result (run (teacher_approve approval) s1) = Ok "Student approved"
  /\ (exists cs2,
         run (list_student_classes (jc_student_email data)) s2 = (Ok cs2, s2, [])
         /\ In cls cs2).
Proof.
  intros Hu Hc Hm Hs s1 approval s2.
  set (row := pending_row s cls student).
  assert (Hs1 : s1 = bump ClassMembers (with_class_members (fun l => l ++ [row]) s)).
  { unfold s1. now rewrite (join_first_time s data student cls Hu Hc Hs Hm). }
  assert (Hrow : is_membership (Class.id cls) (User.id student) row = true).
  { unfold is_membership, row, pending_row. simpl. now rewrite !Z.eqb_refl. }
  assert (Hu1 : find_user s1 (jc_student_email data) "student" = Some student)
    by (rewrite Hs1; exact Hu).
  assert (Hm1 : find_membership s1 (Class.id cls) (User.id student) = Some row).
  { rewrite Hs1. unfold find_membership. simpl. now apply find_app_miss. }
  assert (Hs2 : s2 = with_status (ClassMember.id row) "active" s1
                /\ result (run (teacher_approve approval) s1) = Ok "Student approved").
  { unfold s2. now rewrite (teacher_approve_run s1 approval student row Hu1 Hm1). }
  destruct Hs2 as [Hs2 Hok].
  assert (Hu2 : find_user s2 (jc_student_email data) "student" = Some student)
    by (rewrite Hs2; exact Hu1).
  assert (Hcls : In cls (classes s)).
  { unfold find_class_by_code in Hc. now apply find_some in Hc as [Hc _]. }
  split; [|split; [exact Hok|]].
  - destruct (list_student_classes_run s1 _ student Hu1) as (cs1 & Hrun & Hspec).
    exists cs1. split; [exact Hrun|].
    intros Hin. apply Hspec in Hin as [_ (m & Hin & H1 & H2 & H3)].
    rewrite Hs1 in Hin. simpl in Hin. apply in_app_or in Hin as [Hin | [<- | []]].
    + unfold find_membership in Hm. apply (find_none _ _ Hm) in Hin.
      unfold is_membership in Hin. rewrite H1, H2, !Z.eqb_refl in Hin. discriminate.
    + discriminate H3.
  - destruct (list_student_classes_run s2 _ student Hu2) as (cs2 & Hrun & Hspec).
    exists cs2. split; [exact Hrun|].
    apply Hspec. split.
    + rewrite Hs2, Hs1. exact Hcls.
    + exists (ClassMember.set_status "active" row).
      split; [|repeat split].
      rewrite Hs2, Hs1. unfold with_status. simpl.
      apply in_map_iff. exists row. split.
      * unfold update_row. now rewrite Z.eqb_refl.
      * apply in_or_app. right. now left.
Qed.

Lemma join_approve_then_listed_witness :
  exists cs2,
    run (list_student_classes "A@x.com")
        (final (run (teacher_approve (mkApproveRequest 1 "A@x.com"))
                    (final (run (student_join_class join_request) school))))
    = (Ok cs2,
       final (run (teacher_approve (mkApproveRequest 1 "A@x.com"))
                  (final (run (student_join_class join_request) school))), [])
    /\ In algebra cs2.
Proof.
  exact (proj2 (proj2 (join_approve_then_listed school join_request bob algebra
                         eq_refl eq_refl eq_refl eq_refl))).
Defined.

(* ------------------------------------------------------------------ *)
(** ** Deleting users *)

Lemma delete_student_run (s : Store) (k : Z) (stu : User.t) :
  find (fun u => (User.id u =? k) && (User.role u =? "student")%string) (users s)
  = Some stu ->
  run (delete_student k) s
  = (Ok "Student deleted", without_user k s,
     [EvDelete ClassMembers
               (map ClassMember.id
                    (filter (fun m => ClassMember.user_id m =? k) (class_members s)));
      EvDelete Users [k];
      EvCommit (without_user k s)]).
Proof.
  intros Hf. assert (Hk : User.id stu = k).
  { apply find_some in Hf as [_ Hf]. apply andb_true_iff in Hf as [Hf _].
    now apply Z.eqb_eq. }
  unfold delete_student. run_handler. rewrite Hf. simpl. rewrite Hk. reflexivity.
Qed.

(** X9.  Deleting a student by key fails with 404, and changes nothing,
    when no user has both that key and the role student (so a teacher's or
    an admin's key is refused).  Otherwise one commit removes the user row
    and every membership row of that user; classes and messages stay as
    they were, the messages that student posted included, and so do all
    other users and memberships. *)
Theorem delete_student_effect (s : Store) (k : Z) :
  ((forall u, In u (users s) -> ~ (User.id u = k /\ User.role u = "student")) ->
   run (delete_student k) s = (Raise (HTTPException 404 "Student not found"), s, []))
  /\ ((exists u, In u (users s) /\ User.id u = k /\ User.role u = "student") ->
      let r := run (delete_student k) s in
      result r = Ok "Student deleted"
      /\ commits (events r) = [final r]
      /\ classes (final r) = classes s
      /\ messages (final r) = messages s
      /\ (forall u, In u (users (final r)) <-> In u (users s) /\ User.id u <> k)
      /\ (forall m, In m (class_members (final r))
                    <-> In m (class_members s) /\ ClassMember.user_id m <> k)).
Proof.
  set (p := fun u => (User.id u =? k) && (User.role u =? "student")%string).
  split.
  - intros Hno. unfold delete_student. run_handler.
    rewrite (find_none_absent p); [reflexivity|].
    intros u Hu. unfold p. destruct (User.id u =? k) eqn:E1; [|reflexivity].
    destruct (User.role u =? "student")%string eqn:E2; [|reflexivity].
    exfalso. apply (Hno u Hu). split; [now apply Z.eqb_eq | now apply String.eqb_eq].
  - intros (u & Hin & Hk & Hr) r.
    destruct (find_some_present p (users s) u Hin) as (stu & Hstu).
    { unfold p. now rewrite Hk, Hr, Z.eqb_refl. }
    subst r. rewrite (delete_student_run s k stu Hstu). unfold result, final, events.
    simpl. do 4 (split; [reflexivity|]).
    split; intros x; rewrite filter_In, negb_true_iff, Z.eqb_neq; reflexivity.
Qed.

Lemma delete_student_effect_witness :
  messages (final (run (delete_student 2) classroom)) = [hello; welcome]
  /\ users (final (run (delete_student 2) classroom)) = [ann; cy]
  /\ class_members (final (run (delete_student 2) classroom)) = [ann_in_algebra].
Proof.
  pose proof (proj2 (delete_student_effect classroom 2)
                    (ex_intro _ bob (conj (or_intror (or_introl eq_refl))
                                          (conj eq_refl eq_refl)))) as H.
  destruct H as (_ & _ & _ & Hm & _). split; [exact Hm|]. split; reflexivity.
Defined.

Lemma filter_twice {A} (p q : A -> bool) (l : list A) :
  filter p (filter q l) = filter (fun x => q x && p x) l.
Proof.
  induction l as [|x l IH]; simpl; [reflexivity|].
  destruct (q x); simpl; [destruct (p x)|]; now rewrite IH.
Qed.

Lemma filter_outside (c : Class.t) (cs : list Class.t) {A} (key : A -> Z) (l : list A) :
  filter (fun x => negb (among cs (key x))) (filter (fun x => negb (key x =? Class.id c)) l)
  = filter (fun x => negb (among (c :: cs) (key x))) l.
Proof.
  rewrite filter_twice. apply filter_ext. intros x. unfold among. simpl.
  rewrite (Z.eqb_sym (Class.id c)). now rewrite negb_orb.
Qed.

Lemma filter_all {A} (l : list A) : filter (fun _ => true) l = l.
Proof.
  induction l as [|x l IH]; simpl; [reflexivity | now rewrite IH].
Qed.

(** The loop of [delete_teacher], in full. *)
Lemma drop_classes_run (cs : list Class.t) :
  forall ss,
  exists evs,
    commits evs = []
    /\ drop_classes cs ss
       = (Ok tt,
          mkSession
            (with_class_members
               (filter (fun m => negb (among cs (ClassMember.class_id m))))
               (with_messages
                  (filter (fun m => negb (among cs (Message.class_id m)))) (txn ss)))
            (pending ss ++ map (fun c => GoneClass (Class.id c)) cs)
            (committed ss)
            (trace ss ++ evs)).
Proof.
  induction cs as [|c cs IH]; intros ss.
  - exists []. split; [reflexivity|]. simpl. unfold ret.
    rewrite !app_nil_r. unfold with_class_members, with_messages. simpl.
    rewrite !filter_all. now destruct ss as [[] ? ? ?].
  - simpl. unfold bind at 1 2 3. unfold bulk_delete_members, bulk_delete_messages, enqueue.
    simpl.
    match goal with |- context [drop_classes cs ?x] => destruct (IH x) as (evs & Hc & ->) end.
    eexists. split; [|simpl; unfold with_class_members, with_messages; simpl;
                       rewrite !(filter_outside c cs), <- !app_assoc; reflexivity].
    rewrite ?commits_app. simpl. exact Hc.
Qed.

Lemma flush_gone_classes_run (cs : list Class.t) (rest : list Pending) :
  forall (s : Store) (tr : list Event),
  exists evs,
    commits evs = []
    /\ flush (map (fun c => GoneClass (Class.id c)) cs ++ rest) s tr
       = flush rest
               (with_classes (filter (fun c => negb (among cs (Class.id c)))) s)
               (tr ++ evs).
Proof.
  induction cs as [|c cs IH]; intros s tr.
  - exists []. split; [reflexivity|]. simpl. rewrite app_nil_r.
    unfold with_classes. rewrite filter_all. now destruct s.
  - simpl.
    match goal with |- context [flush _ ?x ?y = _] => destruct (IH x y) as (evs & Hc & ->) end.
    eexists. split; [|unfold with_classes; simpl;
                       rewrite (filter_outside c cs Class.id), <- app_assoc; reflexivity].
    simpl. exact Hc.
Qed.

Lemma delete_teacher_run (s : Store) (k : Z) (t : User.t) :
  find (fun u => (User.id u =? k) && (User.role u =? "teacher")%string) (users s)
  = Some t ->
  exists tr,
    run (delete_teacher k) s
    = (Ok "Teacher deleted", without_user k (without_classes (owned_by s k) s), tr)
    /\ commits tr = [without_user k (without_classes (owned_by s k) s)].
Proof.
  intros Hf. assert (Hk : User.id t = k).
  { apply find_some in Hf as [_ Hf]. apply andb_true_iff in Hf as [Hf _].
    now apply Z.eqb_eq. }
  unfold delete_teacher, run.
  unfold bind at 1. unfold query_first at 1. simpl. rewrite Hf.
  unfold bind at 1. unfold query_all at 1. simpl.
  unfold bind at 1. rewrite Hk. fold (owned_by s k).
  destruct (drop_classes_run (owned_by s k) (open_session s)) as (evs & Hevs & ->).
  unfold bind, bulk_delete_members, enqueue, db_commit, ret. simpl.
  match goal with
  | |- context [flush (map ?f ?cs ++ ?rest) ?x ?y] =>
      destruct (flush_gone_classes_run cs rest x y) as (evs' & Hevs' & ->)
  end.
  simpl. eexists. split; [reflexivity|].
  rewrite !commits_app, Hevs, Hevs'. reflexivity.
Qed.

(** X10.  Deleting a teacher by key fails with 404, and changes nothing,
    when no user has both that key and the role teacher.  Otherwise one
    commit removes the teacher, every class the teacher owns together with
    all memberships and messages of those classes, and the teacher's own
    memberships elsewhere; afterwards no class is owned by that key and no
    membership or message refers to a class that was.  Users other than the
    teacher, and classes with other keys, stay. *)
Theorem delete_teacher_cascade (s : Store) (k : Z) :
  ((forall u, In u (users s) -> ~ (User.id u = k /\ User.role u = "teacher")) ->
   run (delete_teacher k) s = (Raise (HTTPException 404 "Teacher not found"), s, []))
  /\ ((exists u, In u (users s) /\ User.id u = k /\ User.role u = "teacher") ->
      let r := run (delete_teacher k) s in
      result r = Ok "Teacher deleted"
      /\ commits (events r) = [final r]
      /\ (forall u, In u (users (final r)) <-> In u (users s) /\ User.id u <> k)
      /\ (forall c, In c (classes (final r)) -> Class.owner_id c <> k)
      /\ (forall c, In c (classes s) -> among (owned_by s k) (Class.id c) = false ->
                    In c (classes (final r)))
      /\ (forall m, In m (class_members (final r)) ->
                    ClassMember.user_id m <> k
                    /\ forall c, In c (classes s) -> Class.owner_id c = k ->
                                 ClassMember.class_id m <> Class.id c)
      /\ (forall m, In m (messages (final r)) ->
                    forall c, In c (classes s) -> Class.owner_id c = k ->
                              Message.class_id m <> Class.id c)).
Proof.
  set (p := fun u => (User.id u =? k) && (User.role u =? "teacher")%string).
  assert (Hamong : forall c, In c (classes s) -> Class.owner_id c = k ->
                             among (owned_by s k) (Class.id c) = true).
  { intros c Hc Ho. unfold among. apply existsb_exists. exists c.
    split; [|apply Z.eqb_refl]. apply filter_In. split; [assumption|].
    now apply Z.eqb_eq. }
  split.
  - intros Hno. unfold delete_teacher. run_handler.
    rewrite (find_none_absent p); [reflexivity|].
    intros u Hu. unfold p. destruct (User.id u =? k) eqn:E1; [|reflexivity].
    destruct (User.role u =? "teacher")%string eqn:E2; [|reflexivity].
    exfalso. apply (Hno u Hu). split; [now apply Z.eqb_eq | now apply String.eqb_eq].
  - intros (u & Hin & Hk & Hr) r.
    destruct (find_some_present p (users s) u Hin) as (t & Ht).
    { unfold p. now rewrite Hk, Hr, Z.eqb_refl. }
    destruct (delete_teacher_run s k t Ht) as (tr & Hrun & Hcommits).
    subst r. rewrite Hrun. unfold result, final, events. simpl.
    split; [reflexivity|]. split; [exact Hcommits|].
    split; [intros x; rewrite filter_In, negb_true_iff, Z.eqb_neq; reflexivity|].
    split; [|split; [|split]].
    + intros c Hc Ho. apply filter_In in Hc as [Hc Hout].
      rewrite (Hamong c Hc Ho) in Hout. discriminate.
    + intros c Hc Hout. apply filter_In. split; [assumption|]. now rewrite Hout.
    + intros m Hm. apply filter_In in Hm as [Hm Hu].
      apply filter_In in Hm as [Hm Hout].
      split; [now apply Z.eqb_neq, negb_true_iff|].
      intros c Hc Ho E. rewrite E, (Hamong c Hc Ho) in Hout. discriminate.
    + intros m Hm c Hc Ho E. apply filter_In in Hm as [Hm Hout].
      rewrite E, (Hamong c Hc Ho) in Hout. discriminate.
Qed.

Lemma delete_teacher_cascade_witness :
  final (run (delete_teacher 1) classroom) = mkStore [bob; cy] [] [] [] 4 2 3 3
  /\ commits (events (run (delete_teacher 1) classroom))
     = [final (run (delete_teacher 1) classroom)].
Proof.
  pose proof (proj2 (delete_teacher_cascade classroom 1)
                    (ex_intro _ ann (conj (or_introl eq_refl) (conj eq_refl eq_refl))))
    as (_ & H & _).
  split; [reflexivity | exact H].
Defined.

(* ------------------------------------------------------------------ *)
(** ** Posting and deleting messages *)

Lemma get_class_messages_outcome (s : Store) (cid : Z) (ch : string) :
  run (get_class_messages cid ch) s
  = match find (fun c => Class.id c =? cid) (classes s) with
    | Some _ =>
        (all_out (order_by message_le (filter (selected cid ch) (messages s))), s, [])
    | None => (Raise (HTTPException 404 "Class not found"), s, [])
    end.
Proof.
  unfold get_class_messages. run_handler.
  destruct (find _ (classes s)); reflexivity.
Qed.



Lemma message_to_out_id (m : Message.t) (o : MessageOut) :
  message_to_out m = Ok o -> out_id o = Message.id m.
Proof.
  unfold message_to_out.
  destruct (iterate _) as [items|]; [|discriminate].
  destruct (collect_attachments items); [|discriminate].
  now intros [= <-].
Qed.

Lemma all_out_filter (k : Z) (msgs : list Message.t) :
  forall outs,
    all_out msgs = Ok outs ->
    all_out (filter (fun m => negb (Message.id m =? k)) msgs)
    = Ok (filter (fun o => negb (out_id o =? k)) outs).
Proof.
  induction msgs as [|m msgs IH]; intros outs Hall; simpl in *.
  - now injection Hall as <-.
  - destruct (message_to_out m) as [o|] eqn:Hm; [|discriminate].
    destruct (all_out msgs) as [os|]; [|discriminate].
    injection Hall as <-. simpl.
    rewrite (message_to_out_id m o Hm).
    destruct (Message.id m =? k); simpl.
    + now apply IH.
    + now rewrite Hm, (IH os eq_refl).
Qed.

Lemma filter_sorted {A} (R : A -> A -> Prop) (p : A -> bool) (l : list A) :
  StronglySorted R l -> StronglySorted R (filter p l).
Proof.
  induction 1 as [|x l Hs IH Hx]; simpl; [constructor|].
  destruct (p x); [|exact IH].
  constructor; [exact IH|].
  rewrite Forall_forall in *. intros y Hy. apply filter_In in Hy as [Hy _]. auto.
Qed.

Lemma filter_swap {A} (p q : A -> bool) (l : list A) :
  filter p (filter q l) = filter q (filter p l).
Proof.
  rewrite !filter_twice. apply filter_ext. intros x. apply andb_comm.
Qed.

(** Sorting the selection of a table without one key is sorting the
    selection and dropping that key. *)
Lemma order_by_without_key (l : list Message.t) (cid k : Z) (ch : string) :
  NoDup (map Message.id l) ->
  order_by message_le
           (filter (selected cid ch) (filter (fun m => negb (Message.id m =? k)) l))
  = filter (fun m => negb (Message.id m =? k))
           (order_by message_le (filter (selected cid ch) l)).
Proof.
  intros Hn.
  apply (sorted_arrangement_unique message_le).
  - apply order_by_sorted; [apply message_le_total | apply message_le_trans].
  - apply filter_sorted.
    apply order_by_sorted; [apply message_le_total | apply message_le_trans].
  - rewrite order_by_perm, filter_swap.
    apply permutation_filter. symmetry. apply order_by_perm.
  - intros a b Ha Hb Hab Hba.
    assert (forall x, In x (order_by message_le
                              (filter (selected cid ch)
                                 (filter (fun m => negb (Message.id m =? k)) l)))
                      -> In x l) as Hin.
    { intros x Hx. apply (Permutation_in _ (order_by_perm message_le _)) in Hx.
      apply filter_In in Hx as [Hx _]. now apply filter_In in Hx as [Hx _]. }
    apply (same_key_same_row Message.id l); auto.
    apply message_le_spec in Hab, Hba. lia.
Qed.

Lemma delete_message_done (s : Store) (cid mid : Z) (te : option string) (reply : string) :
  result (run (delete_message cid mid te) s) = Ok reply ->
  final (run (delete_message cid mid te) s) = without_message mid s.
Proof.
  intros Hr.
  destruct te as [e|]; [|discriminate Hr].
  destruct (string_dec e "") as [-> | He]; [discriminate Hr|].
  destruct (find_user s e "teacher") as [t|] eqn:Ht.
  - destruct (find_owned_class s cid (User.id t)) as [c|] eqn:Hc.
    + rewrite (delete_message_by_owner s cid mid e t c He Ht Hc) in *.
      destruct (find_message s mid cid) as [m|] eqn:Hm; [|discriminate Hr].
      unfold find_message in Hm. apply find_some in Hm as [_ Hm].
      apply andb_true_iff in Hm as [Hm _]. apply Z.eqb_eq in Hm.
      now rewrite Hm.
    + rewrite (delete_message_not_owner s cid mid e t He Ht Hc) in Hr. discriminate Hr.
  - rewrite (delete_message_no_teacher s cid mid e He Ht) in Hr. discriminate Hr.
Qed.

(** X12.  After a DeleteMessage that succeeded, ListMessages for any class
    and channel whose listing worked before answers with the same items in
    the same order, less the item with the deleted id. *)
Theorem delete_message_then_list (s : Store) (cid mid : Z) (te : option string)
        (reply : string) (cid2 : Z) (ch : string) (outs : list MessageOut) :
  NoDup (map Message.id (messages s)) ->
  result (run (delete_message cid mid te) s) = Ok reply ->
  result (run (get_class_messages cid2 ch) s) = Ok outs ->
  result (run (get_class_messages cid2 ch) (final (run (delete_message cid mid te) s)))
  = Ok (filter (fun o => negb (out_id o =? mid)) outs).
Proof.
  intros Hn Hdel Hlist.
  rewrite (delete_message_done s cid mid te reply Hdel).
  rewrite get_class_messages_outcome in *. simpl.
  destruct (find _ (classes s)); [|discriminate Hlist].
  unfold result in *. simpl in *.
  rewrite (order_by_without_key (messages s) cid2 mid ch Hn).
  now apply all_out_filter.
Qed.

Lemma delete_message_then_list_witness :
  result (run (get_class_messages 1 "general")
              (final (run (delete_message 1 1 (Some "ann@x.com")) classroom)))
  = Ok [mkMessageOut 2 1 "general" "ann@x.com" "Ann Lee" "welcome" 100 []].
Proof.
  refine (delete_message_then_list classroom 1 1 (Some "ann@x.com") "Message deleted"
            1 "general"
            [mkMessageOut 1 1 "general" "a@x.com" "Bob" "hello" 100 [notes];
             mkMessageOut 2 1 "general" "ann@x.com" "Ann Lee" "welcome" 100 []]
            _ eq_refl _).
  - repeat constructor; simpl; intuition discriminate.
  - vm_compute. reflexivity.
Defined.

(* ------------------------------------------------------------------ *)
(** ** Profile and avatar *)






(* ------------------------------------------------------------------ *)
(** ** Normalised text *)

Lemma is_space_lower_char (c : ascii) : Py.is_space (Py.lower_char c) = Py.is_space c.
Proof. destruct c as [[] [] [] [] [] [] [] []]; reflexivity. Qed.

Lemma is_space_upper_char (c : ascii) : Py.is_space (Py.upper_char c) = Py.is_space c.
Proof. destruct c as [[] [] [] [] [] [] [] []]; reflexivity. Qed.

Lemma lower_char_idempotent (c : ascii) :
  Py.lower_char (Py.lower_char c) = Py.lower_char c.
Proof. destruct c as [[] [] [] [] [] [] [] []]; reflexivity. Qed.

Lemma upper_lower_upper_char (c : ascii) :
  Py.upper_char (Py.lower_char (Py.upper_char c)) = Py.upper_char c.
Proof. destruct c as [[] [] [] [] [] [] [] []]; reflexivity. Qed.

Lemma lstrip_twice (l : list ascii) :
  Py.lstrip_chars (Py.lstrip_chars l) = Py.lstrip_chars l.
Proof.
  induction l as [|c l IH]; simpl; [reflexivity|].
  destruct (Py.is_space c) eqn:E; [exact IH|]. simpl. now rewrite E.
Qed.

Lemma lstrip_before_letter (l : list ascii) (c : ascii) :
  Py.is_space c = false ->
  Py.lstrip_chars (l ++ [c]) = Py.lstrip_chars l ++ [c].
Proof.
  intros Hc. induction l as [|x l IH]; simpl.
  - now rewrite Hc.
  - destruct (Py.is_space x); [exact IH | reflexivity].
Qed.

(** Stripping the right end keeps a left end that is already stripped. *)
Lemma lstrip_after_rstrip (l : list ascii) :
  Py.lstrip_chars l = l ->
  Py.lstrip_chars (rev (Py.lstrip_chars (rev l))) = rev (Py.lstrip_chars (rev l)).
Proof.
  destruct l as [|c l]; [reflexivity|].
  simpl. destruct (Py.is_space c) eqn:E.
  - intros H. exfalso.
    assert (Hlen : (List.length (Py.lstrip_chars l) <= List.length l)%nat).
    { clear. induction l as [|x l IH]; simpl; [lia|].
      destruct (Py.is_space x); simpl; lia. }
    rewrite H in Hlen. simpl in Hlen. lia.
  - intros _. rewrite (lstrip_before_letter (rev l) c E).
    rewrite rev_app_distr. simpl. now rewrite E.
Qed.

Lemma strip_chars_twice (l : list ascii) :
  Py.strip_chars (Py.strip_chars l) = Py.strip_chars l.
Proof.
  unfold Py.strip_chars.
  rewrite (lstrip_after_rstrip (Py.lstrip_chars l) (lstrip_twice l)).
  now rewrite rev_involutive, lstrip_twice.
Qed.

Lemma lstrip_map (f : ascii -> ascii) (l : list ascii) :
  (forall c, Py.is_space (f c) = Py.is_space c) ->
  Py.lstrip_chars (map f l) = map f (Py.lstrip_chars l).
Proof.
  intros Hf. induction l as [|c l IH]; simpl; [reflexivity|].
  rewrite Hf. destruct (Py.is_space c); [exact IH | reflexivity].
Qed.

Lemma strip_chars_map (f : ascii -> ascii) (l : list ascii) :
  (forall c, Py.is_space (f c) = Py.is_space c) ->
  Py.strip_chars (map f l) = map f (Py.strip_chars l).
Proof.
  intros Hf. unfold Py.strip_chars.
  now rewrite (lstrip_map f l Hf), <- map_rev, (lstrip_map f _ Hf), map_rev.
Qed.

Lemma strip_idempotent (x : string) : Py.strip (Py.strip x) = Py.strip x.
Proof.
  unfold Py.strip. now rewrite list_ascii_of_string_of_list_ascii, strip_chars_twice.
Qed.

Lemma strip_lower (x : string) : Py.strip (Py.lower x) = Py.lower (Py.strip x).
Proof.
  unfold Py.strip, Py.lower. rewrite !list_ascii_of_string_of_list_ascii.
  now rewrite (strip_chars_map _ _ is_space_lower_char).
Qed.

Lemma strip_upper (x : string) : Py.strip (Py.upper x) = Py.upper (Py.strip x).
Proof.
  unfold Py.strip, Py.upper. rewrite !list_ascii_of_string_of_list_ascii.
  now rewrite (strip_chars_map _ _ is_space_upper_char).
Qed.

Lemma lower_idempotent (x : string) : Py.lower (Py.lower x) = Py.lower x.
Proof.
  unfold Py.lower. rewrite list_ascii_of_string_of_list_ascii, map_map.
  f_equal. apply map_ext. intros c. apply lower_char_idempotent.
Qed.

Lemma upper_lower_upper (x : string) : Py.upper (Py.lower (Py.upper x)) = Py.upper x.
Proof.
  unfold Py.lower, Py.upper. rewrite !list_ascii_of_string_of_list_ascii, !map_map.
  f_equal. apply map_ext. intros c. apply upper_lower_upper_char.
Qed.

Lemma email_normal_form (x : string) :
  Py.lower (Py.strip (Py.lower (Py.strip x))) = Py.lower (Py.strip x).
Proof.
  now rewrite strip_lower, strip_idempotent, lower_idempotent.
Qed.

Lemma code_normal_form (x : string) :
  Py.upper (Py.strip (Py.upper (Py.strip x))) = Py.upper (Py.strip x).
Proof.
  now rewrite strip_upper, strip_idempotent, upper_idempotent.
Qed.



(* ------------------------------------------------------------------ *)
(** ** Every commit keeps the store sound *)

Lemma nodup_map_snoc {A B} (f : A -> B) (l : list A) (x : A) :
  NoDup (map f l) -> ~ In (f x) (map f l) -> NoDup (map f (l ++ [x])).
Proof.
  intros Hn Hx. rewrite map_app. simpl.
  apply NoDup_app; [exact Hn | repeat constructor; intros [] | ].
  intros y Hy [<- | []]. exact (Hx Hy).
Qed.

Lemma nodup_map_filter {Row Col} (column : Row -> Col) (keep : Row -> bool) :
  forall rows, NoDup (map column rows) -> NoDup (map column (filter keep rows)).
Proof.
  intros rows Hn. induction rows as [|a l IH]; simpl; [constructor|].
  inversion Hn as [|? ? Hout Hrest]; subst. rename keep into p. simpl in *.
  destruct (p a); simpl; [|exact (IH Hrest)].
  constructor; [|exact (IH Hrest)].
  intros Hin. apply Hout. apply in_map_iff in Hin as (y & Hy & Hin).
  apply filter_In in Hin as [Hin _]. apply in_map_iff. now exists y.
Qed.

Lemma map_after_update {A B} (f : A -> B) (g : A -> A) (l : list A) :
  (forall x, f (g x) = f x) -> map f (map g l) = map f l.
Proof.
  intros Hg. rewrite map_map. apply map_ext. exact Hg.
Qed.

Lemma forall_filter {A} (P : A -> Prop) (p : A -> bool) (l : list A) :
  Forall P l -> Forall P (filter p l).
Proof.
  rewrite !Forall_forall. intros H x Hx. apply filter_In in Hx as [Hx _]. now apply H.
Qed.

Lemma forall_snoc {A} (P : A -> Prop) (l : list A) (x : A) :
  Forall P l -> P x -> Forall P (l ++ [x]).
Proof.
  intros Hl Hx. apply Forall_app. split; [exact Hl | now constructor].
Qed.

Lemma forall_below_more {A} (key : A -> Z) (n : Z) (l : list A) :
  Forall (fun x => key x < n) l -> Forall (fun x => key x < n + 1) l.
Proof.
  apply Forall_impl. intros; lia.
Qed.

Lemma no_clash_apart {A} (clash : A -> A -> bool) (x : A) (l : list A) :
  existsb (clash x) l = false -> forall y, In y l -> clash x y = false.
Proof.
  intros H y Hy. destruct (clash x y) eqn:E; [|reflexivity].
  assert (existsb (clash x) l = true) by (apply existsb_exists; now exists y).
  congruence.
Qed.

Lemma users_ok_snoc (l : list User.t) (n : Z) (u : User.t) :
  users_ok l n -> User.id u = n -> existsb (user_clash u) l = false ->
  email_normal u -> role_known u ->
  users_ok (l ++ [u]) (n + 1).
Proof.
  intros (Hb & Hi & He & Hn & Hr) Hid Hc Hen Hrk.
  pose proof (no_clash_apart _ _ _ Hc) as Hfar.
  repeat split.
  - apply forall_snoc; [now apply forall_below_more | lia].
  - apply nodup_map_snoc; [exact Hi|].
    intros Hin. apply in_map_iff in Hin as (v & Hv & Hin).
    specialize (Hfar v Hin). unfold user_clash in Hfar.
    rewrite !orb_false_iff in Hfar. destruct Hfar as (((Hk & _) & _) & _).
    apply Z.eqb_neq in Hk. congruence.
  - apply nodup_map_snoc; [exact He|].
    intros Hin. apply in_map_iff in Hin as (v & Hv & Hin).
    specialize (Hfar v Hin). unfold user_clash in Hfar.
    rewrite !orb_false_iff in Hfar. destruct Hfar as (((_ & Hk) & _) & _).
    apply String.eqb_neq in Hk. congruence.
  - now apply forall_snoc.
  - now apply forall_snoc.
Qed.

Lemma users_ok_filter (p : User.t -> bool) (l : list User.t) (n : Z) :
  users_ok l n -> users_ok (filter p l) n.
Proof.
  intros (Hb & Hi & He & Hn & Hr).
  repeat split; auto using forall_filter, nodup_map_filter.
Qed.

Lemma users_ok_avatar (key : Z) (url : string) (l : list User.t) (n : Z) :
  users_ok l n ->
  users_ok (map (update_row User.id key (User.set_avatar_url url)) l) n.
Proof.
  intros (Hb & Hi & He & Hn & Hr).
  assert (Hsame : forall v, let v' := update_row User.id key (User.set_avatar_url url) v in
                            User.id v' = User.id v /\ User.email v' = User.email v
                            /\ User.role v' = User.role v).
  { intros v. unfold update_row. simpl. now destruct (User.id v =? key). }
  repeat split.
  - apply Forall_map. revert Hb. apply Forall_impl. intros v Hv.
    now rewrite (proj1 (Hsame v)).
  - rewrite map_after_update; [exact Hi | intros v; exact (proj1 (Hsame v))].
  - rewrite map_after_update; [exact He | intros v; exact (proj1 (proj2 (Hsame v)))].
  - apply Forall_map. revert Hn. apply Forall_impl. intros v Hv.
    unfold email_normal. now rewrite (proj1 (proj2 (Hsame v))).
  - apply Forall_map. revert Hr. apply Forall_impl. intros v Hv.
    unfold role_known. now rewrite (proj2 (proj2 (Hsame v))).
Qed.

Lemma classes_ok_snoc (l : list Class.t) (n : Z) (c : Class.t) :
  classes_ok l n -> Class.id c = n -> existsb (class_clash c) l = false ->
  code_normal c ->
  classes_ok (l ++ [c]) (n + 1).
Proof.
  intros (Hb & Hi & He & Hn) Hid Hc Hcn.
  pose proof (no_clash_apart _ _ _ Hc) as Hfar.
  repeat split.
  - apply forall_snoc; [now apply forall_below_more | lia].
  - apply nodup_map_snoc; [exact Hi|].
    intros Hin. apply in_map_iff in Hin as (v & Hv & Hin).
    specialize (Hfar v Hin). unfold class_clash in Hfar.
    rewrite !orb_false_iff in Hfar. destruct Hfar as (Hk & _).
    apply Z.eqb_neq in Hk. congruence.
  - apply nodup_map_snoc; [exact He|].
    intros Hin. apply in_map_iff in Hin as (v & Hv & Hin).
    specialize (Hfar v Hin). unfold class_clash in Hfar.
    rewrite !orb_false_iff in Hfar. destruct Hfar as (_ & Hk).
    apply String.eqb_neq in Hk. congruence.
  - now apply forall_snoc.
Qed.

Lemma classes_ok_filter (p : Class.t -> bool) (l : list Class.t) (n : Z) :
  classes_ok l n -> classes_ok (filter p l) n.
Proof.
  intros (Hb & Hi & He & Hn).
  repeat split; auto using forall_filter, nodup_map_filter.
Qed.

Lemma members_ok_snoc (l : list ClassMember.t) (n : Z) (m : ClassMember.t) :
  members_ok l n -> ClassMember.id m = n -> existsb (member_clash m) l = false ->
  member_valid m ->
  members_ok (l ++ [m]) (n + 1).
Proof.
  intros (Hb & Hi & He & Hn) Hid Hc Hmv.
  pose proof (no_clash_apart _ _ _ Hc) as Hfar.
  repeat split.
  - apply forall_snoc; [now apply forall_below_more | lia].
  - apply nodup_map_snoc; [exact Hi|].
    intros Hin. apply in_map_iff in Hin as (v & Hv & Hin).
    specialize (Hfar v Hin). unfold member_clash in Hfar.
    rewrite !orb_false_iff in Hfar. destruct Hfar as (Hk & _).
    apply Z.eqb_neq in Hk. congruence.
  - apply nodup_map_snoc; [exact He|].
    intros Hin. apply in_map_iff in Hin as (v & Hv & Hin).
    specialize (Hfar v Hin). unfold member_clash in Hfar.
    rewrite !orb_false_iff in Hfar. destruct Hfar as (_ & Hk).
    unfold pair_of in Hv. injection Hv as H1 H2.
    rewrite <- H1, <- H2, !Z.eqb_refl in Hk. discriminate.
  - now apply forall_snoc.
Qed.

Lemma members_ok_filter (p : ClassMember.t -> bool) (l : list ClassMember.t) (n : Z) :
  members_ok l n -> members_ok (filter p l) n.
Proof.
  intros (Hb & Hi & He & Hn).
  repeat split; auto using forall_filter, nodup_map_filter.
Qed.

Lemma members_ok_status (key : Z) (st : string) (l : list ClassMember.t) (n : Z) :
  st = "pending" \/ st = "active" ->
  members_ok l n ->
  members_ok (map (update_row ClassMember.id key (ClassMember.set_status st)) l) n.
Proof.
  intros Hst (Hb & Hi & He & Hn).
  assert (Hsame : forall v,
             let v' := update_row ClassMember.id key (ClassMember.set_status st) v in
             ClassMember.id v' = ClassMember.id v /\ pair_of v' = pair_of v
             /\ ClassMember.role v' = ClassMember.role v
             /\ (ClassMember.status v' = ClassMember.status v
                 \/ ClassMember.status v' = st)).
  { intros v. unfold update_row. simpl.
    destruct (ClassMember.id v =? key); simpl; auto. }
  repeat split.
  - apply Forall_map. revert Hb. apply Forall_impl. intros v Hv.
    now rewrite (proj1 (Hsame v)).
  - rewrite map_after_update; [exact Hi | intros v; exact (proj1 (Hsame v))].
  - rewrite map_after_update; [exact He | intros v; exact (proj1 (proj2 (Hsame v)))].
  - apply Forall_map. revert Hn. apply Forall_impl. intros v [Hs Hr].
    destruct (Hsame v) as (_ & _ & Hr' & Hs').
    split; [|now rewrite Hr'].
    destruct Hs' as [-> | ->]; [exact Hs | exact Hst].
Qed.

Lemma messages_ok_snoc (l : list Message.t) (n : Z) (m : Message.t) :
  messages_ok l n -> Message.id m = n -> existsb (message_clash m) l = false ->
  posted m ->
  messages_ok (l ++ [m]) (n + 1).
Proof.
  intros (Hb & Hi & Hp) Hid Hc Hpm.
  pose proof (no_clash_apart _ _ _ Hc) as Hfar.
  repeat split.
  - apply forall_snoc; [now apply forall_below_more | lia].
  - apply nodup_map_snoc; [exact Hi|].
    intros Hin. apply in_map_iff in Hin as (v & Hv & Hin).
    specialize (Hfar v Hin). unfold message_clash in Hfar.
    apply Z.eqb_neq in Hfar. congruence.
  - now apply forall_snoc.
Qed.

Lemma messages_ok_filter (p : Message.t -> bool) (l : list Message.t) (n : Z) :
  messages_ok l n -> messages_ok (filter p l) n.
Proof.
  intros (Hb & Hi & Hp).
  repeat split; auto using forall_filter, nodup_map_filter.
Qed.

Lemma among_spec (cs : list Class.t) (k : Z) :
  among cs k = true <-> exists c, In c cs /\ Class.id c = k.
Proof.
  unfold among. rewrite existsb_exists.
  split; intros (c & Hc & Hk); exists c; split; auto; now apply Z.eqb_eq.
Qed.

Lemma in_updated {A} (g : A -> A) (l : list A) (x : A) :
  In x l -> In (g x) (map g l).
Proof. apply in_map. Qed.

Lemma same_id_same_user (l : list User.t) (u v : User.t) :
  NoDup (map User.id l) -> In u l -> In v l -> User.id u = User.id v -> u = v.
Proof.
  induction l as [|a l IH]; simpl; intros Hn Hu Hv He; [contradiction|].
  inversion Hn as [|? ? Hout Hrest]; subst.
  destruct Hu as [-> | Hu], Hv as [-> | Hv]; auto.
  - exfalso. apply Hout. rewrite He. now apply in_map.
  - exfalso. apply Hout. rewrite <- He. now apply in_map.
Qed.

Lemma commit_step_sound (s s' : Store) :
  sound s -> commit_step s s' -> sound s'.
Proof.
  intros (Hu & Hc & Hm & Hg & Rc & Rm & Rg) Hstep.
  destruct Hstep as
      [u Hid Hcl Hen Hrk | key url | c owner Hid Hcl Hin Hrole Hown Hcn
       | m c u Hid Hcl Hc1 Hc2 Hu1 Hu2 Hmv | key st Hst | m c Hid Hcl Hc1 Hc2 Hp
       | key | key | stu Hin Hrole | key].
  - (* a new user *)
    split; [exact (users_ok_snoc _ _ _ Hu Hid Hcl Hen Hrk)|].
    split; [exact Hc|]. split; [exact Hm|]. split; [exact Hg|].
    unfold references_ok; simpl. split; [|split; [|exact Rg]].
    + intros c Hc'. destruct (Rc c Hc') as (v & Hv & Hk).
      exists v. split; [apply in_or_app; now left | exact Hk].
    + intros m Hm'. split; [exact (proj1 (Rm m Hm'))|].
      destruct (proj2 (Rm m Hm')) as (v & Hv & Hk).
      exists v. split; [apply in_or_app; now left | exact Hk].
  - (* a new avatar *)
    split; [exact (users_ok_avatar key url _ _ Hu)|].
    split; [exact Hc|]. split; [exact Hm|]. split; [exact Hg|].
    unfold references_ok; simpl. split; [|split; [|exact Rg]].
    + intros c Hc'. destruct (Rc c Hc') as (v & Hv & Hk & Hr).
      exists (update_row User.id key (User.set_avatar_url url) v).
      split; [now apply in_map|].
      unfold update_row. now destruct (User.id v =? key).
    + intros m Hm'. split; [exact (proj1 (Rm m Hm'))|].
      destruct (proj2 (Rm m Hm')) as (v & Hv & Hk).
      exists (update_row User.id key (User.set_avatar_url url) v).
      split; [now apply in_map|].
      unfold update_row. now destruct (User.id v =? key).
  - (* a new class *)
    split; [exact Hu|].
    split; [exact (classes_ok_snoc _ _ _ Hc Hid Hcl Hcn)|].
    split; [exact Hm|]. split; [exact Hg|].
    unfold references_ok; simpl. split; [|split].
    + intros d Hd. apply in_app_or in Hd as [Hd | [<- | []]]; [exact (Rc d Hd)|].
      exists owner. auto.
    + intros m Hm'. split; [|exact (proj2 (Rm m Hm'))].
      destruct (proj1 (Rm m Hm')) as (d & Hd & Hk).
      exists d. split; [apply in_or_app; now left | exact Hk].
    + intros m Hm'. destruct (Rg m Hm') as (d & Hd & Hk).
      exists d. split; [apply in_or_app; now left | exact Hk].
  - (* a new membership *)
    split; [exact Hu|]. split; [exact Hc|].
    split; [exact (members_ok_snoc _ _ _ Hm Hid Hcl Hmv)|].
    split; [exact Hg|].
    unfold references_ok; simpl. split; [exact Rc|split; [|exact Rg]].
    intros x Hx. apply in_app_or in Hx as [Hx | [<- | []]]; [exact (Rm x Hx)|].
    split; [exists c | exists u]; auto.
  - (* a status written *)
    split; [exact Hu|]. split; [exact Hc|].
    split; [exact (members_ok_status key st _ _ Hst Hm)|].
    split; [exact Hg|].
    unfold references_ok; simpl. split; [exact Rc|split; [|exact Rg]].
    intros x Hx. apply in_map_iff in Hx as (v & <- & Hv).
    destruct (Rm v Hv) as [(d & Hd & Hk) (w & Hw & Hj)].
    split; [exists d | exists w]; (split; [assumption|]);
      unfold update_row; now destruct (ClassMember.id v =? key).
  - (* a new message *)
    split; [exact Hu|]. split; [exact Hc|]. split; [exact Hm|].
    split; [exact (messages_ok_snoc _ _ _ Hg Hid Hcl Hp)|].
    unfold references_ok; simpl. split; [exact Rc|split; [exact Rm|]].
    intros x Hx. apply in_app_or in Hx as [Hx | [<- | []]]; [exact (Rg x Hx)|].
    exists c. auto.
  - (* a message gone *)
    split; [exact Hu|]. split; [exact Hc|]. split; [exact Hm|].
    split; [exact (messages_ok_filter _ _ _ Hg)|].
    unfold references_ok; simpl. split; [exact Rc|split; [exact Rm|]].
    intros x Hx. apply filter_In in Hx as [Hx _]. exact (Rg x Hx).
  - (* a class gone *)
    split; [exact Hu|].
    split; [exact (classes_ok_filter _ _ _ Hc)|].
    split; [exact (members_ok_filter _ _ _ Hm)|].
    split; [exact (messages_ok_filter _ _ _ Hg)|].
    unfold references_ok; simpl. split; [|split].
    + intros d Hd. apply filter_In in Hd as [Hd _]. exact (Rc d Hd).
    + intros x H. apply filter_In in H as [H Hk].
      split; [|exact (proj2 (Rm _ H))].
      destruct (proj1 (Rm _ H)) as (d & Hd & He). exists d. split; [|exact He].
      apply filter_In. split; [exact Hd|].
      unfold in_class in Hk. now rewrite He.
    + intros x Hx. apply filter_In in Hx as [Hx Hk].
      destruct (Rg x Hx) as (d & Hd & He). exists d. split; [|exact He].
      apply filter_In. split; [exact Hd|].
      unfold of_class in Hk. now rewrite He.
  - (* a student gone *)
    split; [exact (users_ok_filter _ _ _ Hu)|].
    split; [exact Hc|].
    split; [exact (members_ok_filter _ _ _ Hm)|].
    split; [exact Hg|].
    unfold references_ok; simpl. split; [|split].
    + intros d Hd. destruct (Rc d Hd) as (v & Hv & Hk & Hr).
      exists v. split; [|auto]. apply filter_In. split; [exact Hv|].
      apply negb_true_iff, Z.eqb_neq. intros He.
      assert (v = stu)
        by (apply (same_id_same_user (users s)); auto; apply Hu).
      subst v. rewrite Hr in Hrole. discriminate.
    + intros x H. apply filter_In in H as [H Hk].
      split; [exact (proj1 (Rm _ H))|].
      destruct (proj2 (Rm _ H)) as (v & Hv & He). exists v. split; [|exact He].
      apply filter_In. split; [exact Hv|]. now rewrite He.
    + exact Rg.
  - (* a teacher gone *)
    split; [exact (users_ok_filter _ _ _ Hu)|].
    split; [exact (classes_ok_filter _ _ _ Hc)|].
    split; [apply members_ok_filter; exact (members_ok_filter _ _ _ Hm)|].
    split; [exact (messages_ok_filter _ _ _ Hg)|].
    unfold references_ok; simpl. split; [|split].
    + intros d Hd. apply filter_In in Hd as [Hd Hk].
      destruct (Rc d Hd) as (v & Hv & He & Hr).
      exists v. split; [|auto]. apply filter_In. split; [exact Hv|].
      apply negb_true_iff, Z.eqb_neq. intros Hvk.
      apply negb_true_iff in Hk.
      assert (among (owned_by s key) (Class.id d) = true); [|congruence].
      apply among_spec. exists d. split; [|reflexivity].
      apply filter_In. split; [exact Hd|]. apply Z.eqb_eq. congruence.
    + intros x H. apply filter_In in H as [H Hk1]. apply filter_In in H as [H Hk2].
      destruct (Rm _ H) as [(d & Hd & He) (v & Hv & Hj)].
      split; [exists d | exists v]; (split; [|assumption]);
        apply filter_In; (split; [assumption|]); [now rewrite He | now rewrite Hj].
    + intros x Hx. apply filter_In in Hx as [Hx Hk].
      destruct (Rg x Hx) as (d & Hd & He). exists d. split; [|exact He].
      apply filter_In. split; [exact Hd|]. now rewrite He.
Qed.

Lemma commit_steps_sound (s s' : Store) :
  sound s -> commit_steps s s' -> sound s'.
Proof.
  intros Hs Hsteps. induction Hsteps as [|s1 s2 s3 _ IH Hstep]; [exact Hs|].
  exact (commit_step_sound _ _ (IH Hs) Hstep).
Qed.

(* ------------------------------------------------------------------ *)
(** ** Every commit of a handler is one of the ten steps *)

Lemma one_step (s s' : Store) : commit_step s s' -> commit_steps s s'.
Proof.
  intros H. exact (steps_more s s s' (steps_none s) H).
Qed.

Ltac one_snapshot H :=
  repeat match type of H with
         | _ \/ _ => destruct H as [<- | H]
         | False => contradiction
         end.

Lemma register_student_steps (d : StudentRegister) (s s' : Store) :
  In s' (commits (events (run (register_student d) s))) -> commit_steps s s'.
Proof.
  unfold register_student. run_handler. intros H.
  split_cases H; one_snapshot H; apply one_step;
  (apply (step_user s (student_of_request d (users_seq s)));
   [reflexivity | assumption | apply email_normal_form | now left ]).
Qed.

Lemma create_teacher_steps (d : TeacherCreate) (s s' : Store) :
  In s' (commits (events (run (create_teacher d) s))) -> commit_steps s s'.
Proof.
  unfold create_teacher. run_handler. intros H.
  split_cases H; one_snapshot H; apply one_step;
  (apply (step_user s (teacher_of_request d (users_seq s)));
   [reflexivity | assumption | apply email_normal_form | right; now left ]).
Qed.

Lemma register_admin_steps (d : AdminRegister) (s s' : Store) :
  In s' (commits (events (run (register_admin d) s))) -> commit_steps s s'.
Proof.
  unfold register_admin. run_handler. intros H.
  split_cases H; one_snapshot H; apply one_step;
  (apply (step_user s (admin_of_request d (users_seq s)));
   [reflexivity | assumption | apply email_normal_form | right; now right ]).
Qed.

Lemma upload_avatar_steps (e : string) (ct : option string) (nm : string)
      (s s' : Store) :
  In s' (commits (events (run (upload_avatar e ct nm) s))) -> commit_steps s s'.
Proof.
  unfold upload_avatar. run_handler. intros H.
  split_cases H; one_snapshot H; apply one_step; apply step_avatar.
Qed.

Lemma teacher_approve_steps (d : ApproveRequest) (s s' : Store) :
  In s' (commits (events (run (teacher_approve d) s))) -> commit_steps s s'.
Proof.
  unfold teacher_approve. run_handler. intros H.
  split_cases H; one_snapshot H; apply one_step;
    (apply step_status; now right).
Qed.

Lemma remove_class_steps (d : RemoveClassRequest) (s s' : Store) :
  In s' (commits (events (run (remove_class d) s))) -> commit_steps s s'.
Proof.
  unfold remove_class. run_handler. intros H.
  split_cases H; one_snapshot H; apply one_step; apply step_class_gone.
Qed.

Lemma delete_message_steps (c m : Z) (e : option string) (s s' : Store) :
  In s' (commits (events (run (delete_message c m e) s))) -> commit_steps s s'.
Proof.
  unfold delete_message. run_handler. intros H.
  split_cases H; one_snapshot H; apply one_step; apply step_message_gone.
Qed.

Lemma post_class_message_steps (c : Z) (d : MessageCreate) (now : Z) (s s' : Store) :
  In s' (commits (events (run (post_class_message c d now) s))) -> commit_steps s s'.
Proof.
  unfold post_class_message. run_handler. intros H.
  split_cases H; one_snapshot H; apply one_step;
    match goal with
    | Hc : find _ (classes s) = Some ?k |- _ =>
        apply find_some in Hc as [Hin Hid]; apply Z.eqb_eq in Hid;
        apply (step_message s (message_of_request (messages_seq s) c d now) k);
        [reflexivity | assumption | assumption | exact Hid | eexists; reflexivity]
    end.
Qed.

Lemma student_join_class_steps (d : JoinClassRequest) (s s' : Store) :
  In s' (commits (events (run (student_join_class d) s))) -> commit_steps s s'.
Proof.
  unfold student_join_class. run_handler. intros H.
  split_cases H; one_snapshot H; apply one_step;
    first
      [ apply step_status; now left
      | match goal with
        | Hu : find _ (users s) = Some ?u, Hc : find _ (classes s) = Some ?k |- _ =>
            apply find_some in Hu as [Hu _]; apply find_some in Hc as [Hc _];
            apply (step_member s (pending_row s k u) k u);
            [reflexivity | assumption | assumption | reflexivity
             | assumption | reflexivity | split; now left]
        end ].
Qed.

Lemma delete_student_steps (k : Z) (s s' : Store) :
  In s' (commits (events (run (delete_student k) s))) -> commit_steps s s'.
Proof.
  unfold delete_student. run_handler. intros H.
  split_cases H; one_snapshot H; apply one_step.
  match goal with
  | Hu : find _ (users s) = Some ?u |- _ =>
      apply find_some in Hu as [Hu Hp]; apply andb_true_iff in Hp as [Hk Hr];
      apply Z.eqb_eq in Hk; apply String.eqb_eq in Hr; subst k;
      now apply (step_student_gone s u)
  end.
Qed.

Lemma create_class_steps (d : CreateClassRequest) (s s' : Store) :
  In s' (commits (events (run (create_class d) s))) -> commit_steps s s'.
Proof.
  unfold create_class. run_handler. intros H.
  split_cases H; one_snapshot H;
    match goal with
    | Hu : find _ (users s) = Some ?t |- _ =>
        apply find_some in Hu as [Hin Hp]; apply andb_true_iff in Hp as [_ Hr];
        apply String.eqb_eq in Hr;
        assert (Hfirst : commit_step s
                           (with_new_class (class_of_request d (classes_seq s) (User.id t)) s))
          by (apply (step_class s _ t);
              [reflexivity | assumption | assumption | assumption | reflexivity
               | apply code_normal_form]);
        first
          [ solve [apply one_step; exact Hfirst]
          | match goal with
            | Hf : find _ (classes s ++ _) = Some ?k |- _ =>
                apply find_some in Hf as [Hf _];
                apply (steps_more s _ _ (one_step _ _ Hfirst));
                apply (step_member
                         (with_new_class (class_of_request d (classes_seq s) (User.id t)) s)
                         (ClassMember.mk (class_members_seq s) (Class.id k)
                                         (User.id t) "teacher" "active") k t);
                [reflexivity | assumption | exact Hf | reflexivity | assumption
                 | reflexivity | split; now right]
            end ]
    end.
Qed.

Lemma delete_teacher_steps (k : Z) (s s' : Store) :
  In s' (commits (events (run (delete_teacher k) s))) -> commit_steps s s'.
Proof.
  destruct (find (fun u => (User.id u =? k) && (User.role u =? "teacher")%string) (users s))
    as [t|] eqn:E.
  - destruct (delete_teacher_run s k t E) as (tr & Hrun & Hc).
    rewrite Hrun. unfold events. simpl. rewrite Hc.
    intros [<- | []]. apply one_step. apply step_teacher_gone.
  - unfold delete_teacher, run, events.
    unfold bind at 1. unfold query_first at 1. simpl. rewrite E. simpl. contradiction.
Qed.

(** Every snapshot a request commits is reached from the store it ran on
    by commits of the ten kinds. *)
Lemma dispatch_steps (r : Request) (s s' : Store) :
  In s' (commits (snd (dispatch r s))) -> commit_steps s s'.
Proof.
  destruct r as [d | d | d | k | k | e ct nm | d | d | d | d | c d now | c m e];
    simpl; intros H.
  - now apply register_student_steps with d.
  - now apply register_admin_steps with d.
  - now apply create_teacher_steps with d.
  - now apply delete_teacher_steps with k.
  - now apply delete_student_steps with k.
  - now apply upload_avatar_steps with e ct nm.
  - now apply create_class_steps with d.
  - now apply remove_class_steps with d.
  - now apply student_join_class_steps with d.
  - now apply teacher_approve_steps with d.
  - now apply post_class_message_steps with c d now.
  - now apply delete_message_steps with c m e.
Qed.

Lemma empty_store_sound : sound empty_store.
Proof.
  unfold sound, users_ok, classes_ok, members_ok, messages_ok, references_ok. simpl.
  repeat split; first [constructor | intros ? [] | simpl in *; contradiction].
Qed.

Lemma reachable_sound (s : Store) : reachable s -> sound s.
Proof.
  induction 1 as [|s r s' _ IH Hin]; [exact empty_store_sound|].
  exact (commit_steps_sound _ _ IH (dispatch_steps _ _ _ Hin)).
Qed.

(* ------------------------------------------------------------------ *)
(** ** What holds of every reachable store *)

Lemma school_reachable : reachable school.
Proof.
  apply (reach_commit before_algebra (CreateClass algebra_request)).
  - apply (reach_commit staff_room (RegisterStudent bob_registers)).
    + apply (reach_commit empty_store (CreateTeacher ann_hired)).
      * apply reach_empty.
      * vm_compute. auto.
    + vm_compute. auto.
  - vm_compute. auto.
Qed.

Lemma forall_below (A : Type) (key : A -> Z) (n : Z) (l : list A) :
  Forall (fun x => key x < n) l -> forallb (fun x => key x <? n) l = true.
Proof.
  intros H. apply forallb_forall. rewrite Forall_forall in H.
  intros x Hx. apply Z.ltb_lt. now apply H.
Qed.

Lemma sound_sequences (s : Store) : sound s -> sequences_ahead s = true.
Proof.
  intros ((Hu & _) & (Hc & _) & (Hm & _) & (Hg & _) & _).
  unfold sequences_ahead.
  now rewrite !forall_below.
Qed.

Lemma same_image_same_row {A B} (f : A -> B) (l : list A) (a b : A) :
  NoDup (map f l) -> In a l -> In b l -> f a = f b -> a = b.
Proof.
  induction l as [|x l IH]; simpl; [contradiction|].
  intros Hn Ha Hb E. inversion Hn as [|? ? Hx Hn']; subst.
  destruct Ha as [-> | Ha], Hb as [-> | Hb]; auto.
  - exfalso. apply Hx. rewrite E. now apply in_map.
  - exfalso. apply Hx. rewrite <- E. now apply in_map.
Qed.

(** A query that can only match rows with the image of [x] under a unique
    column returns [x]. *)
Lemma find_unique {A B} (f : A -> B) (p : A -> bool) (l : list A) (x : A) :
  NoDup (map f l) -> In x l -> p x = true ->
  (forall y, In y l -> p y = true -> f y = f x) ->
  find p l = Some x.
Proof.
  intros Hn Hin Hp Hall.
  destruct (find p l) as [y|] eqn:E.
  - apply find_some in E as [Hy Hpy]. f_equal.
    apply (same_image_same_row f l); auto.
  - apply (find_none _ _ E) in Hin. congruence.
Qed.



Lemma stored_code_fixed (c : Class.t) :
  code_normal c ->
  Py.strip (Class.code c) = Class.code c
  /\ Py.upper (Py.strip (Py.lower (Class.code c))) = Class.code c.
Proof.
  unfold code_normal. intros H.
  assert (Hs : Py.strip (Class.code c) = Class.code c).
  { rewrite <- H at 1. now rewrite strip_upper, strip_idempotent. }
  split; [exact Hs|].
  rewrite strip_lower, Hs. rewrite <- H at 1. rewrite upper_lower_upper. exact H.
Qed.






(** X17.  In every reachable store the keys are unique: no two users share
    an id or an e-mail, no two classes share an id or a join code, no two
    memberships share an id or the pair of class and user, and no two
    messages share an id. *)
Theorem reachable_keys_unique (s : Store) :
  reachable s ->
  NoDup (map User.id (users s)) /\ NoDup (map User.email (users s))
  /\ NoDup (map Class.id (classes s)) /\ NoDup (map Class.code (classes s))
  /\ NoDup (map ClassMember.id (class_members s))
  /\ NoDup (map pair_of (class_members s))
  /\ NoDup (map Message.id (messages s)).
Proof.
  intros Hr. apply reachable_sound in Hr.
  destruct Hr as ((_ & U1 & U2 & _) & (_ & C1 & C2 & _) & (_ & M1 & M2 & _)
                  & (_ & G1 & _) & _).
  repeat split; assumption.
Qed.

Lemma reachable_keys_unique_witness :
  NoDup (map User.email (users school)).
Proof.
  exact (proj1 (proj2 (reachable_keys_unique school school_reachable))).
Defined.



(** X19.  In every reachable store no reference dangles, although no
    foreign key is checked: the owner of each class is a user with role
    teacher, each membership names a class and a user that exist, and
    each message names a class that exists. *)
Theorem reachable_references (s : Store) :
  reachable s -> references_ok s.
Proof.
  intros Hr. apply reachable_sound in Hr. apply Hr.
Qed.

Lemma reachable_references_witness : references_ok school.
Proof.
  exact (reachable_references school school_reachable).
Defined.






(* ------------------------------------------------------------------ *)
(** ** Between requests every class lists its owner *)

Lemma owner_listed_spec (s : Store) :
  owner_listed s = true
  <-> forall c, In c (classes s) ->
                exists m, In m (class_members s) /\ owner_row_of c m.
Proof.
  unfold owner_listed, owner_row_of. rewrite forallb_forall.
  split; intros H c Hc; specialize (H c Hc).
  - apply existsb_exists in H as (m & Hm & Hp).
    rewrite !andb_true_iff in Hp. destruct Hp as (((H1 & H2) & H3) & H4).
    apply Z.eqb_eq in H1, H2. apply String.eqb_eq in H3, H4.
    exists m. auto.
  - destruct H as (m & Hm & H1 & H2 & H3 & H4).
    apply existsb_exists. exists m. split; [exact Hm|].
    rewrite H1, H2, H3, H4, !Z.eqb_refl. reflexivity.
Qed.

Lemma owner_listed_same (s s' : Store) :
  classes s' = classes s -> class_members s' = class_members s ->
  owner_listed s = true -> owner_listed s' = true.
Proof.
  unfold owner_listed. now intros -> ->.
Qed.

Lemma owner_listed_member (s : Store) (m : ClassMember.t) :
  owner_listed s = true -> owner_listed (with_new_member m s) = true.
Proof.
  rewrite !owner_listed_spec. simpl. intros H c Hc.
  destruct (H c Hc) as (x & Hx & Hp). exists x. split; [|exact Hp].
  apply in_or_app. now left.
Qed.

Lemma owner_listed_active (s : Store) (key : Z) :
  owner_listed s = true -> owner_listed (with_status key "active" s) = true.
Proof.
  rewrite !owner_listed_spec. simpl. intros H c Hc.
  destruct (H c Hc) as (x & Hx & H1 & H2 & H3 & H4).
  exists (update_row ClassMember.id key (ClassMember.set_status "active") x).
  split; [now apply in_map|].
  unfold owner_row_of, update_row.
  destruct (ClassMember.id x =? key); simpl; auto.
Qed.

Lemma owner_listed_class_gone (s : Store) (key : Z) :
  owner_listed s = true -> owner_listed (without_class key s) = true.
Proof.
  rewrite !owner_listed_spec. simpl. intros H c Hc.
  apply filter_In in Hc as [Hc Hk].
  destruct (H c Hc) as (x & Hx & H1 & Hp).
  exists x. split; [|split; assumption].
  apply filter_In. split; [exact Hx|]. unfold in_class. now rewrite H1.
Qed.

Lemma owner_listed_student_gone (s : Store) (stu : User.t) :
  sound s -> In stu (users s) -> User.role stu = "student" ->
  owner_listed s = true -> owner_listed (without_user (User.id stu) s) = true.
Proof.
  intros ((_ & Hu & _) & _ & _ & _ & (Rc & _)) Hin Hrole.
  rewrite !owner_listed_spec. simpl. intros H c Hc.
  destruct (H c Hc) as (x & Hx & H1 & H2 & Hp).
  exists x. split; [|split; [|split]; assumption].
  apply filter_In. split; [exact Hx|].
  apply negb_true_iff, Z.eqb_neq. rewrite H2. intros He.
  destruct (Rc c Hc) as (v & Hv & Hk & Hr).
  assert (v = stu) by (apply (same_id_same_user (users s)); auto; congruence).
  subst v. rewrite Hr in Hrole. discriminate.
Qed.

Lemma owner_listed_teacher_gone (s : Store) (key : Z) :
  owner_listed s = true ->
  owner_listed (without_user key (without_classes (owned_by s key) s)) = true.
Proof.
  rewrite !owner_listed_spec. simpl. intros H c Hc.
  apply filter_In in Hc as [Hc Hk].
  destruct (H c Hc) as (x & Hx & H1 & H2 & Hp).
  exists x. split; [|split; [|split]; assumption].
  apply filter_In. split; [apply filter_In; split; [exact Hx | now rewrite H1]|].
  apply negb_true_iff, Z.eqb_neq. rewrite H2. intros He.
  apply negb_true_iff in Hk.
  assert (among (owned_by s key) (Class.id c) = true); [|congruence].
  apply among_spec. exists c. split; [|reflexivity].
  apply filter_In. split; [exact Hc|]. now apply Z.eqb_eq.
Qed.

Lemma owner_listed_created (s : Store) (c : Class.t) :
  owner_listed s = true ->
  owner_listed (with_owner_row c (with_new_class c s)) = true.
Proof.
  rewrite !owner_listed_spec. simpl. intros H k Hk.
  apply in_app_or in Hk as [Hk | [<- | []]].
  - destruct (H k Hk) as (x & Hx & Hp). exists x. split; [|exact Hp].
    apply in_or_app. now left.
  - eexists. split; [apply in_or_app; right; left; reflexivity|].
    unfold owner_row_of. simpl. auto.
Qed.

(** The owner's row of a new class never clashes in a sound store. *)
Lemma owner_row_fits (s : Store) (cid uid : Z) (r st : string) :
  sound s -> cid = classes_seq s ->
  existsb (member_clash (ClassMember.mk (class_members_seq s) cid uid r st))
          (class_members s) = false.
Proof.
  intros Hs Hcid. apply new_member_fits; [now apply sound_sequences|].
  destruct Hs as (_ & (Hb & _) & _ & _ & (_ & Rm & _)).
  unfold find_membership. apply find_none_absent.
  intros m Hm. unfold is_membership.
  destruct (proj1 (Rm m Hm)) as (k & Hk & He).
  rewrite Forall_forall in Hb. specialize (Hb k Hk). simpl in Hb.
  apply andb_false_iff. left. apply Z.eqb_neq. lia.
Qed.

Ltac final_cases Hrun H :=
  unfold final, events; simpl; revert Hrun; run_handler; intros H;
  split_cases H; injection H as <- <- <-.

Ltac is_snapshot := simpl; auto.

Lemma register_student_settles (d : StudentRegister) (s : Store) :
  owner_listed s = true ->
  let x := run (register_student d) s in
  (final x = s \/ In (final x) (commits (events x))) /\ owner_listed (final x) = true.
Proof.
  intros Hl x. unfold x.
  destruct (run (register_student d) s) as [[r f] ev] eqn:Hrun.
  unfold register_student in Hrun. final_cases Hrun H;
    (split; [is_snapshot | first [assumption | now apply (owner_listed_same s)]]).
Qed.

Lemma create_teacher_settles (d : TeacherCreate) (s : Store) :
  owner_listed s = true ->
  let x := run (create_teacher d) s in
  (final x = s \/ In (final x) (commits (events x))) /\ owner_listed (final x) = true.
Proof.
  intros Hl x. unfold x.
  destruct (run (create_teacher d) s) as [[r f] ev] eqn:Hrun.
  unfold create_teacher in Hrun. final_cases Hrun H;
    (split; [is_snapshot | first [assumption | now apply (owner_listed_same s)]]).
Qed.

Lemma register_admin_settles (d : AdminRegister) (s : Store) :
  owner_listed s = true ->
  let x := run (register_admin d) s in
  (final x = s \/ In (final x) (commits (events x))) /\ owner_listed (final x) = true.
Proof.
  intros Hl x. unfold x.
  destruct (run (register_admin d) s) as [[r f] ev] eqn:Hrun.
  unfold register_admin in Hrun. final_cases Hrun H;
    (split; [is_snapshot | first [assumption | now apply (owner_listed_same s)]]).
Qed.

Lemma upload_avatar_settles (e : string) (ct : option string) (nm : string) (s : Store) :
  owner_listed s = true ->
  let x := run (upload_avatar e ct nm) s in
  (final x = s \/ In (final x) (commits (events x))) /\ owner_listed (final x) = true.
Proof.
  intros Hl x. unfold x.
  destruct (run (upload_avatar e ct nm) s) as [[r f] ev] eqn:Hrun.
  unfold upload_avatar in Hrun. final_cases Hrun H;
    (split; [is_snapshot | first [assumption | now apply (owner_listed_same s)]]).
Qed.

Lemma post_class_message_settles (c : Z) (d : MessageCreate) (now : Z) (s : Store) :
  owner_listed s = true ->
  let x := run (post_class_message c d now) s in
  (final x = s \/ In (final x) (commits (events x))) /\ owner_listed (final x) = true.
Proof.
  intros Hl x. unfold x.
  destruct (run (post_class_message c d now) s) as [[r f] ev] eqn:Hrun.
  unfold post_class_message in Hrun. final_cases Hrun H;
    (split; [is_snapshot | first [assumption | now apply (owner_listed_same s)]]).
Qed.

Lemma delete_message_settles (c m : Z) (e : option string) (s : Store) :
  owner_listed s = true ->
  let x := run (delete_message c m e) s in
  (final x = s \/ In (final x) (commits (events x))) /\ owner_listed (final x) = true.
Proof.
  intros Hl x. unfold x.
  destruct (run (delete_message c m e) s) as [[r f] ev] eqn:Hrun.
  unfold delete_message in Hrun. final_cases Hrun H;
    (split; [is_snapshot | first [assumption | now apply (owner_listed_same s)]]).
Qed.

Lemma teacher_approve_settles (d : ApproveRequest) (s : Store) :
  owner_listed s = true ->
  let x := run (teacher_approve d) s in
  (final x = s \/ In (final x) (commits (events x))) /\ owner_listed (final x) = true.
Proof.
  intros Hl x. unfold x.
  destruct (run (teacher_approve d) s) as [[r f] ev] eqn:Hrun.
  unfold teacher_approve in Hrun. final_cases Hrun H;
    (split; [is_snapshot | first [assumption | now apply owner_listed_active]]).
Qed.

Lemma remove_class_settles (d : RemoveClassRequest) (s : Store) :
  owner_listed s = true ->
  let x := run (remove_class d) s in
  (final x = s \/ In (final x) (commits (events x))) /\ owner_listed (final x) = true.
Proof.
  intros Hl x. unfold x.
  destruct (run (remove_class d) s) as [[r f] ev] eqn:Hrun.
  unfold remove_class in Hrun. final_cases Hrun H;
    (split; [is_snapshot | first [assumption | now apply owner_listed_class_gone]]).
Qed.

Lemma delete_student_settles (k : Z) (s : Store) :
  sound s -> owner_listed s = true ->
  let x := run (delete_student k) s in
  (final x = s \/ In (final x) (commits (events x))) /\ owner_listed (final x) = true.
Proof.
  intros Hs Hl x. unfold x.
  destruct (run (delete_student k) s) as [[r f] ev] eqn:Hrun.
  unfold delete_student in Hrun. final_cases Hrun H;
    (split; [is_snapshot | try assumption]).
  match goal with
  | Hu : find _ (users s) = Some ?u |- _ =>
      apply find_some in Hu as [Hu Hp]; apply andb_true_iff in Hp as [Hk Hr];
      apply Z.eqb_eq in Hk; apply String.eqb_eq in Hr; subst k;
      now apply owner_listed_student_gone
  end.
Qed.

Lemma student_join_class_settles (d : JoinClassRequest) (s : Store) :
  sound s -> owner_listed s = true ->
  let x := run (student_join_class d) s in
  (final x = s \/ In (final x) (commits (events x))) /\ owner_listed (final x) = true.
Proof.
  intros Hs Hl x. unfold x.
  destruct (run (student_join_class d) s) as [[r f] ev] eqn:Hrun.
  unfold student_join_class in Hrun. final_cases Hrun H;
    (split; [is_snapshot | try assumption]);
    first
      [ now apply (owner_listed_member s (ClassMember.mk _ _ _ _ _))
      | exfalso;
        match goal with
        | Hm : find _ (class_members s) = Some ?m |- _ =>
            apply find_some in Hm as [Hm _];
            destruct Hs as (_ & _ & (_ & _ & _ & Hv) & _);
            rewrite Forall_forall in Hv; destruct (Hv m Hm) as [[Hp | Ha] _];
            [ rewrite Hp in *; discriminate | rewrite Ha in *; discriminate ]
        end ].
Qed.

Lemma refreshed_new_class (l : list Class.t) (c : Class.t) (n : Z) :
  existsb (class_clash c) l = false -> Class.id c = n ->
  find (fun r => Class.id r =? n) (l ++ [c]) = Some c.
Proof.
  intros Hc Hid. apply find_app_miss.
  - apply find_none_absent. intros x Hx.
    pose proof (no_clash_apart _ _ _ Hc x Hx) as Hfar.
    unfold class_clash in Hfar. apply orb_false_iff in Hfar as [Hfar _].
    rewrite Z.eqb_sym, <- Hid. exact Hfar.
  - rewrite Hid. apply Z.eqb_refl.
Qed.

Lemma create_class_settles (d : CreateClassRequest) (s : Store) :
  sound s -> owner_listed s = true ->
  let x := run (create_class d) s in
  (final x = s \/ In (final x) (commits (events x))) /\ owner_listed (final x) = true.
Proof.
  intros Hs Hl x. unfold x.
  destruct (run (create_class d) s) as [[r f] ev] eqn:Hrun.
  unfold create_class in Hrun. final_cases Hrun H;
    (split; [is_snapshot | try assumption]);
    match goal with
    | Hf : find _ (classes s ++ [?c]) = _, Hc : existsb (class_clash ?c) _ = false |- _ =>
        rewrite (refreshed_new_class (classes s) c (classes_seq s) Hc eq_refl) in Hf;
        [ injection Hf as <- || discriminate Hf ]
    end.
  - exfalso.
    match goal with
    | Hm : existsb (member_clash _) _ = true |- _ =>
        rewrite (owner_row_fits s _ _ _ _ Hs eq_refl) in Hm; discriminate Hm
    end.
  - match goal with
    | |- owner_listed (with_class_members (fun l => l ++ [ClassMember.mk _ (Class.id ?c) _ _ _]) _)
         = true =>
        now apply (owner_listed_created s c)
    end.
Qed.

Lemma delete_teacher_settles (k : Z) (s : Store) :
  owner_listed s = true ->
  let x := run (delete_teacher k) s in
  (final x = s \/ In (final x) (commits (events x))) /\ owner_listed (final x) = true.
Proof.
  intros Hl x. unfold x.
  destruct (find (fun u => (User.id u =? k) && (User.role u =? "teacher")%string) (users s))
    as [t|] eqn:E.
  - destruct (delete_teacher_run s k t E) as (tr & Hrun & Hc).
    rewrite Hrun. unfold final, events. simpl. rewrite Hc. split.
    + right. now left.
    + now apply owner_listed_teacher_gone.
  - assert (Hrun : run (delete_teacher k) s
                   = (Raise (HTTPException 404 "Teacher not found"), s, [])).
    { unfold delete_teacher, run.
      unfold bind at 1. unfold query_first at 1. simpl. rewrite E. reflexivity. }
    rewrite Hrun. unfold final. simpl. auto.
Qed.

(** A request that runs to its end on a sound store with every owner
    listed leaves such a store. *)
Lemma dispatch_settles (r : Request) (s : Store) :
  sound s -> owner_listed s = true ->
  sound (fst (dispatch r s)) /\ owner_listed (fst (dispatch r s)) = true.
Proof.
  intros Hs Hl.
  assert (H : (fst (dispatch r s) = s
               \/ In (fst (dispatch r s)) (commits (snd (dispatch r s))))
              /\ owner_listed (fst (dispatch r s)) = true).
  { destruct r as [d | d | d | k | k | e ct nm | d | d | d | d | c d now | c m e]; simpl.
    - now apply register_student_settles.
    - now apply register_admin_settles.
    - now apply create_teacher_settles.
    - now apply delete_teacher_settles.
    - now apply delete_student_settles.
    - now apply upload_avatar_settles.
    - now apply create_class_settles.
    - now apply remove_class_settles.
    - now apply student_join_class_settles.
    - now apply teacher_approve_settles.
    - now apply post_class_message_settles.
    - now apply delete_message_settles. }
  destruct H as [[H | H] Hl']; split; auto.
  - now rewrite H.
  - exact (commit_steps_sound _ _ Hs (dispatch_steps _ _ _ H)).
Qed.

Lemma settled_sound (s : Store) : settled s -> sound s /\ owner_listed s = true.
Proof.
  induction 1 as [|s r _ [IH1 IH2]].
  - split; [exact empty_store_sound | reflexivity].
  - now apply dispatch_settles.
Qed.

(** X21.  Between requests that ran to their end, starting from the empty
    database, every class has a membership row of its owner with role
    teacher and status active. *)
Theorem settled_owner_listed (s : Store) :
  settled s ->
  owner_listed s = true
  /\ forall c, In c (classes s) ->
               exists m, In m (class_members s) /\ owner_row_of c m.
Proof.
  intros H. apply settled_sound in H as [_ H].
  split; [exact H|]. now apply owner_listed_spec.
Qed.

Lemma settled_owner_listed_witness :
  exists m, In m (class_members school) /\ owner_row_of algebra m.
Proof.
  apply (proj2 (settled_owner_listed
                  school
                  (settled_request _ (CreateClass algebra_request)
                     (settled_request _ (RegisterStudent bob_registers)
                        (settled_request _ (CreateTeacher ann_hired) settled_empty))))).
  simpl. auto.
Defined.

(* ------------------------------------------------------------------ *)
(** ** Class lists and member lists *)

Lemma get_class_members_run (s : Store) (cid : Z) :
  run (get_class_members cid) s
  = (Ok (map (fun m =>
                mkMemberOut
                  (match find (fun u => User.id u =? ClassMember.user_id m) (users s) with
                   | Some u => User.email u
                   | None => ""
                   end)
                  (ClassMember.role m) (ClassMember.status m))
             (filter (in_class cid) (class_members s))),
     s, []).
Proof.
  reflexivity.
Qed.


(** X22.  In every reachable store the member list of a class has one
    entry per membership row of the class, in table order, and each entry
    carries the e-mail of the user the row names, with the row's role and
    status: the empty e-mail that stands for a missing user is never
    reported. *)
Theorem class_members_named (s : Store) (cid : Z) :
  reachable s ->
  exists outs,
    run (get_class_members cid) s = (Ok outs, s, [])
    /\ Forall2 (fun m o =>
                  exists u, In u (users s) /\ User.id u = ClassMember.user_id m
                            /\ mo_email o = User.email u
                            /\ mo_role o = ClassMember.role m
                            /\ mo_status o = ClassMember.status m)
               (filter (in_class cid) (class_members s)) outs.
Proof.
  intros Hr. apply reachable_sound in Hr.
  eexists. split; [apply get_class_members_run|].
  assert (Hall : forall m, In m (filter (in_class cid) (class_members s)) ->
                           In m (class_members s))
    by (intros m Hm; apply filter_In in Hm; tauto).
  induction (filter (in_class cid) (class_members s)) as [|m rows IH]; simpl;
    constructor.
  - destruct Hr as (Hu & _ & _ & _ & (_ & Rm & _)).
    destruct (proj2 (Rm m (Hall m (or_introl eq_refl)))) as (u & Hin & Hid).
    exists u. rewrite <- Hid.
    rewrite (find_unique User.id (fun v => User.id v =? User.id u) (users s) u);
      auto.
    + apply Hu.
    + apply Z.eqb_refl.
    + intros y _ Hy. now apply Z.eqb_eq.
  - apply IH. intros x Hx. apply Hall. now right.
Qed.

Lemma class_members_named_witness :
  exists outs,
    run (get_class_members 1) school = (Ok outs, school, [])
    /\ Forall2 (fun m o =>
                  exists u, In u (users school) /\ User.id u = ClassMember.user_id m
                            /\ mo_email o = User.email u
                            /\ mo_role o = ClassMember.role m
                            /\ mo_status o = ClassMember.status m)
               (filter (in_class 1) (class_members school)) outs.
Proof.
  exact (class_members_named school 1 school_reachable).
Defined.



Lemma remove_class_done (s : Store) (d : RemoveClassRequest) (reply : string) :
  result (run (remove_class d) s) = Ok reply ->
  exists teacher c,
    find_user s (rc_owner_email d) "teacher" = Some teacher
    /\ find_owned_class s (rc_class_id d) (User.id teacher) = Some c
    /\ final (run (remove_class d) s) = without_class (Class.id c) s.
Proof.
  unfold find_user, find_owned_class. intros Hres.
  destruct (find (user_is (Py.lower (Py.strip (rc_owner_email d))) "teacher") (users s))
    as [t|] eqn:Et.
  - destruct (find (fun c => (Class.id c =? rc_class_id d) && (Class.owner_id c =? User.id t))
                   (classes s)) as [c|] eqn:Ec.
    + exists t, c. split; [reflexivity|]. split; [exact Ec|].
      pose proof (remove_class_run s d t c Et Ec) as Hrun.
      unfold final. now rewrite Hrun.
    + revert Hres. unfold remove_class. run_handler. rewrite Et. simpl. rewrite Ec.
      discriminate.
  - revert Hres. unfold remove_class. run_handler. rewrite Et. discriminate.
Qed.

(** X24.  After a class is removed from a reachable store nothing of it
    is left to find: its key is no class any more, so its messages answer
    404 Class not found and its member list is empty, and its join code
    names no class, so JoinClass with that code answers 404 Join code not
    found for every student. *)
Theorem removed_class_gone (s : Store) (d : RemoveClassRequest) (reply : string) :
  reachable s ->
  result (run (remove_class d) s) = Ok reply ->
  let s' := final (run (remove_class d) s) in
  exists c,
    In c (classes s) /\ Class.id c = rc_class_id d
    /\ (forall ch, run (get_class_messages (rc_class_id d) ch) s'
                   = (Raise (HTTPException 404 "Class not found"), s', []))
    /\ run (get_class_members (rc_class_id d)) s' = (Ok [], s', [])
    /\ find_class_by_code s' (Class.code c) = None
    /\ (forall e st,
           find_user s' e "student" = Some st ->
           run (student_join_class (mkJoinClassRequest e (Class.code c))) s'
           = (Raise (HTTPException 404 "Join code not found"), s', [])).
Proof.
  intros Hr Hok s'. apply reachable_sound in Hr.
  destruct (remove_class_done s d reply Hok) as (t & c & Ht & Hc & Hfin).
  unfold find_owned_class in Hc. apply find_some in Hc as [Hin Hp].
  apply andb_true_iff in Hp as [Hid _]. apply Z.eqb_eq in Hid.
  exists c. split; [exact Hin|]. split; [exact Hid|].
  assert (Hcode : find_class_by_code s' (Class.code c) = None).
  { unfold s'. rewrite Hfin. unfold find_class_by_code. simpl.
    apply find_none_absent. intros x Hx. apply filter_In in Hx as [Hx Hk].
    destruct Hr as (_ & (_ & _ & Hcodes & Hnorm) & _).
    rewrite Forall_forall in Hnorm. rewrite (Hnorm c Hin).
    apply String.eqb_neq. intros He.
    assert (x = c) by (apply (same_image_same_row Class.code (classes s)); auto).
    subst x. rewrite Z.eqb_refl in Hk. discriminate. }
  repeat split.
  - intros ch. rewrite get_class_messages_outcome.
    unfold s' at 1. rewrite Hfin. simpl. rewrite <- Hid.
    now rewrite (find_negb_filter (fun x => Class.id x =? Class.id c)).
  - rewrite get_class_members_run.
    unfold s' at 1 2. rewrite Hfin. simpl. rewrite <- Hid.
    now rewrite (filter_negb_filter (in_class (Class.id c))).
  - exact Hcode.
  - intros e st Hst. unfold find_user in Hst. unfold find_class_by_code in Hcode.
    unfold student_join_class. run_handler. rewrite Hst. simpl. now rewrite Hcode.
Qed.

Lemma removed_class_gone_witness :
  exists c,
    In c (classes school) /\ Class.id c = 1
    /\ (forall ch,
           run (get_class_messages 1 ch)
               (final (run (remove_class (mkRemoveClassRequest 1 "ann@x.com")) school))
           = (Raise (HTTPException 404 "Class not found"),
              final (run (remove_class (mkRemoveClassRequest 1 "ann@x.com")) school), []))
    /\ run (get_class_members 1)
           (final (run (remove_class (mkRemoveClassRequest 1 "ann@x.com")) school))
       = (Ok [], final (run (remove_class (mkRemoveClassRequest 1 "ann@x.com")) school), [])
    /\ find_class_by_code
         (final (run (remove_class (mkRemoveClassRequest 1 "ann@x.com")) school))
         (Class.code c) = None
    /\ (forall e st,
           find_user (final (run (remove_class (mkRemoveClassRequest 1 "ann@x.com")) school))
                     e "student" = Some st ->
           run (student_join_class (mkJoinClassRequest e (Class.code c)))
               (final (run (remove_class (mkRemoveClassRequest 1 "ann@x.com")) school))
           = (Raise (HTTPException 404 "Join code not found"),
              final (run (remove_class (mkRemoveClassRequest 1 "ann@x.com")) school), [])).
Proof.
  apply (removed_class_gone school (mkRemoveClassRequest 1 "ann@x.com") "Class deleted"
                            school_reachable).
  reflexivity.
Defined.
